(** * scripts/translate_bill.py: parsing, rule evaluation and duplicate detection

    A shallow embedding of the line-item pipeline of [translate_bill.py]:
    [blank], [parse_money], [load_code_definitions], [detect_delimiter],
    [parse_line_items] and [evaluate_line_items], together with the parts of
    the Python runtime they call ([str.strip], [int], [float],
    [datetime.strptime], [csv.DictReader], [sorted], [dict]).

    Conventions.
    - Text is a [string] whose characters are the code points 0..255.
    - A Python exception is a value [Raise e] of [result]; the functions of
      the script that catch an exception are written with a [match].
    - A Python [float] is an IEEE binary64 value, [spec_float] with
      precision 53 and maximal exponent 1024.
    - A Python [int] is a [Z]; [int(s)] reads any number of digits. *)

From Stdlib Require Import ZArith List String Ascii Bool Lia.
From Stdlib Require Import Permutation Sorted DecimalString SpecFloat.
From stdpp Require Import gmap strings.
Import ListNotations.

Open Scope string_scope.
Open Scope list_scope.
Open Scope Z_scope.

(** ** Exceptions *)

Inductive exn : Type :=
| ValueError
| KeyError
| AttributeError
| CsvError.

Inductive result (A : Type) : Type :=
| Ok (a : A)
| Raise (e : exn).

Arguments Ok {A} a.
Arguments Raise {A} e.

Definition bind {A B : Type} (r : result A) (k : A -> result B) : result B :=
  match r with
  | Ok a => k a
  | Raise e => Raise e
  end.

Notation "'let*' x ':=' r 'in' k" := (bind r (fun x => k))
  (at level 10, x name, r at level 100, k at level 200).

(** [[f(x) for x in l]] where [f] may raise: the first exception wins. *)
Fixpoint mapM {A B : Type} (f : A -> result B) (l : list A) : result (list B) :=
  match l with
  | [] => Ok []
  | x :: rest =>
      let* y := f x in
      let* ys := mapM f rest in
      Ok (y :: ys)
  end.

(** ** The Python runtime *)

Module Py.

(** *** Characters *)

Definition ord (c : ascii) : Z := Z.of_nat (nat_of_ascii c).

Definition LF : ascii := "010"%char.
Definition CR : ascii := "013"%char.
Definition TAB : ascii := "009"%char.

(** [str.isspace] on one character. *)
Definition isspace (c : ascii) : bool :=
  let n := ord c in
  ((9 <=? n) && (n <=? 13)) || ((28 <=? n) && (n <=? 32))
  || (n =? 133) || (n =? 160).

(** The line boundaries of [str.splitlines]. *)
Definition is_linebreak (c : ascii) : bool :=
  let n := ord c in
  ((10 <=? n) && (n <=? 13)) || ((28 <=? n) && (n <=? 30)) || (n =? 133).

Definition lower_char (c : ascii) : ascii :=
  let n := ord c in
  if ((65 <=? n) && (n <=? 90))
     || ((192 <=? n) && (n <=? 222) && negb (n =? 215))
  then ascii_of_nat (Z.to_nat (n + 32)) else c.

Definition digit_val (c : ascii) : option Z :=
  let n := ord c in
  if (48 <=? n) && (n <=? 57) then Some (n - 48) else None.

(** *** Strings *)

Fixpoint lstrip (s : string) : string :=
  match s with
  | EmptyString => EmptyString
  | String c r => if isspace c then lstrip r else s
  end.

Fixpoint rstrip (s : string) : string :=
  match s with
  | EmptyString => EmptyString
  | String c r =>
      match rstrip r with
      | EmptyString => if isspace c then EmptyString else String c EmptyString
      | r' => String c r'
      end
  end.

Definition strip (s : string) : string := rstrip (lstrip s).

Fixpoint lower (s : string) : string :=
  match s with
  | EmptyString => EmptyString
  | String c r => String (lower_char c) (lower r)
  end.

(** [s.replace(c, "")] for a one-character [c]. *)
Fixpoint remove_char (c : ascii) (s : string) : string :=
  match s with
  | EmptyString => EmptyString
  | String d r =>
      if Ascii.eqb c d then remove_char c r else String d (remove_char c r)
  end.

(** [s.count(c)] for a one-character [c]. *)
Fixpoint count (c : ascii) (s : string) : Z :=
  match s with
  | EmptyString => 0
  | String d r => (if Ascii.eqb c d then 1 else 0) + count c r
  end.

(** [sep.join(l)] *)
Fixpoint join (sep : string) (l : list string) : string :=
  match l with
  | [] => ""
  | [x] => x
  | x :: rest => x +:+ sep +:+ join sep rest
  end.

Fixpoint startswith (p s : string) : bool :=
  match p, s with
  | EmptyString, _ => true
  | String a p', String b s' => Ascii.eqb a b && startswith p' s'
  | String _ _, EmptyString => false
  end.

(** [str.splitlines()]: no line ends are kept, a [CR LF] pair is one
    boundary, and a final boundary opens no further line. *)
Fixpoint splitlines (s : string) : list string :=
  match s with
  | EmptyString => []
  | String c r =>
      if is_linebreak c then
        match r with
        | String d r' =>
            if Ascii.eqb c CR && Ascii.eqb d LF
            then "" :: splitlines r'
            else "" :: splitlines r
        | EmptyString => [""]
        end
      else
        match splitlines r with
        | [] => [String c ""]
        | l :: ls => String c l :: ls
        end
  end.

(** The lines of [io.StringIO(s)]: split after every line feed, which
    stays at the end of its line; no other character ends a line. *)
Fixpoint io_lines (s : string) : list string :=
  match s with
  | EmptyString => []
  | String c r =>
      if Ascii.eqb c LF then String c "" :: io_lines r
      else
        match io_lines r with
        | [] => [String c ""]
        | l :: ls => String c l :: ls
        end
  end.

(** [str(n)] for an integer. *)
Definition str_int (n : Z) : string := NilZero.string_of_int (Z.to_int n).

(** *** [int(s)] in base ten *)

(** [digit (["_"] digit)*], the whole of [s]; returns the digits. *)
Fixpoint digitpart (s : string) : option (list Z) :=
  match s with
  | EmptyString => None
  | String c r =>
      match digit_val c with
      | None => None
      | Some d =>
          match r with
          | EmptyString => Some [d]
          | String u r' =>
              if Ascii.eqb u "_"
              then option_map (cons d) (digitpart r')
              else option_map (cons d) (digitpart r)
          end
      end
  end.

Definition digits_value (ds : list Z) : Z :=
  fold_left (fun acc d => 10 * acc + d) ds 0.

(** A leading sign; [true] is minus. *)
Definition split_sign (s : string) : bool * string :=
  match s with
  | String c r =>
      if Ascii.eqb c "-" then (true, r)
      else if Ascii.eqb c "+" then (false, r)
      else (false, s)
  | EmptyString => (false, s)
  end.

Definition int (s : string) : result Z :=
  let '(neg, body) := split_sign (strip s) in
  match digitpart body with
  | Some ds => Ok (if neg then - digits_value ds else digits_value ds)
  | None => Raise ValueError
  end.

(** *** [float(s)] *)

Definition binary64 : Type := spec_float.
Definition prec : Z := 53.
Definition emax : Z := 1024.

(** The binary64 value nearest to [n / d], ties to even. *)
Definition round_ratio (neg : bool) (n d : positive) : binary64 :=
  let '(mz, ez, lz) := SFdiv_core_binary prec emax (Zpos n) 0 (Zpos d) 0 in
  binary_round_aux prec emax neg mz ez lz.

(** The binary64 value nearest to [digits * 10 ^ exp10]. *)
Definition of_decimal (neg : bool) (digits exp10 : Z) : binary64 :=
  match digits with
  | Zpos m =>
      if 0 <=? exp10
      then round_ratio neg (Z.to_pos (Zpos m * 10 ^ exp10)) 1
      else round_ratio neg m (Z.to_pos (10 ^ (- exp10)))
  | _ => S754_zero neg
  end.

Fixpoint split_at (p : ascii -> bool) (s : string) : string * option string :=
  match s with
  | EmptyString => ("", None)
  | String c r =>
      if p c then ("", Some r)
      else let '(a, b) := split_at p r in (String c a, b)
  end.

(** [[digitpart] "." digitpart | digitpart ["."]]: the digits before and
    after the point. *)
Definition number (s : string) : option (list Z * list Z) :=
  match split_at (Ascii.eqb ".") s with
  | (ip, None) => option_map (fun ds => (ds, [])) (digitpart ip)
  | (EmptyString, Some fp) => option_map (fun ds => ([], ds)) (digitpart fp)
  | (ip, Some EmptyString) => option_map (fun ds => (ds, [])) (digitpart ip)
  | (ip, Some fp) =>
      match digitpart ip, digitpart fp with
      | Some a, Some b => Some (a, b)
      | _, _ => None
      end
  end.

(** [("e" | "E") [sign] digitpart], without its first letter. *)
Definition exponent (s : string) : option Z :=
  let '(neg, body) := split_sign s in
  option_map (fun ds => if neg then - digits_value ds else digits_value ds)
             (digitpart body).

Definition is_e (c : ascii) : bool := Ascii.eqb c "e" || Ascii.eqb c "E".

(** [floatnumber], correctly rounded. *)
Definition floatnumber (neg : bool) (s : string) : option binary64 :=
  let '(mant, ex) := split_at is_e s in
  match number mant, match ex with None => Some 0 | Some e => exponent e end with
  | Some (ip, fp), Some e =>
      Some (of_decimal neg (digits_value (ip ++ fp)) (e - Z.of_nat (length fp)))
  | _, _ => None
  end.

Definition float (s : string) : result binary64 :=
  let '(neg, body) := split_sign (strip s) in
  let low := lower body in
  if (low =? "inf")%string || (low =? "infinity")%string then Ok (S754_infinity neg)
  else if (low =? "nan")%string then Ok S754_nan
  else match floatnumber neg body with
       | Some x => Ok x
       | None => Raise ValueError
       end.

(** [x > 0], [x < 0] and [x == y] on floats; every comparison with a NaN is
    false, and the two zeros are equal. *)
Definition float_zero : binary64 := S754_zero false.
Definition float_gt0 (x : binary64) : bool := SFltb float_zero x.
Definition float_eq (x y : binary64) : bool := SFeqb x y.

(** *** [datetime.date] *)

Record date : Type := mkdate { year : Z; month : Z; day : Z }.

Definition is_leap (y : Z) : bool :=
  (y mod 4 =? 0) && (negb (y mod 100 =? 0) || (y mod 400 =? 0)).

Definition days_in_month (y m : Z) : Z :=
  if m =? 2 then (if is_leap y then 29 else 28)
  else if (m =? 4) || (m =? 6) || (m =? 9) || (m =? 11) then 30
  else 31.

(** The constructor [date(y, m, d)], which raises outside the calendar. *)
Definition make_date (y m d : Z) : result date :=
  if (1 <=? y) && (y <=? 9999) && (1 <=? m) && (m <=? 12)
     && (1 <=? d) && (d <=? days_in_month y m)
  then Ok (mkdate y m d) else Raise ValueError.

(** All of [s] is [n] decimal digits. *)
Fixpoint fixed_digits (n : nat) (s : string) : option (list Z) :=
  match n, s with
  | O, EmptyString => Some []
  | S n', String c r =>
      match digit_val c with
      | Some d => option_map (cons d) (fixed_digits n' r)
      | None => None
      end
  | _, _ => None
  end.

(** The directive [%m]: [1[0-2]|0[1-9]|[1-9]]. *)
Definition month_field (s : string) : option Z :=
  match fixed_digits 2 s, fixed_digits 1 s with
  | Some ds, _ | None, Some ds =>
      let v := digits_value ds in
      if (1 <=? v) && (v <=? 12) then Some v else None
  | None, None => None
  end.

(** The directive [%d]: [3[0-1]|[1-2]\d|0[1-9]|[1-9]| [1-9]]. *)
Definition day_field (s : string) : option Z :=
  let t := match s with
           | String c r => if Ascii.eqb c " " then String "0" r else s
           | EmptyString => s
           end in
  match fixed_digits 2 t, fixed_digits 1 s with
  | Some ds, _ | None, Some ds =>
      let v := digits_value ds in
      if (1 <=? v) && (v <=? 31) then Some v else None
  | None, None => None
  end.

(** [datetime.strptime(s, "%Y-%m-%d").date()]: four digits, a dash, the
    month up to the next dash, and the day as the whole rest. *)
Definition strptime (s : string) : result date :=
  match s with
  | String y1 (String y2 (String y3 (String y4 (String dash rest)))) =>
      match fixed_digits 4 (String y1 (String y2 (String y3 (String y4 ""))))
      with
      | Some ys =>
          if Ascii.eqb dash "-" then
            match split_at (Ascii.eqb "-") rest with
            | (ms, Some ds) =>
                match month_field ms, day_field ds with
                | Some m, Some d => make_date (digits_value ys) m d
                | _, _ => Raise ValueError
                end
            | (_, None) => Raise ValueError
            end
          else Raise ValueError
      | None => Raise ValueError
      end
  | _ => Raise ValueError
  end.

(** [n] in decimal, padded with zeros to [width] characters. *)
Definition zfill (width : nat) (n : Z) : string :=
  let s := str_int n in
  string_of_list_ascii
    (repeat "0"%char (width - String.length s)) +:+ s.

(** [d.strftime("%Y-%m-%d")], the year on four digits.  (For a year below
    1000 some C libraries leave out the leading zeros; the rendering stays
    one-to-one on dates either way.) *)
Definition strftime (d : date) : string :=
  zfill 4 (year d) +:+ "-" +:+ zfill 2 (month d) +:+ "-" +:+ zfill 2 (day d).

(** [a > b] on dates. *)
Definition date_gt (a b : date) : bool :=
  (year b <? year a)
  || ((year b =? year a)
      && ((month b <? month a)
          || ((month b =? month a) && (day b <? day a)))).

End Py.

(** ** [csv.reader] with the [excel] dialect

    The reader is the state machine of the [csv] module for a delimiter
    [delim], the quote character, doubled quotes, no escape character and
    [strict] off.  [None] as input is the end of a line. *)

Module Csv.

Inductive state : Type :=
| START_RECORD
| START_FIELD
| IN_FIELD
| IN_QUOTED_FIELD
| QUOTE_IN_QUOTED_FIELD
| EAT_CRNL.

Definition state_eqb (a b : state) : bool :=
  match a, b with
  | START_RECORD, START_RECORD | START_FIELD, START_FIELD
  | IN_FIELD, IN_FIELD | IN_QUOTED_FIELD, IN_QUOTED_FIELD
  | QUOTE_IN_QUOTED_FIELD, QUOTE_IN_QUOTED_FIELD | EAT_CRNL, EAT_CRNL => true
  | _, _ => false
  end.

Definition quotechar : ascii := "034"%char.
Definition field_limit : Z := 131072.

(** [fields] and [field] are kept in reverse. *)
Record reader : Type := mkreader {
  st : state;
  fields : list string;
  field : list ascii;
  field_len : Z
}.

Definition parse_reset : reader := mkreader START_RECORD [] [] 0.

Definition parse_save_field (r : reader) : reader :=
  mkreader (st r) (string_of_list_ascii (rev (field r)) :: fields r) [] 0.

Definition parse_add_char (r : reader) (c : ascii) : result reader :=
  if field_limit <=? field_len r then Raise CsvError
  else Ok (mkreader (st r) (fields r) (c :: field r) (field_len r + 1)).

Definition set_state (s : state) (r : reader) : reader :=
  mkreader s (fields r) (field r) (field_len r).

Definition is_nl (c : ascii) : bool := Ascii.eqb c Py.LF || Ascii.eqb c Py.CR.

Definition start_field (delim : ascii) (r : reader) (c : option ascii)
  : result reader :=
  match c with
  | None => Ok (set_state START_RECORD (parse_save_field r))
  | Some c =>
      if is_nl c then Ok (set_state EAT_CRNL (parse_save_field r))
      else if Ascii.eqb c quotechar then Ok (set_state IN_QUOTED_FIELD r)
      else if Ascii.eqb c delim then Ok (parse_save_field r)
      else
        let* r' := parse_add_char r c in
        Ok (set_state IN_FIELD r')
  end.

Definition parse_process_char (delim : ascii) (r : reader) (c : option ascii)
  : result reader :=
  match st r with
  | START_RECORD =>
      match c with
      | None => Ok r
      | Some c' =>
          if is_nl c' then Ok (set_state EAT_CRNL r)
          else start_field delim (set_state START_FIELD r) c
      end
  | START_FIELD => start_field delim r c
  | IN_FIELD =>
      match c with
      | None => Ok (set_state START_RECORD (parse_save_field r))
      | Some c =>
          if is_nl c then Ok (set_state EAT_CRNL (parse_save_field r))
          else if Ascii.eqb c delim
          then Ok (set_state START_FIELD (parse_save_field r))
          else parse_add_char r c
      end
  | IN_QUOTED_FIELD =>
      match c with
      | None => Ok r
      | Some c =>
          if Ascii.eqb c quotechar then Ok (set_state QUOTE_IN_QUOTED_FIELD r)
          else parse_add_char r c
      end
  | QUOTE_IN_QUOTED_FIELD =>
      match c with
      | None => Ok (set_state START_RECORD (parse_save_field r))
      | Some c =>
          if Ascii.eqb c quotechar then
            let* r' := parse_add_char r c in
            Ok (set_state IN_QUOTED_FIELD r')
          else if Ascii.eqb c delim
          then Ok (set_state START_FIELD (parse_save_field r))
          else if is_nl c then Ok (set_state EAT_CRNL (parse_save_field r))
          else
            let* r' := parse_add_char r c in
            Ok (set_state IN_FIELD r')
      end
  | EAT_CRNL =>
      match c with
      | None => Ok (set_state START_RECORD r)
      | Some c => if is_nl c then Ok r else Raise CsvError
      end
  end.

(** One line, character by character, then the end of the line. *)
Fixpoint process_line (delim : ascii) (r : reader) (line : string)
  : result reader :=
  match line with
  | EmptyString => parse_process_char delim r None
  | String c rest =>
      let* r' := parse_process_char delim r (Some c) in
      process_line delim r' rest
  end.

(** [Reader_iternext] after [parse_reset]: lines are consumed until the
    machine is back in [START_RECORD]; the result is the record and the
    lines not yet read, or [None] for [StopIteration]. *)
Fixpoint iternext (delim : ascii) (r : reader) (lines : list string)
  : result (option (list string * list string)) :=
  match lines with
  | [] =>
      if negb (field_len r =? 0) || state_eqb (st r) IN_QUOTED_FIELD
      then Ok (Some (rev (fields (parse_save_field r)), []))
      else Ok None
  | line :: rest =>
      let* r' := process_line delim r line in
      if state_eqb (st r') START_RECORD
      then Ok (Some (rev (fields r'), rest))
      else iternext delim r' rest
  end.

Definition next (delim : ascii) (lines : list string)
  : result (option (list string * list string)) :=
  iternext delim parse_reset lines.

(** Every record of the remaining input: [list(reader)]. *)
Fixpoint records_from (delim : ascii) (r : reader) (lines : list string)
  : result (list (list string)) :=
  match lines with
  | [] =>
      if negb (field_len r =? 0) || state_eqb (st r) IN_QUOTED_FIELD
      then Ok [rev (fields (parse_save_field r))]
      else Ok []
  | line :: rest =>
      let* r' := process_line delim r line in
      if state_eqb (st r') START_RECORD
      then
        let* more := records_from delim parse_reset rest in
        Ok (rev (fields r') :: more)
      else records_from delim r' rest
  end.

Definition records (delim : ascii) (lines : list string)
  : result (list (list string)) :=
  records_from delim parse_reset lines.

(** A row of [csv.DictReader]: the field names in order, each with its cell,
    or [None] (the [restval]) where the record is too short.  Cells beyond
    the field names go under the key [None], which no caller reads. *)
Definition row : Type := list (string * option string).

Fixpoint zip_row (names : list string) (cells : list string) : row :=
  match names, cells with
  | [], _ => []
  | n :: ns, [] => (n, None) :: zip_row ns []
  | n :: ns, c :: cs => (n, Some c) :: zip_row ns cs
  end.

(** A later binding of a name replaces an earlier one, as in [dict]. *)
Fixpoint binding (k : string) (d : row) : option (option string) :=
  match d with
  | [] => None
  | (k', v) :: rest =>
      match binding k rest with
      | Some w => Some w
      | None => if (k' =? k)%string then Some v else None
      end
  end.

(** [d.get(k)]: the value, [None] for an absent key. *)
Definition get (k : string) (d : row) : option string :=
  match binding k d with
  | Some v => v
  | None => None
  end.

(** The rows of a [DictReader] whose field names are [names]: empty records
    are skipped, the others become rows. *)
Definition dict_rows (names : list string) (recs : list (list string))
  : list row :=
  map (zip_row names)
      (List.filter (fun r => match r with [] => false | _ => true end) recs).

End Csv.

(** ** The script *)

Definition NO_RESPONSE : string := "_No response_".

(** [blank(val)] *)
Definition blank (val : option string) : bool :=
  match val with
  | None => true
  | Some v =>
      let s := Py.strip v in
      (s =? "")%string || (s =? NO_RESPONSE)%string
  end.

(** [parse_money(val)] *)
Definition parse_money (val : string) : result Py.binary64 :=
  let s := Py.remove_char "," (Py.remove_char "$" (Py.strip val)) in
  Py.float s.

(** *** 1. Load code definitions *)

Record CodeDefinition : Type := mkCodeDefinition {
  def_code_type : string;
  def_official_description : string;
  def_plain_english : string;
  def_status : string;
  def_effective_date : string
}.

(** [row[k].strip()]: [KeyError] for an absent column, [AttributeError] for
    the [None] of a short record. *)
Definition getitem_strip (r : Csv.row) (k : string) : result string :=
  match Csv.binding k r with
  | None => Raise KeyError
  | Some None => Raise AttributeError
  | Some (Some v) => Ok (Py.strip v)
  end.

(** The body of the loop over the rows of the definitions file. *)
Definition load_row (defs : gmap string CodeDefinition) (r : Csv.row)
  : result (gmap string CodeDefinition) :=
  let* code := getitem_strip r "code" in
  let* code_type := getitem_strip r "code_type" in
  let* official_description := getitem_strip r "official_description" in
  let* plain_english := getitem_strip r "plain_english" in
  let* status := getitem_strip r "status" in
  let* effective_date := getitem_strip r "effective_date" in
  Ok (<[code := mkCodeDefinition code_type official_description plain_english
                                 status effective_date]> defs).

Fixpoint load_rows (defs : gmap string CodeDefinition) (rows : list Csv.row)
  : result (gmap string CodeDefinition) :=
  match rows with
  | [] => Ok defs
  | r :: rest =>
      let* defs' := load_row defs r in
      load_rows defs' rest
  end.

(** [load_code_definitions(path)], on the rows that [csv.DictReader] reads
    from the file at [path]. *)
Definition load_code_definitions (rows : list Csv.row)
  : result (gmap string CodeDefinition) :=
  load_rows ∅ rows.

(** *** 2. Parse the line items *)

Record LineItem : Type := mkLineItem {
  line_id : Z;
  date_of_service : Py.date;
  code : string;
  code_type : string;
  units : Z;
  charge : Py.binary64;
  bill_label : string
}.

(** [re.sub(r"^```[^\n]*\n?", "", s)] *)
Fixpoint drop_line (s : string) : string :=
  match s with
  | EmptyString => EmptyString
  | String c r => if Ascii.eqb c Py.LF then r else drop_line r
  end.

Definition strip_opening_fence (s : string) : string :=
  if Py.startswith "```" s then drop_line s else s.

(** [re.sub(r"\n?```\s*$", "", s)]: the only place where the pattern can
    match is the last run of three backquotes when nothing but white space
    follows it, together with a line feed just before it. *)
Definition strip_closing_fence (s : string) : string :=
  match rev (list_ascii_of_string (Py.rstrip s)) with
  | c1 :: c2 :: c3 :: u =>
      if Ascii.eqb c1 "`" && Ascii.eqb c2 "`" && Ascii.eqb c3 "`" then
        match u with
        | c :: u' =>
            if Ascii.eqb c Py.LF then string_of_list_ascii (rev u')
            else string_of_list_ascii (rev u)
        | [] => ""
        end
      else s
  | _ => s
  end.

(** [detect_delimiter(text)] *)
Definition detect_delimiter (text : string) : ascii :=
  let lines :=
    List.filter (fun l => negb (Py.strip l =? "")%string)
                (Py.splitlines (Py.strip text)) in
  match lines with
  | [] => ","%char
  | header :: _ =>
      let tab_count := Py.count Py.TAB header in
      let comma_count := Py.count "," header in
      if (comma_count <=? tab_count) && (0 <? tab_count)
      then Py.TAB else ","%char
  end.

(** The required columns, in the order of [sorted]. *)
Definition required_cols : list string :=
  ["charge"; "code"; "code_type"; "date_of_service"; "line_id"; "units"].

Definition mem_str (x : string) (l : list string) : bool :=
  existsb (String.eqb x) l.

(** [sorted(required_cols - set(fieldnames))] *)
Definition missing_cols (fieldnames : list string) : list string :=
  List.filter (fun c => negb (mem_str c fieldnames)) required_cols.

(** [required_cols.issubset(set(fieldnames))] *)
Definition has_required (fieldnames : list string) : bool :=
  forallb (fun c => mem_str c fieldnames) required_cols.

(** [(raw_row.get(k) or "").strip()] *)
Definition cell (raw_row : Csv.row) (k : string) : string :=
  Py.strip (match Csv.get k raw_row with Some v => v | None => "" end).

(** The messages of one row, in the order in which the loop body appends
    them. *)
Definition row_errors (raw_row : Csv.row) : list string :=
  (match Py.int (cell raw_row "line_id") with
   | Ok _ => []
   | Raise _ => ["invalid line_id"]
   end)
  ++ (match Py.strptime (cell raw_row "date_of_service") with
      | Ok _ => []
      | Raise _ =>
          ["invalid date_of_service '" +:+ cell raw_row "date_of_service" +:+ "'"]
      end)
  ++ (if (cell raw_row "code" =? "")%string then ["missing code"] else [])
  ++ (if (cell raw_row "code_type" =? "")%string
      then ["missing code_type"] else [])
  ++ (match Py.int (cell raw_row "units") with
      | Ok _ => []
      | Raise _ => ["invalid units '" +:+ cell raw_row "units" +:+ "'"]
      end)
  ++ (match parse_money (cell raw_row "charge") with
      | Ok _ => []
      | Raise _ => ["invalid charge '" +:+ cell raw_row "charge" +:+ "'"]
      end).

Definition row_error_message (i : Z) (raw_row : Csv.row) : string :=
  let line_id := cell raw_row "line_id" in
  let lid_display :=
    if (line_id =? "")%string then "(row " +:+ Py.str_int i +:+ ")"
    else line_id in
  "Row " +:+ Py.str_int i +:+ ", line_id=" +:+ lid_display +:+ ": "
  +:+ Py.join "; " (row_errors raw_row).

(** The body of the loop over the data rows: the validated item, or the
    message of the row.  In the last branch a conversion has failed, and
    then [row_errors] is not empty: the branch is never taken. *)
Definition validate_row (i : Z) (raw_row : Csv.row) : LineItem + string :=
  match row_errors raw_row with
  | _ :: _ => inr (row_error_message i raw_row)
  | [] =>
      match Py.int (cell raw_row "line_id"),
            Py.strptime (cell raw_row "date_of_service"),
            Py.int (cell raw_row "units"),
            parse_money (cell raw_row "charge") with
      | Ok lid, Ok dos, Ok units, Ok charge =>
          inl (mkLineItem lid dos (cell raw_row "code")
                          (cell raw_row "code_type") units charge
                          (cell raw_row "bill_label"))
      | _, _, _, _ => inr (row_error_message i raw_row)
      end
  end.

(** [for i, raw_row in enumerate(reader, start=i)] *)
Fixpoint parse_rows (i : Z) (raw_rows : list Csv.row)
  : list LineItem * list string :=
  match raw_rows with
  | [] => ([], [])
  | raw_row :: rest =>
      let '(rows, errors) := parse_rows (i + 1) rest in
      match validate_row i raw_row with
      | inl item => (item :: rows, errors)
      | inr e => (rows, e :: errors)
      end
  end.

(** The text that reaches [csv.DictReader]. *)
Definition unfenced (text : string) : string :=
  let text := strip_opening_fence (Py.strip text) in
  strip_closing_fence (Py.strip text).

(** [reader.fieldnames], normalised when it is not empty. *)
Definition normalize_header (names : list string) : list string :=
  match names with
  | [] => []
  | _ => map (fun f => Py.lower (Py.strip f)) names
  end.

(** [parse_line_items(text)].  An exception of the [csv] reader is not
    caught by the function.  With no header record at all the input is
    exhausted, [fieldnames] stays [None], both tests on it are skipped and
    the loop has nothing to read. *)
Definition parse_line_items (text : option string)
  : result (list LineItem * list string) :=
  match text with
  | None => Ok ([], ["No line-item data provided."])
  | Some text =>
      if (text =? "")%string || blank (Some text)
      then Ok ([], ["No line-item data provided."])
      else
        let text := unfenced text in
        let delimiter := detect_delimiter text in
        let* header := Csv.next delimiter (Py.io_lines (Py.strip text)) in
        match header with
        | None => Ok ([], [])
        | Some (names, rest) =>
            let fieldnames := normalize_header names in
            match fieldnames with
            | _ :: _ =>
                if negb (has_required fieldnames)
                then Ok ([], ["Missing required columns: "
                              +:+ Py.join ", " (missing_cols fieldnames)])
                else
                  let* recs := Csv.records delimiter rest in
                  Ok (parse_rows 2 (Csv.dict_rows fieldnames recs))
            | [] =>
                let* recs := Csv.records delimiter rest in
                Ok (parse_rows 2 (Csv.dict_rows fieldnames recs))
            end
        end
  end.

(** *** 3. Apply the rules *)

Record EvaluationEntry : Type := mkEntry {
  entry_line_id : Z;
  entry_dos : string;
  entry_code : string;
  entry_code_type : string;
  entry_official_desc : string;
  entry_plain_eng : string;
  entry_units : Z;
  entry_charge : Py.binary64;
  entry_notes : string
}.

Record ClarificationRecord : Type := mkClarification {
  clar_line_id : Z;
  clar_code : string;
  clar_reasons : list string
}.

Record DuplicateGroup : Type := mkGroup {
  group_number : Z;
  group_line_ids : list Z;
  group_dos : string;
  group_code : string;
  group_units : Z;
  group_charge : Py.binary64
}.

(** [sorted(l, key=key)]: the sort is stable, so it is the insertion sort
    that puts an element before the first one with a larger or equal key. *)
Section Sorted.
Context {A : Type} (key : A -> Z).

Fixpoint insert_by (x : A) (l : list A) : list A :=
  match l with
  | [] => [x]
  | y :: rest =>
      if key x <=? key y then x :: l else y :: insert_by x rest
  end.

Definition sorted (l : list A) : list A := fold_right insert_by [] l.
End Sorted.

Definition PLACEHOLDER : string := "Definition not provided in Code Pack.".
Definition INACTIVE_NOTE : string :=
  "Code is inactive or not effective for the date of service.".
Definition DUP_NOTE : string :=
  "This appears duplicated under the project's duplicate rule. Please confirm with billing.".
Definition REASON_MISSING : string := "Missing code definition".
Definition REASON_UNITS : string := "units = 0 AND charge > 0".
Definition REASON_MOD : string := "code_type is MOD with charge > 0".

Definition reason_mismatch (bill pack : string) : string :=
  "code_type mismatch: bill has '" +:+ bill +:+ "', pack has '" +:+ pack
  +:+ "'".

(** What the registry branch of the loop body leaves in [official_desc],
    [plain_eng], [notes], [needs_clarification] and
    [clarification_reasons]. *)
Record lookup_outcome : Type := mkOutcome {
  official_desc : string;
  plain_eng : string;
  notes : list string;
  needs_clarification : bool;
  clarification_reasons : list string
}.

Definition registry_branch (code_defs : gmap string CodeDefinition)
  (item : LineItem) : result lookup_outcome :=
  match code_defs !! code item with
  | None =>
      Ok (mkOutcome PLACEHOLDER PLACEHOLDER [] true [REASON_MISSING])
  | Some defn =>
      if negb (code_type item =? def_code_type defn)%string then
        Ok (mkOutcome PLACEHOLDER PLACEHOLDER [] true
                      [reason_mismatch (code_type item) (def_code_type defn)])
      else
        let* eff_date := Py.strptime (def_effective_date defn) in
        if negb (def_status defn =? "Active")%string
           || Py.date_gt eff_date (date_of_service item)
        then Ok (mkOutcome "N/A" "N/A" [INACTIVE_NOTE] true [INACTIVE_NOTE])
        else Ok (mkOutcome (def_official_description defn)
                           (def_plain_english defn) [] false [])
  end.

(** The two triggers that follow the registry branch. *)
Definition units_trigger (item : LineItem) : bool :=
  (units item =? 0) && Py.float_gt0 (charge item).

Definition mod_trigger (item : LineItem) : bool :=
  (code_type item =? "MOD")%string && Py.float_gt0 (charge item).

(** The body of the first loop: the entry appended to [section2] and the
    record appended to [clarifications], if any. *)
Definition evaluate_item (code_defs : gmap string CodeDefinition)
  (item : LineItem) : result (EvaluationEntry * option ClarificationRecord) :=
  let* o := registry_branch code_defs item in
  let reasons :=
    clarification_reasons o
    ++ (if units_trigger item then [REASON_UNITS] else [])
    ++ (if mod_trigger item then [REASON_MOD] else []) in
  let needs :=
    needs_clarification o || units_trigger item || mod_trigger item in
  let entry :=
    mkEntry (line_id item) (Py.strftime (date_of_service item)) (code item)
            (code_type item) (official_desc o) (plain_eng o) (units item)
            (charge item)
            (match notes o with [] => "" | _ => Py.join "; " (notes o) end) in
  Ok (entry,
      if needs then Some (mkClarification (line_id item) (code item) reasons)
      else None).

(** The key of the duplicate rule and its equality, the [==] of Python on
    the tuple: strings and integers by value, floats by [float_eq]. *)
Definition dup_key : Type := string * string * Z * Py.binary64.

Definition key_of (item : LineItem) : dup_key :=
  (Py.strftime (date_of_service item), code item, units item, charge item).

Definition key_eqb (a b : dup_key) : bool :=
  let '(d1, c1, u1, ch1) := a in
  let '(d2, c2, u2, ch2) := b in
  (d1 =? d2)%string && (c1 =? c2)%string && (u1 =? u2) && Py.float_eq ch1 ch2.

(** [dup_groups_map[k].append(v)] on a [defaultdict(list)], kept as the list
    of its entries in insertion order. *)
Section DefaultDict.
Context {K V : Type} (eqb : K -> K -> bool).

Fixpoint dict_append (m : list (K * list V)) (k : K) (v : V)
  : list (K * list V) :=
  match m with
  | [] => [(k, [v])]
  | (k', vs) :: rest =>
      if eqb k' k then (k', vs ++ [v]) :: rest
      else (k', vs) :: dict_append rest k v
  end.

Definition group_by {A : Type} (key : A -> K) (val : A -> V) (l : list A)
  : list (K * list V) :=
  fold_left (fun m x => dict_append m (key x) (val x)) l [].
End DefaultDict.

(** [min(ids)]; the lists of the dictionary are never empty. *)
Definition min_of (ids : list Z) : Z :=
  match ids with
  | [] => 0
  | x :: rest => fold_left Z.min rest x
  end.

(** The loop over the sorted keys: groups with more than one member get the
    next number. *)
Fixpoint number_groups (group_num : Z) (entries : list (dup_key * list Z))
  : list DuplicateGroup :=
  match entries with
  | [] => []
  | (k, ids) :: rest =>
      if (1 <? Z.of_nat (length ids)) then
        let '(dos, c, u, ch) := k in
        mkGroup group_num ids dos c u ch :: number_groups (group_num + 1) rest
      else number_groups group_num rest
  end.

Definition dup_groups_map (rows : list LineItem) : list (dup_key * list Z) :=
  group_by key_eqb key_of line_id (sorted line_id rows).

Definition detect_duplicates (rows : list LineItem) : list DuplicateGroup :=
  number_groups 1 (sorted (fun e => min_of (snd e)) (dup_groups_map rows)).

Definition mem_Z (x : Z) (l : list Z) : bool := existsb (Z.eqb x) l.

(** The last loop, over [section2]. *)
Definition add_dup_note (dup_line_ids : list Z) (entry : EvaluationEntry)
  : EvaluationEntry :=
  if mem_Z (entry_line_id entry) dup_line_ids then
    mkEntry (entry_line_id entry) (entry_dos entry) (entry_code entry)
            (entry_code_type entry) (entry_official_desc entry)
            (entry_plain_eng entry) (entry_units entry) (entry_charge entry)
            (if (entry_notes entry =? "")%string then DUP_NOTE
             else entry_notes entry +:+ "; " +:+ DUP_NOTE)
  else entry.

Definition somes {A : Type} (l : list (option A)) : list A :=
  flat_map (fun o => match o with Some a => [a] | None => [] end) l.

(** [evaluate_line_items(rows, code_defs)] *)
Definition evaluate_line_items (rows : list LineItem)
  (code_defs : gmap string CodeDefinition)
  : result (list EvaluationEntry * list DuplicateGroup
            * list ClarificationRecord) :=
  let* results := mapM (evaluate_item code_defs) (sorted line_id rows) in
  let section2 := map fst results in
  let clarifications := somes (map snd results) in
  let dup_groups := detect_duplicates rows in
  let dup_line_ids := flat_map group_line_ids dup_groups in
  Ok (map (add_dup_note dup_line_ids) section2, dup_groups, clarifications).

(** * The vocabulary of the properties *)

(** The order of [sorted]. *)
Definition key_le {A : Type} (key : A -> Z) (a b : A) : Prop := key a <= key b.

Section GroupBySpec.
Context {A K V : Type} (eqb : K -> K -> bool) (key : A -> K) (val : A -> V).

(** The values of the elements of [l] whose key equals [k], in order. *)
Definition members (k : K) (l : list A) : list V :=
  map val (List.filter (fun x => eqb k (key x)) l).

Fixpoint distinct_keys (ks : list K) : Prop :=
  match ks with
  | [] => True
  | k :: rest => Forall (fun k' => eqb k k' = false) rest /\ distinct_keys rest
  end.

(** An entry of the dictionary after the elements of [l]: its key is the
    key of an element, and it holds the members of its key.  A key that is
    not equal to itself (a NaN charge) is found by no later element. *)
Definition entry_ok (l : list A) (e : K * list V) : Prop :=
  (exists x, In x l /\ key x = fst e)
  /\ (if eqb (fst e) (fst e) then snd e = members (fst e) l
      else length (snd e) = 1%nat).

Record group_inv (l : list A) (m : list (K * list V)) : Prop := {
  inv_entries : Forall (entry_ok l) m;
  inv_distinct : distinct_keys (map fst m);
  inv_complete :
    forall x, In x l -> eqb (key x) (key x) = true ->
              exists k, In k (map fst m) /\ eqb k (key x) = true
}.
End GroupBySpec.

Definition valid_date (d : Py.date) : Prop :=
  Py.make_date (Py.year d) (Py.month d) (Py.day d) = Ok d.

(** The year, rendered and read back, for every year of the calendar. *)
Definition year_roundtrip (y : Z) : bool :=
  match Py.zfill 4 y with
  | String a (String b (String c (String e EmptyString))) =>
      match Py.fixed_digits 4 (Py.zfill 4 y) with
      | Some ds => Py.digits_value ds =? y
      | None => false
      end
  | _ => false
  end.

(** The month and the day, rendered and read back. *)
Definition month_day_roundtrip (md : Z * Z) : bool :=
  match Py.split_at (Ascii.eqb "-")
                    (Py.zfill 2 md.1 +:+ "-" +:+ Py.zfill 2 md.2) with
  | (ms, Some ds) =>
      match Py.month_field ms, Py.day_field ds with
      | Some m, Some d => (m =? md.1) && (d =? md.2)
      | _, _ => false
      end
  | _ => false
  end.

Definition upto (n : Z) : list Z := map Z.of_nat (seq 1 (Z.to_nat n)).

Definition group_key (g : DuplicateGroup) : dup_key :=
  (group_dos g, group_code g, group_units g, group_charge g).

Definition group_entry (g : DuplicateGroup) : dup_key * list Z :=
  (group_key g, group_line_ids g).

(** [len(ids) > 1] *)
Definition has_duplicates (e : dup_key * list Z) : bool :=
  1 <? Z.of_nat (length (snd e)).

(** A row is well formed when the loop body leaves [row_errors] empty. *)
Definition well_formed (raw_row : Csv.row) : Prop := row_errors raw_row = [].

(** The item that the loop body appends for a row; it does not depend on
    the row number. *)
Definition accept (raw_row : Csv.row) : option LineItem :=
  match validate_row 0 raw_row with
  | inl item => Some item
  | inr _ => None
  end.

(** The table that the text holds: the normalised header and the rows of
    the [DictReader]. *)
Definition table_of (text : string) (fieldnames : list string)
  (raw_rows : list Csv.row) : Prop :=
  blank (Some text) = false
  /\ exists names rest recs,
       Csv.next (detect_delimiter (unfenced text))
                (Py.io_lines (Py.strip (unfenced text)))
       = Ok (Some (names, rest))
       /\ fieldnames = normalize_header names
       /\ Csv.records (detect_delimiter (unfenced text)) rest = Ok recs
       /\ raw_rows = Csv.dict_rows fieldnames recs.



(** An entry repeats the fields of its item. *)
Definition entry_of (item : LineItem) (e : EvaluationEntry) : Prop :=
  entry_line_id e = line_id item
  /\ entry_dos e = Py.strftime (date_of_service item)
  /\ entry_code e = code item
  /\ entry_code_type e = code_type item
  /\ entry_units e = units item
  /\ entry_charge e = charge item.

(** The reasons of the two triggers. *)
Definition trigger_reasons (item : LineItem) : list string :=
  (if units_trigger item then [REASON_UNITS] else [])
  ++ (if mod_trigger item then [REASON_MOD] else []).


Definition definition_columns : list string :=
  ["code"; "code_type"; "official_description"; "plain_english"; "status";
   "effective_date"].

(** A row of the definitions file that has a cell in every column. *)
Definition has_columns (r : Csv.row) : Prop :=
  forall k, In k definition_columns -> exists v, Csv.binding k r = Some (Some v).



Definition fence_only : string := "```
```".

(** A registry with one definition, and a bill of three well-formed rows
    given in two orders. *)
Definition registry0 : gmap string CodeDefinition :=
  <["99213" := mkCodeDefinition "CPT" "Office visit" "A visit" "Active"
                                "2023-01-01"]> ∅.

Definition header0 : list string :=
  ["line_id"; "date_of_service"; "code"; "code_type"; "units"; "charge"].

Definition bill0 : string :=
  "line_id,date_of_service,code,code_type,units,charge
2,2024-01-01,99213,CPT,1,$100.00
1,2024-01-01,99213,CPT,1,100
3,2024-02-01,Q,MOD,0,5".

Definition bill0' : string :=
  "line_id,date_of_service,code,code_type,units,charge
3,2024-02-01,Q,MOD,0,5
2,2024-01-01,99213,CPT,1,$100.00
1,2024-01-01,99213,CPT,1,100".

Definition rows0 : list Csv.row :=
  Csv.dict_rows header0
    [["2"; "2024-01-01"; "99213"; "CPT"; "1"; "$100.00"];
     ["1"; "2024-01-01"; "99213"; "CPT"; "1"; "100"];
     ["3"; "2024-02-01"; "Q"; "MOD"; "0"; "5"]].

Definition rows0' : list Csv.row :=
  Csv.dict_rows header0
    [["3"; "2024-02-01"; "Q"; "MOD"; "0"; "5"];
     ["2"; "2024-01-01"; "99213"; "CPT"; "1"; "$100.00"];
     ["1"; "2024-01-01"; "99213"; "CPT"; "1"; "100"]].

Definition hundred : Py.binary64 := S754_finite false 7036874417766400 (-46).
Definition five : Py.binary64 := S754_finite false 5629499534213120 (-50).

Definition item1 : LineItem :=
  mkLineItem 1 (Py.mkdate 2024 1 1) "99213" "CPT" 1 hundred "".
Definition item2 : LineItem :=
  mkLineItem 2 (Py.mkdate 2024 1 1) "99213" "CPT" 1 hundred "".
Definition item3 : LineItem :=
  mkLineItem 3 (Py.mkdate 2024 2 1) "Q" "MOD" 0 five "".

(** A definitions file whose only row has an [effective_date] that is not
    an ISO date. *)
Definition bad_date_rows : list Csv.row :=
  [[("code", Some "99213"); ("code_type", Some "CPT");
    ("official_description", Some "Office visit");
    ("plain_english", Some "A visit"); ("status", Some "Active");
    ("effective_date", Some "01/02/2023")]].

Definition bad_date_registry : gmap string CodeDefinition :=
  <["99213" := mkCodeDefinition "CPT" "Office visit" "A visit" "Active"
                                "01/02/2023"]> ∅.

(** Two bills with the same four rows; the [line_id]s 1 and 2 are each used
    twice, and the second bill swaps the first two rows. *)
Definition tied_bill : string :=
  "line_id,date_of_service,code,code_type,units,charge
1,2024-01-01,A,CPT,1,10
1,2024-01-01,B,CPT,1,10
2,2024-01-01,A,CPT,1,10
2,2024-01-01,B,CPT,1,10".

Definition tied_bill' : string :=
  "line_id,date_of_service,code,code_type,units,charge
1,2024-01-01,B,CPT,1,10
1,2024-01-01,A,CPT,1,10
2,2024-01-01,A,CPT,1,10
2,2024-01-01,B,CPT,1,10".

Definition numbered_codes (r : result (list LineItem * list string))
  : result (list (Z * string * list Z)) :=
  let* parsed := r in
  let* out := evaluate_line_items (fst parsed) registry0 in
  Ok (map (fun g => (group_number g, group_code g, group_line_ids g))
          (snd (fst out))).



Definition two_column_text : string :=
  "a,B
1,2".

(** ** Further vocabulary *)

(** [enumerate(l, start=i)] *)
Fixpoint enumerate {A : Type} (i : Z) (l : list A) : list (Z * A) :=
  match l with
  | [] => []
  | x :: rest => (i, x) :: enumerate (i + 1) rest
  end.

(** The messages of the rejected rows, each with its row number. *)
Definition rejected_messages (i : Z) (raw_rows : list Csv.row) : list string :=
  flat_map (fun p => match accept (snd p) with
                     | Some _ => []
                     | None => [row_error_message (fst p) (snd p)]
                     end)
           (enumerate i raw_rows).

(** A table text inside a code fence: the opening fence with its info
    string, the text, and the closing fence on a line of its own. *)
Definition fenced (info body : string) : string :=
  "```" +:+ info +:+ String Py.LF (body +:+ String Py.LF "```").



(** An item with another [code_type] and [bill_label]. *)
Definition relabel (ct bl : LineItem -> string) (item : LineItem) : LineItem :=
  mkLineItem (line_id item) (date_of_service item) (code item) (ct item)
             (units item) (charge item) (bl item).


Definition item_mismatch : LineItem :=
  mkLineItem 5 (Py.mkdate 2024 3 1) "99213" "HCPCS" 1 hundred "".

Definition item_early : LineItem :=
  mkLineItem 6 (Py.mkdate 2022 12 31) "99213" "CPT" 1 hundred "".

Definition item_on_the_day : LineItem :=
  mkLineItem 7 (Py.mkdate 2023 1 1) "99213" "CPT" 1 hundred "".

Definition definition0 : CodeDefinition :=
  mkCodeDefinition "CPT" "Office visit" "A visit" "Active" "2023-01-01".

Definition item_nan : LineItem :=
  mkLineItem 8 (Py.mkdate 2024 1 1) "99213" "CPT" 1 S754_nan "".
Definition item_nan' : LineItem :=
  mkLineItem 9 (Py.mkdate 2024 1 1) "99213" "CPT" 1 S754_nan "".

Definition item4 : LineItem :=
  mkLineItem 4 (Py.mkdate 2024 2 1) "Q" "MOD" 0 five "".

Definition group_a : DuplicateGroup :=
  mkGroup 1 [1; 2] "2024-01-01" "99213" 1 hundred.
Definition group_b : DuplicateGroup :=
  mkGroup 2 [3; 4] "2024-02-01" "Q" 0 five.

(** The code and the definition that the loop of [load_code_definitions]
    takes from a row. *)
Definition row_definition (r : Csv.row) : result (string * CodeDefinition) :=
  let* code := getitem_strip r "code" in
  let* code_type := getitem_strip r "code_type" in
  let* official_description := getitem_strip r "official_description" in
  let* plain_english := getitem_strip r "plain_english" in
  let* status := getitem_strip r "status" in
  let* effective_date := getitem_strip r "effective_date" in
  Ok (code, mkCodeDefinition code_type official_description plain_english
                             status effective_date).

Definition registry_row (c t o p s e : string) : Csv.row :=
  [("code", Some c); ("code_type", Some t); ("official_description", Some o);
   ("plain_english", Some p); ("status", Some s); ("effective_date", Some e)].

(** Every character of [s] satisfies [p]. *)
Fixpoint all_chars (p : ascii -> bool) (s : string) : bool :=
  match s with
  | EmptyString => true
  | String c r => p c && all_chars p r
  end.

Definition no_linebreak (s : string) : bool :=
  all_chars (fun c => negb (Py.is_linebreak c)) s.

(** A line whose carriage returns and line feeds all stand at its end. *)
Fixpoint nl_only_at_end (line : string) : bool :=
  match line with
  | EmptyString => true
  | String c rest =>
      if Csv.is_nl c then all_chars Csv.is_nl rest else nl_only_at_end rest
  end.

(** Every carriage return of the text is followed by a carriage return, by
    a line feed, or by nothing. *)
Fixpoint cr_ends_line (s : string) : bool :=
  match s with
  | EmptyString => true
  | String c r =>
      (if Ascii.eqb c Py.CR
       then match r with
            | EmptyString => true
            | String d _ => Csv.is_nl d
            end
       else true)
      && cr_ends_line r
  end.

Definition total_length (lines : list string) : Z :=
  fold_right (fun l n => Z.of_nat (String.length l) + n) 0 lines.

(** Text that the reader takes without an error: every carriage return
    ends its line, and the whole is shorter than the limit on one field. *)
Definition clean_text (s : string) : bool :=
  cr_ends_line s && (Z.of_nat (String.length s) <? Csv.field_limit).

(** A stretch of a line with no quote and no line end in it. *)
Definition unquoted (s : string) : bool :=
  all_chars (fun c => negb (Csv.is_nl c) && negb (Ascii.eqb c Csv.quotechar)) s.

(** [bill0] with a lone carriage return after the header. *)
Definition cr_bill : string :=
  "line_id,date_of_service,code,code_type,units,charge"
  +:+ String Py.CR "1,2024-01-05,99213,CPT,1,100.00".

(** ** The sections of the issue body *)

(** A greedy [\s*] followed by the rest [k] of a pattern: the longest run
    of white space is tried first, then the shorter ones. *)
Fixpoint greedy_spaces {A : Type} (k : string -> option A) (s : string)
  : option A :=
  match s with
  | EmptyString => k s
  | String c r =>
      if Py.isspace c
      then match greedy_spaces k r with
           | Some x => Some x
           | None => k s
           end
      else k s
  end.

(** [(?=\n###\s|\Z)] *)
Definition section_end (s : string) : bool :=
  match s with
  | EmptyString => true
  | String c1 (String c2 (String c3 (String c4 (String c5 _)))) =>
      Ascii.eqb c1 Py.LF && Ascii.eqb c2 "#" && Ascii.eqb c3 "#"
      && Ascii.eqb c4 "#" && Py.isspace c5
  | _ => false
  end.

(** [(.*?)] under [re.DOTALL] in front of the look-ahead: the shortest text
    after which the section ends. *)
Fixpoint lazy_content (s : string) : string :=
  if section_end s then ""
  else match s with
       | EmptyString => ""
       | String c r => String c (lazy_content r)
       end.

(** [s] without the literal [p] it starts with. *)
Fixpoint after_literal (p s : string) : option string :=
  match p, s with
  | EmptyString, _ => Some s
  | String a p', String b s' =>
      if Ascii.eqb a b then after_literal p' s' else None
  | String _ _, EmptyString => None
  end.

(** The line feed of the pattern, then group 1. *)
Definition line_feed_then_content (s : string) : option string :=
  match s with
  | String c r => if Ascii.eqb c Py.LF then Some (lazy_content r) else None
  | EmptyString => None
  end.

(** [###\s*heading\s*\n(.*?)(?=\n###\s|\Z)] matched at the start of [s];
    the result is group 1. *)
Definition match_section (heading s : string) : option string :=
  match after_literal "###" s with
  | None => None
  | Some s1 =>
      greedy_spaces
        (fun s2 =>
           match after_literal heading s2 with
           | None => None
           | Some s3 => greedy_spaces line_feed_then_content s3
           end) s1
  end.

(** [re.search]: the first position at which the pattern matches. *)
Fixpoint search_section (heading body : string) : option string :=
  match match_section heading body with
  | Some g => Some g
  | None =>
      match body with
      | EmptyString => None
      | String _ r => search_section heading r
      end
  end.

(** [extract_section(body, heading)] *)
Definition extract_section (body heading : string) : option string :=
  option_map Py.strip (search_section heading body).

(** An issue form as GitHub writes it: every field is a heading of level
    three, an empty line and the value, and an empty line stands between
    two fields. *)
Definition section_text (sec : string * string) : string :=
  "### " +:+ fst sec +:+ String Py.LF (String Py.LF (snd sec)).

Fixpoint issue_body (secs : list (string * string)) : string :=
  match secs with
  | [] => ""
  | sec :: rest =>
      match rest with
      | [] => section_text sec
      | _ :: _ =>
          section_text sec +:+ String Py.LF (String Py.LF (issue_body rest))
      end
  end.

(** The value of the first field with the heading [h]. *)
Fixpoint first_section (h : string) (secs : list (string * string))
  : option string :=
  match secs with
  | [] => None
  | (h', c) :: rest =>
      if (h' =? h)%string then Some c else first_section h rest
  end.

Definition no_hash (s : string) : bool :=
  all_chars (fun c => negb (Ascii.eqb c "#")) s.

Definition no_line_feed (s : string) : bool :=
  all_chars (fun c => negb (Ascii.eqb c Py.LF)) s.

(** A heading on one line, with no white space around it and no [#]. *)
Definition plain_heading (h : string) : bool :=
  negb (h =? "")%string && (Py.strip h =? h)%string
  && no_hash h && no_line_feed h.

Definition plain_section (sec : string * string) : bool :=
  plain_heading (fst sec) && no_hash (snd sec).

(** A form with the fields of the script. *)
Definition form0 : list (string * string) :=
  [("Provider Name", "Acme Clinic");
   ("Bill Date", "");
   ("Line Items", bill0)].

(** What follows a field of a form. *)
Definition field_tail (t : string) : Prop :=
  t = "" \/ exists y, t = String Py.LF (String Py.LF ("### " +:+ y)).

(** * Properties *)

(** ** The error monad *)

Lemma bind_Ok {A B : Type} (r : result A) (k : A -> result B) (b : B) :
  bind r k = Ok b -> exists a, r = Ok a /\ k a = Ok b.
Proof. destruct r as [a|e]; simpl; [eauto | discriminate]. Qed.

Lemma mapM_Ok {A B : Type} (f : A -> result B) (l : list A) (ys : list B) :
  mapM f l = Ok ys -> Forall2 (fun x y => f x = Ok y) l ys.
Proof.
  revert ys. induction l as [|x l IH]; simpl; intros ys H.
  - injection H as <-. constructor.
  - apply bind_Ok in H as (y & Hy & H).
    apply bind_Ok in H as (ys' & Hys & H).
    injection H as <-. constructor; auto.
Qed.



(** ** [sorted] is a stable sort *)

Section SortedFacts.
Context {A : Type} (key : A -> Z).

Lemma insert_by_perm x l : Permutation (insert_by key x l) (x :: l).
Proof.
  induction l as [|y l IH]; simpl; [reflexivity|].
  destruct (key x <=? key y); [reflexivity|].
  rewrite IH. apply perm_swap.
Qed.

Lemma sorted_perm l : Permutation (sorted key l) l.
Proof.
  induction l as [|x l IH]; simpl; [reflexivity|].
  rewrite insert_by_perm. now constructor.
Qed.


Lemma sorted_In x l : In x (sorted key l) <-> In x l.
Proof.
  split; apply Permutation_in; [|symmetry]; apply sorted_perm.
Qed.

Lemma insert_by_ascending x l :
  StronglySorted (key_le key) l -> StronglySorted (key_le key) (insert_by key x l).
Proof.
  induction 1 as [|y l Hl IH Hy]; simpl.
  - repeat constructor.
  - destruct (key x <=? key y) eqn:E.
    + apply Z.leb_le in E. constructor.
      * now constructor.
      * constructor; [exact E|].
        eapply List.Forall_impl; [|exact Hy]. unfold key_le. intros; lia.
    + apply Z.leb_gt in E. constructor; [exact IH|].
      eapply Permutation_Forall; [symmetry; apply insert_by_perm|].
      constructor; [unfold key_le; lia | exact Hy].
Qed.

Lemma sorted_ascending l : StronglySorted (key_le key) (sorted key l).
Proof.
  induction l; simpl; [constructor | now apply insert_by_ascending].
Qed.



(** Two ascending arrangements of the same elements are equal when the
    key tells the elements apart. *)
Lemma ascending_unique l1 l2 :
  (forall a b, In a l1 -> In b l1 -> key a = key b -> a = b) ->
  StronglySorted (key_le key) l1 -> StronglySorted (key_le key) l2 ->
  Permutation l1 l2 -> l1 = l2.
Proof.
  revert l2. induction l1 as [|a l1 IH]; intros l2 Hinj H1 H2 HP.
  - now apply Permutation_nil in HP.
  - destruct l2 as [|b l2];
      [apply Permutation_sym, Permutation_nil in HP; discriminate|].
    apply StronglySorted_inv in H1 as [H1 Ha].
    apply StronglySorted_inv in H2 as [H2 Hb].
    rewrite List.Forall_forall in Ha, Hb.
    assert (Hab : a = b).
    { assert (Hina : In a (b :: l2))
        by (eapply Permutation_in; [exact HP | now left]).
      assert (Hinb : In b (a :: l1))
        by (eapply Permutation_in; [symmetry; exact HP | now left]).
      destruct Hina as [->|Hina]; [reflexivity|].
      destruct Hinb as [->|Hinb]; [reflexivity|].
      apply Hinj; [now left | now right |].
      specialize (Ha _ Hinb). specialize (Hb _ Hina).
      unfold key_le in *. lia. }
    subst b. f_equal. apply IH; auto.
    + intros x y Hx Hy. apply Hinj; now right.
    + now apply Permutation_cons_inv in HP.
Qed.

Lemma NoDup_key_inj l a b :
  List.NoDup (map key l) -> In a l -> In b l -> key a = key b -> a = b.
Proof.
  induction l as [|x l IH]; simpl; [tauto|].
  intros Hnd Ha Hb E. apply NoDup_cons_iff in Hnd as [Hx Hnd].
  destruct Ha as [->|Ha], Hb as [->|Hb]; auto.
  - exfalso. apply Hx. rewrite E. now apply in_map.
  - exfalso. apply Hx. rewrite <- E. now apply in_map.
Qed.

(** With pairwise distinct keys the result does not depend on the order
    of the input. *)
Lemma sorted_order_independent l l' :
  List.NoDup (map key l) -> Permutation l l' -> sorted key l = sorted key l'.
Proof.
  intros Hnd HP. apply ascending_unique.
  - intros a b Ha Hb.
    apply (proj1 (sorted_In _ _)) in Ha. apply (proj1 (sorted_In _ _)) in Hb.
    apply NoDup_key_inj with (l := l); assumption.
  - apply sorted_ascending.
  - apply sorted_ascending.
  - rewrite !sorted_perm. exact HP.
Qed.

Lemma ascending_keys l :
  StronglySorted (key_le key) l -> StronglySorted Z.le (map key l).
Proof.
  induction 1 as [|x l _ IH Hx]; simpl; constructor; auto.
  rewrite List.Forall_forall in *. intros k Hk.
  apply in_map_iff in Hk as (y & <- & Hy). now apply Hx.
Qed.
End SortedFacts.


(** ** Grouping with [dict_append] *)

Lemma filter_none {A : Type} (f : A -> bool) (l : list A) :
  (forall x, In x l -> f x = false) -> List.filter f l = [].
Proof.
  induction l as [|x l IH]; intros H; cbn [List.filter]; [reflexivity|].
  rewrite (H x) by now left. apply IH. intros y Hy. apply H. now right.
Qed.

Section GroupByFacts.
Context {A K V : Type} (eqb : K -> K -> bool) (key : A -> K) (val : A -> V).
Hypothesis eqb_sym : forall a b, eqb a b = eqb b a.
Hypothesis eqb_trans :
  forall a b c, eqb a b = true -> eqb b c = true -> eqb a c = true.

Lemma eqb_refl_l a b : eqb a b = true -> eqb a a = true.
Proof. intros H. apply eqb_trans with b; [exact H|]. now rewrite eqb_sym. Qed.

Lemma eqb_refl_r a b : eqb a b = true -> eqb b b = true.
Proof. intros H. apply eqb_refl_l with a. now rewrite eqb_sym. Qed.

Lemma members_snoc k l x :
  members eqb key val k (l ++ [x])
  = members eqb key val k l ++ (if eqb k (key x) then [val x] else []).
Proof.
  unfold members. rewrite List.filter_app, map_app. cbn [List.filter].
  now destruct (eqb k (key x)).
Qed.

Lemma dict_append_cases (m : list (K * list V)) (k : K) (v : V) :
  (exists m1 k' vs m2,
      m = m1 ++ (k', vs) :: m2 /\ eqb k' k = true
      /\ Forall (fun e => eqb (fst e) k = false) m1
      /\ dict_append eqb m k v = m1 ++ (k', vs ++ [v]) :: m2)
  \/ (Forall (fun e => eqb (fst e) k = false) m
      /\ dict_append eqb m k v = m ++ [(k, [v])]).
Proof.
  induction m as [|[k' vs] m IH]; cbn [dict_append].
  - right. split; [constructor | reflexivity].
  - destruct (eqb k' k) eqn:E.
    + left. exists [], k', vs, m. repeat split; auto.
    + destruct IH as [(m1 & k2 & vs2 & m2 & -> & E2 & Hm1 & ->)|[Hm ->]].
      * left. exists ((k', vs) :: m1), k2, vs2, m2. repeat split; auto.
      * right. split; [constructor; auto | reflexivity].
Qed.

Lemma entry_ok_snoc l x e :
  eqb (fst e) (key x) = false -> entry_ok eqb key val l e -> entry_ok eqb key val (l ++ [x]) e.
Proof.
  intros E [(y & Hy & Hk) Hm]. split.
  - exists y. split; [apply in_or_app; now left | exact Hk].
  - destruct (eqb (fst e) (fst e)); [|exact Hm].
    rewrite members_snoc, E, app_nil_r. exact Hm.
Qed.

Lemma distinct_keys_snoc ks k :
  distinct_keys eqb ks -> Forall (fun k' => eqb k' k = false) ks ->
  distinct_keys eqb (ks ++ [k]).
Proof.
  induction ks as [|k0 ks IH]; cbn [distinct_keys app]; intros H Hk.
  - split; [constructor | exact I].
  - destruct H as [H0 H]. apply List.Forall_cons_iff in Hk as [Hk0 Hk].
    split; [|now apply IH].
    apply List.Forall_app. split; [exact H0 | now constructor].
Qed.

Lemma distinct_keys_app_r ks1 ks2 :
  distinct_keys eqb (ks1 ++ ks2) -> distinct_keys eqb ks2.
Proof.
  induction ks1 as [|k ks1 IH]; cbn [distinct_keys app]; [auto|].
  intros [_ H]. auto.
Qed.

Lemma group_inv_step l m x :
  group_inv eqb key val l m ->
  group_inv eqb key val (l ++ [x]) (dict_append eqb m (key x) (val x)).
Proof.
  intros [Hent Hdis Hcom].
  destruct (dict_append_cases m (key x) (val x))
    as [(m1 & k' & vs & m2 & -> & E & Hm1 & ->)|[Hm ->]].
  - (* the key is in the dictionary *)
    assert (Hm2 : Forall (fun e => eqb (fst e) (key x) = false) m2).
    { rewrite map_app in Hdis. apply distinct_keys_app_r in Hdis.
      destruct Hdis as [Hk' _]. rewrite List.Forall_forall in Hk' |- *.
      intros e He. destruct (eqb (fst e) (key x)) eqn:E2; [|reflexivity].
      rewrite <- (Hk' (fst e)) by now apply in_map.
      symmetry. apply eqb_trans with (key x); [exact E|].
      now rewrite eqb_sym. }
    apply List.Forall_app in Hent as [Hent1 Hent2].
    apply List.Forall_cons_iff in Hent2 as [Hk' Hent2].
    constructor.
    + apply List.Forall_app. split.
      * rewrite List.Forall_forall in *. intros e He.
        apply entry_ok_snoc; auto.
      * constructor.
        -- destruct Hk' as [(y & Hy & Hky) Hvs]. cbn [fst snd] in *. split.
           ++ exists y. split; [apply in_or_app; now left | exact Hky].
           ++ cbn [fst snd]. rewrite (eqb_refl_l _ _ E) in *.
              rewrite members_snoc, E, Hvs. reflexivity.
        -- rewrite List.Forall_forall in *. intros e He.
           apply entry_ok_snoc; auto.
    + rewrite map_app in *. exact Hdis.
    + intros y Hy Hr. apply in_app_or in Hy as [Hy|[<-|[]]].
      * destruct (Hcom y Hy Hr) as (k & Hk & Hky). exists k.
        split; [|exact Hky]. rewrite map_app in *. exact Hk.
      * exists k'. split; [|exact E].
        rewrite map_app. apply in_or_app. right. now left.
  - (* the key is new *)
    constructor.
    + apply List.Forall_app. split.
      * rewrite List.Forall_forall in *. intros e He.
        apply entry_ok_snoc; auto.
      * constructor; [|constructor]. split; cbn [fst snd].
        -- exists x. split; [apply in_or_app; right; now left | reflexivity].
        -- destruct (eqb (key x) (key x)) eqn:Er; [|reflexivity].
           rewrite members_snoc, Er.
           assert (Hnone : members eqb key val (key x) l = []).
           { unfold members. rewrite filter_none; [reflexivity|].
             intros y Hy.
             destruct (eqb (key x) (key y)) eqn:E2; [|reflexivity].
             exfalso.
             destruct (Hcom y Hy (eqb_refl_r _ _ E2)) as (k & Hk & Hky).
             apply in_map_iff in Hk as (e & <- & He).
             rewrite List.Forall_forall in Hm. specialize (Hm e He).
             rewrite (eqb_trans (fst e) (key y) (key x)) in Hm;
               [discriminate | exact Hky | now rewrite eqb_sym]. }
           now rewrite Hnone.
    + rewrite map_app. apply distinct_keys_snoc; [exact Hdis|].
      rewrite List.Forall_forall in *. intros k Hk.
      apply in_map_iff in Hk as (e & <- & He). auto.
    + intros y Hy Hr. apply in_app_or in Hy as [Hy|[<-|[]]].
      * destruct (Hcom y Hy Hr) as (k & Hk & Hky). exists k.
        split; [|exact Hky]. rewrite map_app. apply in_or_app. now left.
      * exists (key x). split; [|exact Hr].
        rewrite map_app. apply in_or_app. right. now left.
Qed.

Lemma group_inv_fold l : forall l0 m,
  group_inv eqb key val l0 m ->
  group_inv eqb key val (l0 ++ l)
            (fold_left (fun m x => dict_append eqb m (key x) (val x)) l m).
Proof.
  induction l as [|x l IH]; intros l0 m H; cbn [fold_left].
  - now rewrite app_nil_r.
  - replace (l0 ++ x :: l) with ((l0 ++ [x]) ++ l)
      by (now rewrite <- app_assoc).
    apply IH, group_inv_step, H.
Qed.

Lemma group_by_inv l : group_inv eqb key val l (group_by eqb key val l).
Proof.
  apply (group_inv_fold l [] []). constructor.
  - constructor.
  - exact I.
  - intros x [].
Qed.
End GroupByFacts.

Section DistinctKeys.
Context {K : Type} (eqb : K -> K -> bool).
Hypothesis eqb_sym : forall a b, eqb a b = eqb b a.

Lemma distinct_keys_perm ks ks' :
  Permutation ks ks' -> distinct_keys eqb ks -> distinct_keys eqb ks'.
Proof.
  induction 1 as [|k ks ks' HP IH|a b ks|ks1 ks2 ks3 _ IH1 _ IH2];
    cbn [distinct_keys]; auto.
  - intros [Hk H]. split; [|auto].
    eapply Permutation_Forall; eauto.
  - intros [Hb [Ha H]]. apply List.Forall_cons_iff in Hb as [Hba Hb].
    repeat split; auto. constructor; [|exact Ha].
    now rewrite eqb_sym.
Qed.

Lemma distinct_keys_filter {E : Type} (f : E -> K) (p : E -> bool) es :
  distinct_keys eqb (map f es) ->
  distinct_keys eqb (map f (List.filter p es)).
Proof.
  induction es as [|e es IH]; cbn [map List.filter distinct_keys]; [auto|].
  intros [He H]. destruct (p e); cbn [map distinct_keys]; [|auto].
  split; [|auto]. rewrite List.Forall_forall in *. intros k Hk.
  apply He. apply in_map_iff in Hk as (x & <- & Hx).
  apply filter_In in Hx as [Hx _]. now apply in_map.
Qed.
End DistinctKeys.

Lemma StronglySorted_filter {A : Type} (R : A -> A -> Prop) (p : A -> bool) l :
  StronglySorted R l -> StronglySorted R (List.filter p l).
Proof.
  induction 1 as [|x l _ IH Hx]; cbn [List.filter]; [constructor|].
  destruct (p x); [|exact IH]. constructor; [exact IH|].
  rewrite List.Forall_forall in *. intros y Hy.
  apply filter_In in Hy as [Hy _]. auto.
Qed.

(** ** Equality of floats and of keys *)

Lemma float_eq_spec (a b : Py.binary64) :
  Py.float_eq a b = true <->
  match a, b with
  | S754_zero _, S754_zero _ => True
  | S754_infinity s1, S754_infinity s2 => s1 = s2
  | S754_finite s1 m1 e1, S754_finite s2 m2 e2 => s1 = s2 /\ m1 = m2 /\ e1 = e2
  | _, _ => False
  end.
Proof.
  unfold Py.float_eq, SFeqb, SFcompare.
  destruct a as [s1|s1| |s1 m1 e1], b as [s2|s2| |s2 m2 e2];
    try (destruct s1; split; intros H; (discriminate || tauto || easy));
    try (destruct s2; split; intros H; (discriminate || tauto || easy));
    try (split; intros H; (discriminate || tauto || easy)).
  - destruct s1, s2; split; intros H; (discriminate || tauto || easy).
  - rewrite Pos.compare_cont_spec. unfold Pos.switch_Eq.
    destruct s1, s2; try (split; intros H; (discriminate || easy));
      destruct (Z.compare_spec e1 e2) as [->|He|He];
      destruct (Pos.compare_spec m1 m2) as [->|Hm|Hm]; cbn [CompOpp];
      split; intros H; try discriminate; try tauto;
      destruct H as (_ & Hm' & He'); subst; lia.
Qed.

Lemma float_eq_sym (a b : Py.binary64) : Py.float_eq a b = Py.float_eq b a.
Proof.
  apply eq_true_iff_eq. rewrite !float_eq_spec.
  destruct a, b; try tauto; intuition congruence.
Qed.

Lemma float_eq_trans (a b c : Py.binary64) :
  Py.float_eq a b = true -> Py.float_eq b c = true -> Py.float_eq a c = true.
Proof.
  rewrite !float_eq_spec.
  destruct a, b, c; try tauto; intuition congruence.
Qed.

Lemma key_eqb_spec (a b : dup_key) :
  key_eqb a b = true <->
  a.1.1.1 = b.1.1.1 /\ a.1.1.2 = b.1.1.2 /\ a.1.2 = b.1.2
  /\ Py.float_eq a.2 b.2 = true.
Proof.
  destruct a as [[[d1 c1] u1] ch1], b as [[[d2 c2] u2] ch2].
  cbn [key_eqb fst snd].
  rewrite !andb_true_iff, !String.eqb_eq, Z.eqb_eq. tauto.
Qed.

Lemma key_eqb_sym (a b : dup_key) : key_eqb a b = key_eqb b a.
Proof.
  apply eq_true_iff_eq. rewrite !key_eqb_spec, (float_eq_sym a.2 b.2).
  intuition congruence.
Qed.

Lemma key_eqb_trans (a b c : dup_key) :
  key_eqb a b = true -> key_eqb b c = true -> key_eqb a c = true.
Proof.
  rewrite !key_eqb_spec. intros (Hd & Hc & Hu & Hf) (Hd' & Hc' & Hu' & Hf').
  repeat split; try congruence. eapply float_eq_trans; eauto.
Qed.

(** ** Dates: [strptime] inverts [strftime] *)

Lemma make_date_Ok y m d dt :
  Py.make_date y m d = Ok dt ->
  dt = Py.mkdate y m d /\ 1 <= y <= 9999 /\ 1 <= m <= 12 /\ 1 <= d <= 31
  /\ valid_date dt.
Proof.
  unfold Py.make_date.
  destruct ((1 <=? y) && (y <=? 9999) && (1 <=? m) && (m <=? 12)
            && (1 <=? d) && (d <=? Py.days_in_month y m)) eqn:E;
    [|discriminate].
  intros [= <-]. unfold valid_date, Py.make_date. cbn [Py.year Py.month Py.day].
  rewrite E. repeat split; try reflexivity;
    rewrite !andb_true_iff, !Z.leb_le in E; try lia.
  assert (Py.days_in_month y m <= 31); [|lia].
  unfold Py.days_in_month. repeat case_match; lia.
Qed.

Lemma strptime_valid s d : Py.strptime s = Ok d -> valid_date d.
Proof.
  unfold Py.strptime. intros H.
  repeat (case_match; try discriminate).
  now apply make_date_Ok in H.
Qed.

Lemma In_upto n z : 1 <= z <= n -> In z (upto n).
Proof.
  intros H. unfold upto. apply in_map_iff. exists (Z.to_nat z).
  split; [lia|]. apply in_seq. lia.
Qed.

Lemma year_roundtrip_all : forallb year_roundtrip (upto 9999) = true.
Proof. vm_compute. reflexivity. Qed.

Lemma month_day_roundtrip_all :
  forallb month_day_roundtrip (list_prod (upto 12) (upto 31)) = true.
Proof. vm_compute. reflexivity. Qed.

Lemma strptime_strftime d : valid_date d -> Py.strptime (Py.strftime d) = Ok d.
Proof.
  intros Hv. destruct d as [y m dd]. pose proof Hv as Hv'.
  apply make_date_Ok in Hv' as (_ & Hy & Hm & Hd & _).
  cbn [Py.year Py.month Py.day] in *.
  pose proof (proj1 (forallb_forall _ _) year_roundtrip_all y
                (In_upto 9999 y ltac:(lia))) as HY.
  pose proof (proj1 (forallb_forall _ _) month_day_roundtrip_all (m, dd)) as HM.
  specialize (HM ltac:(apply in_prod; apply In_upto; lia)).
  unfold year_roundtrip in HY. unfold month_day_roundtrip in HM.
  cbn [fst snd] in HM.
  unfold Py.strftime. cbn [Py.year Py.month Py.day].
  destruct (Py.zfill 4 y) as [|a [|b [|c [|e [|? ?]]]]]; try discriminate.
  destruct (Py.fixed_digits 4 (String a (String b (String c (String e "")))))
    as [ys|] eqn:EY; [|discriminate].
  apply Z.eqb_eq in HY.
  set (tail := Py.zfill 2 m +:+ "-" +:+ Py.zfill 2 dd) in *.
  change (String a (String b (String c (String e ""))) +:+ "-" +:+ tail)
    with (String a (String b (String c (String e (String "-" tail))))).
  unfold Py.strptime. rewrite EY, Ascii.eqb_refl.
  destruct (Py.split_at (Ascii.eqb "-") tail) as [ms [ds|]]; [|discriminate].
  destruct (Py.month_field ms) as [m'|]; [|discriminate].
  destruct (Py.day_field ds) as [d'|]; [|discriminate].
  apply andb_true_iff in HM as [E1 E2].
  apply Z.eqb_eq in E1, E2. subst. exact Hv.
Qed.

Lemma strftime_inj a b :
  valid_date a -> valid_date b -> Py.strftime a = Py.strftime b -> a = b.
Proof.
  intros Ha Hb E. apply strptime_strftime in Ha, Hb.
  rewrite E in Ha. congruence.
Qed.

(** ** The duplicate detector *)

Lemma number_groups_entries n es :
  map group_entry (number_groups n es) = List.filter has_duplicates es.
Proof.
  revert n. induction es as [|[[[[d c] u] ch] ids] es IH]; intros n;
    cbn [number_groups List.filter]; [reflexivity|].
  unfold has_duplicates at 1. cbn [snd].
  destruct (1 <? Z.of_nat (length ids)); [|apply IH].
  cbn [map]. now rewrite IH.
Qed.

Lemma number_groups_numbers n es :
  map group_number (number_groups n es)
  = map (fun i => n + Z.of_nat i) (seq 0 (length (number_groups n es))).
Proof.
  revert n. induction es as [|[[[[d c] u] ch] ids] es IH]; intros n;
    cbn [number_groups]; [reflexivity|].
  destruct (1 <? Z.of_nat (length ids)); [|apply IH].
  cbn [map length seq group_number]. f_equal; [lia|].
  rewrite IH, <- seq_shift, map_map. apply map_ext. intros i. lia.
Qed.

Lemma filter_perm_length {A : Type} (f : A -> bool) (l l' : list A) :
  Permutation l l' -> length (List.filter f l) = length (List.filter f l').
Proof.
  induction 1 as [|x l l' _ IH|x y l|l1 l2 l3 _ IH1 _ IH2];
    cbn [List.filter]; try congruence.
  - destruct (f x); cbn [length]; congruence.
  - destruct (f x), (f y); reflexivity.
Qed.

Lemma group_map_inv (rows : list LineItem) :
  group_inv key_eqb key_of line_id (sorted line_id rows) (dup_groups_map rows).
Proof.
  apply group_by_inv; [exact key_eqb_sym | exact key_eqb_trans].
Qed.

(** The entries behind the numbered groups. *)
Lemma group_entry_In (rows : list LineItem) (g : DuplicateGroup) :
  In g (detect_duplicates rows) ->
  In (group_entry g) (dup_groups_map rows)
  /\ has_duplicates (group_entry g) = true.
Proof.
  intros Hg. apply (in_map group_entry) in Hg.
  unfold detect_duplicates in Hg. rewrite number_groups_entries in Hg.
  apply filter_In in Hg as [Hg Hd]. split; [|exact Hd].
  now apply (proj1 (sorted_In _ _ _)) in Hg.
Qed.

Lemma group_members (rows : list LineItem) (g : DuplicateGroup) :
  In g (detect_duplicates rows) ->
  key_eqb (group_key g) (group_key g) = true
  /\ group_line_ids g
     = members key_eqb key_of line_id (group_key g) (sorted line_id rows)
  /\ exists item, In item rows /\ key_of item = group_key g.
Proof.
  intros Hg. apply group_entry_In in Hg as [Hin Hd].
  pose proof (inv_entries _ _ _ _ _ (group_map_inv rows)) as Hent.
  rewrite List.Forall_forall in Hent.
  destruct (Hent _ Hin) as [(x & Hx & Hk) Hm]. cbn [group_entry fst snd] in *.
  unfold has_duplicates in Hd. cbn [group_entry snd] in Hd.
  apply Z.ltb_lt in Hd.
  destruct (key_eqb (group_key g) (group_key g)); [|lia].
  repeat split; [exact Hm|].
  exists x. split; [|exact Hk]. now apply (proj1 (sorted_In _ _ _)) in Hx.
Qed.


(** C2.  The duplicate detector groups the items by the exact key
    [(date_of_service, code, units, charge)]: a group lists, in ascending
    [line_id] order, the line_ids of exactly the items whose key equals the
    group's key; groups of one item are dropped and every key shared by two
    or more items has its group, only one; the groups come in ascending
    order of their least [line_id] and are numbered 1..N in that order.
    Equality of keys is equality of the four fields, with [==] on the float
    (no tolerance); for calendar dates the rendered date is equal exactly
    when the dates are. *)
Theorem duplicate_groups_by_exact_key (rows : list LineItem) :
  let groups := detect_duplicates rows in
  (forall g, In g groups ->
     group_line_ids g
     = map line_id
         (List.filter (fun item => key_eqb (group_key g) (key_of item))
                      (sorted line_id rows))
     /\ (exists item, In item rows /\ key_of item = group_key g)
     /\ (2 <= length (group_line_ids g))%nat
     /\ StronglySorted Z.le (group_line_ids g))
  /\ (forall item, In item rows ->
        (2 <= length (List.filter
                        (fun item' => key_eqb (key_of item) (key_of item'))
                        rows))%nat ->
        exists g, In g groups /\ key_eqb (group_key g) (key_of item) = true)
  /\ distinct_keys key_eqb (map group_key groups)
  /\ StronglySorted Z.le (map (fun g => min_of (group_line_ids g)) groups)
  /\ map group_number groups
     = map (fun i => 1 + Z.of_nat i) (seq 0 (length groups))
  /\ (forall a b,
        key_eqb (key_of a) (key_of b) = true <->
        Py.strftime (date_of_service a) = Py.strftime (date_of_service b)
        /\ code a = code b /\ units a = units b
        /\ Py.float_eq (charge a) (charge b) = true)
  /\ (forall a b,
        valid_date (date_of_service a) -> valid_date (date_of_service b) ->
        (Py.strftime (date_of_service a) = Py.strftime (date_of_service b)
         <-> date_of_service a = date_of_service b)).
Proof.
  intros groups. subst groups.
  pose proof (group_map_inv rows) as [Hent Hdis Hcom].
  repeat apply conj.
  - intros g Hg. pose proof (group_entry_In _ _ Hg) as [_ Hd].
    destruct (group_members _ _ Hg) as (_ & Hm & Hx).
    unfold has_duplicates in Hd. cbn [group_entry snd] in Hd.
    apply Z.ltb_lt in Hd. repeat split; [exact Hm | exact Hx | lia |].
    rewrite Hm. unfold members.
    apply ascending_keys, StronglySorted_filter, sorted_ascending.
  - intros item Hin Hlen.
    assert (Hr : key_eqb (key_of item) (key_of item) = true).
    { destruct (List.filter _ rows) as [|x xs] eqn:E; [cbn in Hlen; lia|].
      assert (Hx : In x (List.filter
                           (fun i => key_eqb (key_of item) (key_of i)) rows))
        by (rewrite E; now left).
      apply filter_In in Hx as [_ Hx].
      eapply eqb_refl_l; [exact key_eqb_sym | exact key_eqb_trans | exact Hx]. }
    destruct (Hcom item (proj2 (sorted_In _ _ _) Hin) Hr) as (k & Hk & Hki).
    apply in_map_iff in Hk as ([k' ids] & <- & He). cbn [fst] in *.
    rewrite List.Forall_forall in Hent.
    destruct (Hent _ He) as [_ Hm]. cbn [fst snd] in Hm.
    rewrite (eqb_refl_l key_eqb key_eqb_sym key_eqb_trans _ _ Hki) in Hm.
    assert (Hbig : has_duplicates (k', ids) = true).
    { unfold has_duplicates. cbn [snd]. apply Z.ltb_lt.
      rewrite Hm. unfold members. rewrite length_map.
      rewrite (filter_ext _ (fun i => key_eqb (key_of item) (key_of i))).
      - rewrite (filter_perm_length _ _ rows) by apply sorted_perm. lia.
      - intros i. apply eq_true_iff_eq. split; intros H.
        + eapply key_eqb_trans; [|exact H]. now rewrite key_eqb_sym.
        + eapply key_eqb_trans; [exact Hki | exact H]. }
    assert (Hes : In (k', ids)
                     (List.filter has_duplicates
                        (sorted (fun e => min_of (snd e)) (dup_groups_map rows)))).
    { apply filter_In. split; [|exact Hbig]. now apply sorted_In. }
    unfold detect_duplicates. rewrite <- (number_groups_entries 1) in Hes.
    apply in_map_iff in Hes as (g & Hg & Hing). exists g. split; [exact Hing|].
    unfold group_entry in Hg. injection Hg as -> _. exact Hki.
  - unfold detect_duplicates.
    replace (map group_key (number_groups 1
               (sorted (fun e => min_of (snd e)) (dup_groups_map rows))))
      with (map fst (map group_entry (number_groups 1
               (sorted (fun e => min_of (snd e)) (dup_groups_map rows)))))
      by (rewrite map_map; reflexivity).
    rewrite number_groups_entries.
    apply distinct_keys_filter.
    eapply distinct_keys_perm; [exact key_eqb_sym | | exact Hdis].
    apply Permutation_map. symmetry. apply sorted_perm.
  - unfold detect_duplicates.
    replace (map (fun g => min_of (group_line_ids g))
                 (number_groups 1
                    (sorted (fun e => min_of (snd e)) (dup_groups_map rows))))
      with (map (fun e => min_of (snd e))
                (map group_entry (number_groups 1
                   (sorted (fun e => min_of (snd e)) (dup_groups_map rows)))))
      by (rewrite map_map; reflexivity).
    rewrite number_groups_entries.
    apply ascending_keys, StronglySorted_filter, sorted_ascending.
  - apply number_groups_numbers.
  - intros a b. rewrite key_eqb_spec. reflexivity.
  - intros a b Ha Hb. split; [now apply strftime_inj | congruence].
Qed.

(** ** The parser *)

Lemma validate_row_inl i raw_row item :
  validate_row i raw_row = inl item <-> accept raw_row = Some item.
Proof.
  unfold accept, validate_row.
  destruct (row_errors raw_row); [|split; discriminate].
  destruct (Py.int (cell raw_row "line_id")); [|split; discriminate].
  destruct (Py.strptime (cell raw_row "date_of_service"));
    [|split; discriminate].
  destruct (Py.int (cell raw_row "units")); [|split; discriminate].
  destruct (parse_money (cell raw_row "charge")); [|split; discriminate].
  split; congruence.
Qed.

(** The last branch of [validate_row] is dead: a row without messages is
    accepted, with the converted values as its fields. *)
Lemma well_formed_accept raw_row :
  well_formed raw_row <->
  exists lid dos u ch,
    Py.int (cell raw_row "line_id") = Ok lid
    /\ Py.strptime (cell raw_row "date_of_service") = Ok dos
    /\ cell raw_row "code" <> "" /\ cell raw_row "code_type" <> ""
    /\ Py.int (cell raw_row "units") = Ok u
    /\ parse_money (cell raw_row "charge") = Ok ch
    /\ accept raw_row
       = Some (mkLineItem lid dos (cell raw_row "code")
                          (cell raw_row "code_type") u ch
                          (cell raw_row "bill_label")).
Proof.
  unfold well_formed, accept, validate_row, row_errors.
  destruct (Py.int (cell raw_row "line_id")) as [lid|];
    [|split; [discriminate | intros (?&?&?&?&?&_); discriminate]].
  destruct (Py.strptime (cell raw_row "date_of_service")) as [dos|];
    [|split; [discriminate | intros (?&?&?&?&?&?&_); discriminate]].
  destruct (String.eqb_spec (cell raw_row "code") "") as [Ec|Ec];
    [split; [discriminate | intros (?&?&?&?&?&?&?&_); contradiction]|].
  destruct (String.eqb_spec (cell raw_row "code_type") "") as [Et|Et];
    [split; [discriminate | intros (?&?&?&?&?&?&?&?&_); contradiction]|].
  destruct (Py.int (cell raw_row "units")) as [u|];
    [|split; [discriminate | intros (?&?&?&?&?&?&?&?&?&_); discriminate]].
  destruct (parse_money (cell raw_row "charge")) as [ch|];
    [|split; [discriminate | intros (?&?&?&?&?&?&?&?&?&?&_); discriminate]].
  cbn [app]. split; [|reflexivity]. intros _.
  exists lid, dos, u, ch. repeat split; assumption.
Qed.


(** The accepted items are the items of the rows, in the order of the
    rows; the row number only appears in the messages. *)
Lemma parse_rows_items i raw_rows :
  fst (parse_rows i raw_rows) = somes (map accept raw_rows).
Proof.
  revert i. induction raw_rows as [|r rows IH]; intros i; [reflexivity|].
  cbn [parse_rows map]. specialize (IH (i + 1)).
  destruct (parse_rows (i + 1) rows) as [items errors]. cbn [fst] in IH.
  unfold somes in *. cbn [flat_map]. rewrite <- IH.
  destruct (validate_row i r) as [item|e] eqn:E.
  - apply validate_row_inl in E. now rewrite E.
  - destruct (accept r) as [item|] eqn:E'; [|reflexivity].
    apply (validate_row_inl i) in E'. congruence.
Qed.

Lemma parse_rows_well_formed i raw_rows :
  Forall well_formed raw_rows ->
  exists items,
    parse_rows i raw_rows = (items, [])
    /\ Forall2 (fun r item => accept r = Some item) raw_rows items.
Proof.
  intros H. revert i. induction H as [|r rows Hr _ IH]; intros i.
  - exists []. split; [reflexivity | constructor].
  - destruct (IH (i + 1)) as (items & E & HF).
    apply well_formed_accept in Hr as (lid & dos & u & ch & _ & _ & _ & _ & _ & _ & Ha).
    eexists (_ :: items). cbn [parse_rows]. rewrite E.
    rewrite (proj2 (validate_row_inl i r _) Ha).
    split; [reflexivity | constructor; assumption].
Qed.

Lemma somes_perm {A : Type} (l l' : list (option A)) :
  Permutation l l' -> Permutation (somes l) (somes l').
Proof.
  unfold somes.
  induction 1 as [|x l l' _ IH|x y l|l1 l2 l3 _ IH1 _ IH2]; cbn [flat_map].
  - reflexivity.
  - now apply Permutation_app_head.
  - destruct x, y; cbn [app]; try reflexivity. apply perm_swap.
  - now transitivity (flat_map
      (fun o : option A => match o with Some a => [a] | None => [] end) l2).
Qed.

Lemma not_blank_not_empty text :
  blank (Some text) = false -> (text =? "")%string = false.
Proof.
  intros H. destruct (String.eqb_spec text ""); [subst; discriminate | reflexivity].
Qed.

Lemma parse_line_items_table text fieldnames raw_rows :
  table_of text fieldnames raw_rows -> has_required fieldnames = true ->
  parse_line_items (Some text) = Ok (parse_rows 2 raw_rows).
Proof.
  intros (Hb & names & rest & recs & Hh & -> & Hr & ->) Hreq.
  unfold parse_line_items.
  rewrite (not_blank_not_empty _ Hb), Hb. cbn [orb].
  rewrite Hh. cbn [bind]. rewrite Hreq, Hr. cbn [negb bind].
  now destruct (normalize_header names).
Qed.

(** ** The rule engine *)


Lemma strptime_ValueError s e : Py.strptime s = Raise e -> e = ValueError.
Proof.
  unfold Py.strptime, Py.make_date. intros H.
  repeat (case_match; try discriminate); congruence.
Qed.

Lemma registry_branch_ValueError code_defs item e :
  registry_branch code_defs item = Raise e -> e = ValueError.
Proof.
  unfold registry_branch. intros H.
  destruct (code_defs !! code item) as [defn|]; [|discriminate].
  destruct (negb _); [discriminate|].
  destruct (Py.strptime (def_effective_date defn)) as [dt|e'] eqn:E;
    cbn [bind] in H.
  - destruct (_ || _); discriminate.
  - injection H as <-. eapply strptime_ValueError, E.
Qed.




(** The parts of the result of [evaluate_line_items]. *)
Lemma evaluate_line_items_Ok rows code_defs section2 dups clars :
  evaluate_line_items rows code_defs = Ok (section2, dups, clars) <->
  exists results,
    mapM (evaluate_item code_defs) (sorted line_id rows) = Ok results
    /\ section2
       = map (add_dup_note (flat_map group_line_ids (detect_duplicates rows)))
             (map fst results)
    /\ dups = detect_duplicates rows
    /\ clars = somes (map snd results).
Proof.
  unfold evaluate_line_items. split.
  - intros H. apply bind_Ok in H as (results & Hr & H).
    injection H as <- <- <-. eauto.
  - intros (results & -> & -> & -> & ->). reflexivity.
Qed.





Lemma Forall2_In_l {A B : Type} (R : A -> B -> Prop) l l' x :
  Forall2 R l l' -> In x l -> exists y, In y l' /\ R x y.
Proof.
  induction 1 as [|a b l l' H _ IH]; cbn [In]; [tauto|].
  intros [->|Hx]; [eauto|]. destruct (IH Hx) as (y & Hy & Hr). eauto.
Qed.


Lemma In_somes {A : Type} (l : list (option A)) (a : A) :
  In a (somes l) <-> In (Some a) l.
Proof.
  unfold somes. rewrite in_flat_map. split.
  - intros ([b|] & Hb & Hin); cbn [In] in Hin; [|tauto].
    destruct Hin as [->|[]]. exact Hb.
  - intros H. exists (Some a). split; [exact H | now left].
Qed.

(** Every row has its entry and, if one was made, its clarification record
    in the result. *)
Lemma evaluate_line_items_item rows code_defs section2 dups clars item :
  evaluate_line_items rows code_defs = Ok (section2, dups, clars) ->
  In item rows ->
  exists e c,
    evaluate_item code_defs item = Ok (e, c)
    /\ In (add_dup_note (flat_map group_line_ids dups) e) section2
    /\ (forall r, c = Some r -> In r clars).
Proof.
  intros H Hin. apply evaluate_line_items_Ok in H as (results & Hr & -> & -> & ->).
  apply mapM_Ok in Hr.
  destruct (Forall2_In_l _ _ _ item Hr) as ([e c] & Hy & He);
    [now apply sorted_In|].
  exists e, c. repeat split; [exact He | |].
  - apply in_map. apply (in_map fst) in Hy. exact Hy.
  - intros r ->. apply In_somes. apply (in_map snd) in Hy. exact Hy.
Qed.


(** C5.  For an item whose code is not in the registry the loop body
    returns, whatever the other fields are, the entry with the placeholder
    as both descriptions and no note, and a clarification record whose
    reasons are "Missing code definition" followed only by the reasons of
    the two triggers: neither the type-mismatch reason nor the inactive
    reason or note is there.  In a completed run the record is in the
    clarification list and the entry, with at most the duplicate note, is
    in the entry list. *)
Theorem unknown_code_gets_placeholder
  (code_defs : gmap string CodeDefinition) (item : LineItem) :
  code_defs !! code item = None ->
  let entry :=
    mkEntry (line_id item) (Py.strftime (date_of_service item)) (code item)
            (code_type item) "Definition not provided in Code Pack."
            "Definition not provided in Code Pack." (units item) (charge item)
            "" in
  let record :=
    mkClarification (line_id item) (code item)
                    ("Missing code definition" :: trigger_reasons item) in
  evaluate_item code_defs item = Ok (entry, Some record)
  /\ ~ In INACTIVE_NOTE (clar_reasons record)
  /\ (forall bill pack, ~ In (reason_mismatch bill pack) (clar_reasons record))
  /\ (forall rows section2 dups clars,
        In item rows ->
        evaluate_line_items rows code_defs = Ok (section2, dups, clars) ->
        In record clars
        /\ exists e,
             In e section2 /\ entry_of item e
             /\ entry_official_desc e = PLACEHOLDER
             /\ entry_plain_eng e = PLACEHOLDER
             /\ (entry_notes e = "" \/ entry_notes e = DUP_NOTE)).
Proof.
  intros Hnone entry record.
  assert (Hev : evaluate_item code_defs item = Ok (entry, Some record)).
  { unfold evaluate_item, registry_branch. rewrite Hnone. reflexivity. }
  repeat apply conj.
  - exact Hev.
  - cbn [clar_reasons record]. unfold trigger_reasons.
    destruct (units_trigger item), (mod_trigger item); cbn [app In];
      intros H; repeat destruct H as [H|H]; discriminate || contradiction.
  - intros bill pack. cbn [clar_reasons record]. unfold trigger_reasons.
    destruct (units_trigger item), (mod_trigger item); cbn [app In];
      intros H; repeat destruct H as [H|H]; discriminate || contradiction.
  - intros rows section2 dups clars Hin Hrun.
    destruct (evaluate_line_items_item _ _ _ _ _ _ Hrun Hin)
      as (e & c & He & Hs & Hc).
    rewrite Hev in He. injection He as <- <-. split; [now apply Hc|].
    eexists. split; [exact Hs|]. unfold add_dup_note.
    destruct (mem_Z _ _); cbn; repeat split; auto.
Qed.





(** ** The registry *)

Lemma getitem_strip_columns r k :
  has_columns r -> In k definition_columns ->
  exists v, getitem_strip r k = Ok v.
Proof.
  intros H Hk. destruct (H k Hk) as [v Hv].
  unfold getitem_strip. rewrite Hv. eauto.
Qed.

Lemma load_row_Ok defs r :
  has_columns r ->
  exists code d,
    load_row defs r = Ok (<[code := d]> defs)
    /\ getitem_strip r "code" = Ok code
    /\ getitem_strip r "effective_date" = Ok (def_effective_date d).
Proof.
  intros H. unfold load_row.
  destruct (getitem_strip_columns r "code" H) as [c Hc]; [cbn; tauto|].
  destruct (getitem_strip_columns r "code_type" H) as [t Ht]; [cbn; tauto|].
  destruct (getitem_strip_columns r "official_description" H) as [o Ho];
    [cbn; tauto|].
  destruct (getitem_strip_columns r "plain_english" H) as [p Hp]; [cbn; tauto|].
  destruct (getitem_strip_columns r "status" H) as [s Hs]; [cbn; tauto|].
  destruct (getitem_strip_columns r "effective_date" H) as [e He];
    [cbn; tauto|].
  rewrite Hc, Ht, Ho, Hp, Hs, He. cbn [bind].
  do 2 eexists. repeat split.
Qed.

Lemma load_rows_Ok rows : forall defs,
  Forall has_columns rows ->
  exists defs',
    load_rows defs rows = Ok defs'
    /\ forall code d,
         defs' !! code = Some d ->
         defs !! code = Some d
         \/ exists r, In r rows /\ getitem_strip r "code" = Ok code
                      /\ getitem_strip r "effective_date"
                         = Ok (def_effective_date d).
Proof.
  induction rows as [|r rows IH]; intros defs H.
  - exists defs. split; [reflexivity | auto].
  - apply List.Forall_cons_iff in H as [Hr H].
    destruct (load_row_Ok defs r Hr) as (c & d0 & Hl & Hc & He).
    destruct (IH (<[c := d0]> defs) H) as (defs' & Hrows & Hlook).
    exists defs'. cbn [load_rows]. rewrite Hl. cbn [bind].
    split; [exact Hrows|].
    intros code d Hd. destruct (Hlook code d Hd) as [Hins|(r' & Hin & ? & ?)].
    + apply lookup_insert_Some in Hins as [[<- <-]|[_ Hold]].
      * right. exists r. repeat split; [now left | assumption | assumption].
      * now left.
    + right. exists r'. repeat split; [now right | assumption | assumption].
Qed.

(** The loop body raises exactly when the item meets a definition of its
    code and type whose [effective_date] is not a date. *)
Lemma evaluate_item_Raise code_defs item e :
  evaluate_item code_defs item = Raise e <->
  e = ValueError
  /\ exists d,
       code_defs !! code item = Some d
       /\ code_type item = def_code_type d
       /\ Py.strptime (def_effective_date d) = Raise ValueError.
Proof.
  unfold evaluate_item, registry_branch.
  destruct (code_defs !! code item) as [d|];
    [|split; [discriminate | intros (_ & ? & ? & _); discriminate]].
  destruct (String.eqb_spec (code_type item) (def_code_type d)) as [Et|Et];
    cbn [negb bind];
    [|split; [discriminate | intros (_ & ? & [= <-] & ? & _); contradiction]].
  destruct (Py.strptime (def_effective_date d)) as [dt|e'] eqn:Es; cbn [bind].
  - destruct (_ || _); cbn [bind];
      (split; [discriminate | intros (_ & ? & [= <-] & _ & ?); congruence]).
  - pose proof (strptime_ValueError _ _ Es) as ->. split.
    + intros [= <-]. split; [reflexivity|]. exists d. auto.
    + intros (-> & _). reflexivity.
Qed.

(** C3, amended.  Loading does not look into [effective_date]: for rows
    that have the six columns it succeeds whatever the dates are, and every
    definition keeps the trimmed text of its row.  A text that is not a
    date raises [ValueError] only in the evaluation, and only for an item
    that meets a definition of its code and type with such a text; a run
    over rows with such an item raises, and items with an unknown code or
    another type are evaluated as usual. *)
Theorem load_keeps_effective_date_text (rows : list Csv.row) :
  Forall has_columns rows ->
  exists code_defs,
    load_code_definitions rows = Ok code_defs
    /\ (forall code d,
          code_defs !! code = Some d ->
          exists r, In r rows /\ getitem_strip r "code" = Ok code
                    /\ getitem_strip r "effective_date"
                       = Ok (def_effective_date d))
    /\ (forall item e,
          evaluate_item code_defs item = Raise e <->
          e = ValueError
          /\ exists d,
               code_defs !! code item = Some d
               /\ code_type item = def_code_type d
               /\ Py.strptime (def_effective_date d) = Raise ValueError)
    /\ (forall items item,
          In item items ->
          (exists e, evaluate_item code_defs item = Raise e) ->
          evaluate_line_items items code_defs = Raise ValueError).
Proof.
  intros H. destruct (load_rows_Ok rows ∅ H) as (defs & Hl & Hlook).
  exists defs. repeat apply conj.
  - exact Hl.
  - intros code d Hd. destruct (Hlook code d Hd) as [Habs|Hr]; [|exact Hr].
    rewrite lookup_empty in Habs. discriminate.
  - intros item e. apply evaluate_item_Raise.
  - intros items item Hin [e He].
    assert (Hin' : In item (sorted line_id items)) by now apply sorted_In.
    unfold evaluate_line_items.
    destruct (mapM (evaluate_item defs) (sorted line_id items)) as [rs|e'] eqn:E.
    + apply mapM_Ok in E. destruct (Forall2_In_l _ _ _ _ E Hin') as (y & _ & Hy).
      congruence.
    + cbn [bind]. f_equal. clear Hin Hin' He.
      induction (sorted line_id items) as [|x l IH]; cbn [mapM] in E;
        [discriminate|].
      destruct (evaluate_item defs x) as [y|ex] eqn:Ex; cbn [bind] in E.
      * destruct (mapM (evaluate_item defs) l); cbn [bind] in E;
          [discriminate|]. now apply IH.
      * injection E as <-. now apply evaluate_item_Raise in Ex as [-> _].
Qed.

(** The duplicate detector and the whole evaluation see the rows only
    through their sorted list. *)
Lemma detect_duplicates_sorted rows rows' :
  sorted line_id rows = sorted line_id rows' ->
  detect_duplicates rows = detect_duplicates rows'.
Proof.
  intros E. unfold detect_duplicates, dup_groups_map. now rewrite E.
Qed.

Lemma evaluate_line_items_sorted rows rows' code_defs :
  sorted line_id rows = sorted line_id rows' ->
  evaluate_line_items rows code_defs = evaluate_line_items rows' code_defs.
Proof.
  intros E. unfold evaluate_line_items.
  now rewrite E, (detect_duplicates_sorted _ _ E).
Qed.

(** C8, amended.  For well-formed rows whose [line_id]s are pairwise
    distinct, another order of the rows in the text gives the same duplicate
    groups with the same numbers, and the same result of the evaluation. *)
Theorem numbering_independent_of_row_order
  (text text' : string) (fieldnames : list string)
  (raw_rows raw_rows' : list Csv.row) (code_defs : gmap string CodeDefinition) :
  table_of text fieldnames raw_rows ->
  table_of text' fieldnames raw_rows' ->
  has_required fieldnames = true ->
  Forall well_formed raw_rows ->
  Permutation raw_rows raw_rows' ->
  exists items items',
    parse_line_items (Some text) = Ok (items, [])
    /\ parse_line_items (Some text') = Ok (items', [])
    /\ Permutation items items'
    /\ (List.NoDup (map line_id items) ->
        detect_duplicates items' = detect_duplicates items
        /\ evaluate_line_items items' code_defs
           = evaluate_line_items items code_defs).
Proof.
  intros Htab Htab' Hreq Hwf HP.
  assert (Hwf' : Forall well_formed raw_rows')
    by (eapply Permutation_Forall; eauto).
  destruct (parse_rows_well_formed 2 raw_rows Hwf) as (items & Hp & _).
  destruct (parse_rows_well_formed 2 raw_rows' Hwf') as (items' & Hp' & _).
  assert (HPi : Permutation items items').
  { pose proof (parse_rows_items 2 raw_rows) as E.
    pose proof (parse_rows_items 2 raw_rows') as E'.
    rewrite Hp in E. rewrite Hp' in E'. cbn [fst] in E, E'. subst.
    apply somes_perm, Permutation_map, HP. }
  exists items, items'. repeat apply conj.
  - rewrite (parse_line_items_table _ _ _ Htab Hreq), Hp. reflexivity.
  - rewrite (parse_line_items_table _ _ _ Htab' Hreq), Hp'. reflexivity.
  - exact HPi.
  - intros Hnd.
    pose proof (sorted_order_independent line_id items items' Hnd HPi) as E.
    split; symmetry.
    + now apply detect_duplicates_sorted.
    + now apply evaluate_line_items_sorted.
Qed.

(** ** The sign of a charge *)






(** ** The header *)

Lemma mem_str_In x l : mem_str x l = true <-> In x l.
Proof.
  unfold mem_str. rewrite existsb_exists. split.
  - intros (y & Hy & E). apply String.eqb_eq in E. now subst.
  - intros H. exists x. split; [exact H | apply String.eqb_refl].
Qed.

Lemma missing_cols_In fieldnames c :
  In c (missing_cols fieldnames) <->
  In c required_cols /\ ~ In c fieldnames.
Proof.
  unfold missing_cols. rewrite filter_In, negb_true_iff.
  rewrite <- (mem_str_In c fieldnames).
  destruct (mem_str c fieldnames); intuition congruence.
Qed.

Lemma missing_cols_nonempty fieldnames :
  has_required fieldnames = false -> missing_cols fieldnames <> [].
Proof.
  unfold has_required, missing_cols.
  induction required_cols as [|c cs IH]; cbn [forallb List.filter];
    [discriminate|].
  destruct (mem_str c fieldnames); cbn [negb andb]; [exact IH | discriminate].
Qed.

(** C7, amended.  For every text that is not blank and whose header record
    has at least one field, if the normalised header lacks one of the six
    required columns, [parse_line_items] returns no item and exactly one
    message, naming the missing columns in sorted order; no row is read.
    A text without any header record is not covered. *)
Theorem missing_columns_give_one_structural_error
  (text : string) (names : list string) (rest : list string) :
  blank (Some text) = false ->
  Csv.next (detect_delimiter (unfenced text))
           (Py.io_lines (Py.strip (unfenced text)))
  = Ok (Some (names, rest)) ->
  names <> [] ->
  has_required (normalize_header names) = false ->
  let missing := missing_cols (normalize_header names) in
  parse_line_items (Some text)
  = Ok ([], ["Missing required columns: " +:+ Py.join ", " missing])
  /\ missing <> []
  /\ (forall c, In c missing <->
                In c required_cols /\ ~ In c (normalize_header names)).
Proof.
  intros Hb Hh Hn Hreq missing. repeat apply conj.
  - unfold parse_line_items.
    rewrite (not_blank_not_empty _ Hb), Hb, Hh. cbn [orb bind].
    subst missing. rewrite Hreq. cbn [negb].
    destruct names as [|n ns]; [contradiction | reflexivity].
  - now apply missing_cols_nonempty.
  - intros c. apply missing_cols_In.
Qed.

(** ** Concrete runs *)

(** C10.  The text made of an opening and a closing fence line passes the
    test for empty or absent input, loses both fences, leaves no header
    record for the reader, and [parse_line_items] returns no item and no
    message. *)
Theorem fence_only_input_yields_nothing :
  exists text,
    text = fence_only
    /\ (text =? "")%string = false
    /\ blank (Some text) = false
    /\ unfenced text = ""
    /\ Csv.next (detect_delimiter (unfenced text))
                (Py.io_lines (Py.strip (unfenced text))) = Ok None
    /\ parse_line_items (Some text) = Ok ([], []).
Proof. exists fence_only. repeat split. Qed.

(** C7 as stated fails for a text without a header record: the header of
    the fence-only text lacks all six columns, and the result holds no
    message at all. *)
Lemma no_header_no_structural_error :
  blank (Some fence_only) = false
  /\ Csv.next (detect_delimiter (unfenced fence_only))
              (Py.io_lines (Py.strip (unfenced fence_only))) = Ok None
  /\ missing_cols [] = required_cols
  /\ parse_line_items (Some fence_only) = Ok ([], []).
Proof. repeat split. Qed.

Lemma table_of_bill0 : table_of bill0 header0 rows0.
Proof.
  split; [reflexivity|]. do 3 eexists.
  split; [vm_compute; reflexivity|].
  split; [vm_compute; reflexivity|].
  split; vm_compute; reflexivity.
Qed.

Lemma table_of_bill0' : table_of bill0' header0 rows0'.
Proof.
  split; [reflexivity|]. do 3 eexists.
  split; [vm_compute; reflexivity|].
  split; [vm_compute; reflexivity|].
  split; vm_compute; reflexivity.
Qed.

Lemma rows0_well_formed : Forall well_formed rows0.
Proof. repeat constructor. Qed.

Lemma rows0_perm : Permutation rows0 rows0'.
Proof.
  unfold rows0, rows0', Csv.dict_rows. cbn [List.filter map].
  apply Permutation_sym, (Permutation_cons_app [_; _] []). reflexivity.
Qed.


Lemma parse_bill0 : parse_line_items (Some bill0) = Ok ([item2; item1; item3], []).
Proof. vm_compute. reflexivity. Qed.


Lemma duplicate_groups_by_exact_key_witness :
  let groups := detect_duplicates [item2; item1; item3] in
  map group_line_ids groups = [[1; 2]]
  /\ map group_number groups
     = map (fun i => 1 + Z.of_nat i) (seq 0 (length groups))
  /\ StronglySorted Z.le (map (fun g => min_of (group_line_ids g)) groups).
Proof.
  pose proof (duplicate_groups_by_exact_key [item2; item1; item3])
    as (_ & _ & _ & Hs & Hn & _).
  split; [vm_compute; reflexivity|]. split; [exact Hn | exact Hs].
Defined.

Lemma unknown_code_gets_placeholder_witness :
  registry0 !! code item3 = None
  /\ evaluate_item registry0 item3
     = Ok (mkEntry 3 "2024-02-01" "Q" "MOD"
                   "Definition not provided in Code Pack."
                   "Definition not provided in Code Pack." 0 five "",
           Some (mkClarification 3 "Q"
                   ["Missing code definition"; "units = 0 AND charge > 0";
                    "code_type is MOD with charge > 0"])).
Proof.
  assert (H : registry0 !! code item3 = None) by (vm_compute; reflexivity).
  split; [exact H|].
  exact (proj1 (unknown_code_gets_placeholder registry0 item3 H)).
Defined.



(** C3 as stated fails: the registry with the malformed date is loaded
    without an error; an evaluation that does not meet the definition runs
    to its end, and one that meets it raises only then. *)
Lemma malformed_effective_date_is_loaded :
  Py.strptime "01/02/2023" = Raise ValueError
  /\ load_code_definitions bad_date_rows = Ok bad_date_registry
  /\ (exists out, evaluate_line_items [item3] bad_date_registry = Ok out)
  /\ evaluate_line_items [item1] bad_date_registry = Raise ValueError.
Proof.
  split; [reflexivity|]. split; [reflexivity|].
  split; [eexists; vm_compute; reflexivity | vm_compute; reflexivity].
Qed.

Lemma bad_date_rows_columns : Forall has_columns bad_date_rows.
Proof.
  repeat constructor. intros k Hk. cbn [definition_columns In] in Hk.
  repeat destruct Hk as [<-|Hk]; try (eexists; reflexivity). contradiction.
Qed.

Lemma load_keeps_effective_date_text_witness :
  Forall has_columns bad_date_rows
  /\ exists code_defs,
       load_code_definitions bad_date_rows = Ok code_defs
       /\ forall code d,
            code_defs !! code = Some d ->
            exists r, In r bad_date_rows
                      /\ getitem_strip r "code" = Ok code
                      /\ getitem_strip r "effective_date"
                         = Ok (def_effective_date d).
Proof.
  split; [exact bad_date_rows_columns|].
  destruct (load_keeps_effective_date_text bad_date_rows bad_date_rows_columns)
    as (code_defs & Hl & Hd & _).
  exists code_defs. split; [exact Hl | exact Hd].
Defined.

Lemma numbering_independent_of_row_order_witness :
  table_of bill0 header0 rows0
  /\ table_of bill0' header0 rows0'
  /\ has_required header0 = true
  /\ Forall well_formed rows0
  /\ Permutation rows0 rows0'
  /\ List.NoDup (map line_id [item2; item1; item3])
  /\ exists items',
       parse_line_items (Some bill0') = Ok (items', [])
       /\ detect_duplicates items' = detect_duplicates [item2; item1; item3].
Proof.
  split; [exact table_of_bill0|]. split; [exact table_of_bill0'|].
  split; [reflexivity|]. split; [exact rows0_well_formed|].
  split; [exact rows0_perm|].
  assert (Hnd : List.NoDup (map line_id [item2; item1; item3])).
  { cbn [map line_id item1 item2 item3].
    repeat constructor; cbn [In]; intros H;
      repeat destruct H as [H|H]; discriminate || contradiction. }
  split; [exact Hnd|].
  destruct (numbering_independent_of_row_order bill0 bill0' header0 rows0 rows0'
              registry0 table_of_bill0 table_of_bill0' eq_refl
              rows0_well_formed rows0_perm)
    as (items & items' & Hp & Hp' & _ & Hsame).
  rewrite parse_bill0 in Hp. injection Hp as <-.
  exists items'. split; [exact Hp' | exact (proj1 (Hsame Hnd))].
Defined.

(** C8 as stated fails: with the same valid rows in another order, the
    group of code "A" is number 1 in one run and number 2 in the other. *)
Lemma numbering_follows_row_order_on_ties :
  (exists items items',
     parse_line_items (Some tied_bill) = Ok (items, [])
     /\ parse_line_items (Some tied_bill') = Ok (items', [])
     /\ Permutation items items')
  /\ numbered_codes (parse_line_items (Some tied_bill))
     = Ok [(1, "A", [1; 2]); (2, "B", [1; 2])]
  /\ numbered_codes (parse_line_items (Some tied_bill'))
     = Ok [(1, "B", [1; 2]); (2, "A", [1; 2])].
Proof.
  split; [|split; vm_compute; reflexivity].
  do 2 eexists. split; [vm_compute; reflexivity|].
  split; [vm_compute; reflexivity|]. apply perm_swap.
Qed.



Lemma missing_columns_give_one_structural_error_witness :
  blank (Some two_column_text) = false
  /\ Csv.next (detect_delimiter (unfenced two_column_text))
              (Py.io_lines (Py.strip (unfenced two_column_text)))
     = Ok (Some (["a"; "B"], ["1,2"]))
  /\ ["a"; "B"] <> []
  /\ has_required (normalize_header ["a"; "B"]) = false
  /\ parse_line_items (Some two_column_text)
     = Ok ([], ["Missing required columns: charge, code, code_type, date_of_service, line_id, units"]).
Proof.
  split; [reflexivity|]. split; [vm_compute; reflexivity|].
  split; [discriminate|]. split; [reflexivity|].
  exact (proj1 (missing_columns_give_one_structural_error two_column_text
                  ["a"; "B"] ["1,2"] eq_refl eq_refl
                  ltac:(discriminate) eq_refl)).
Defined.

(** * Further properties *)

(** ** The parser: rows, messages and columns *)

Lemma validate_row_inr i raw_row e :
  validate_row i raw_row = inr e ->
  e = row_error_message i raw_row /\ accept raw_row = None.
Proof.
  intros H. split.
  - unfold validate_row in H. repeat (case_match; try discriminate); congruence.
  - destruct (accept raw_row) as [item|] eqn:E; [|reflexivity].
    apply (validate_row_inl i) in E. congruence.
Qed.

Lemma parse_rows_errors i raw_rows :
  snd (parse_rows i raw_rows) = rejected_messages i raw_rows.
Proof.
  revert i. induction raw_rows as [|r rows IH]; intros i; [reflexivity|].
  cbn [parse_rows]. specialize (IH (i + 1)).
  destruct (parse_rows (i + 1) rows) as [items errors]. cbn [snd] in IH.
  unfold rejected_messages in *. cbn [enumerate flat_map fst snd].
  rewrite <- IH. destruct (validate_row i r) as [item|e] eqn:E.
  - apply validate_row_inl in E. now rewrite E.
  - apply validate_row_inr in E as [-> ->]. reflexivity.
Qed.

Lemma enumerate_In {A : Type} (l : list A) : forall i j x,
  In (j, x) (enumerate i l) <->
  exists k, nth_error l k = Some x /\ j = i + Z.of_nat k.
Proof.
  induction l as [|y l IH]; intros i j x; cbn [enumerate In].
  - split; [tauto | intros ([|k] & H & _); discriminate].
  - rewrite IH. split.
    + intros [[= <- <-]|(k & Hk & ->)].
      * exists 0%nat. split; [reflexivity | lia].
      * exists (S k). split; [exact Hk | lia].
    + intros ([|k] & Hk & ->).
      * left. injection Hk as ->. f_equal. lia.
      * right. exists k. split; [exact Hk | lia].
Qed.

Lemma rejected_plus_accepted i raw_rows :
  (length (somes (map accept raw_rows))
   + length (rejected_messages i raw_rows))%nat
  = length raw_rows.
Proof.
  revert i. induction raw_rows as [|r rows IH]; intros i; [reflexivity|].
  unfold rejected_messages, somes in *.
  cbn [map enumerate flat_map fst snd]. rewrite !length_app.
  specialize (IH (i + 1)). destruct (accept r); cbn [length]; lia.
Qed.

(** X1.  For a text that holds a table with the required columns, the
    parser returns for every data row either its item or its message,
    never both and never none: the items are the accepted rows in the order
    of the rows, the messages are those of the rejected rows in the order
    of the rows, and the message of the row at position [k] (from 0) carries
    the row number [k + 2]. *)
Theorem every_row_gives_an_item_or_a_message
  (text : string) (fieldnames : list string) (raw_rows : list Csv.row) :
  table_of text fieldnames raw_rows ->
  has_required fieldnames = true ->
  exists items errors,
    parse_line_items (Some text) = Ok (items, errors)
    /\ items = somes (map accept raw_rows)
    /\ errors = rejected_messages 2 raw_rows
    /\ (length items + length errors)%nat = length raw_rows
    /\ (forall item, In item items <->
                     exists r, In r raw_rows /\ accept r = Some item)
    /\ (forall e, In e errors <->
                  exists k r, nth_error raw_rows k = Some r
                              /\ accept r = None
                              /\ e = row_error_message (2 + Z.of_nat k) r).
Proof.
  intros Htab Hreq.
  exists (somes (map accept raw_rows)), (rejected_messages 2 raw_rows).
  repeat apply conj; try reflexivity.
  - rewrite (parse_line_items_table _ _ _ Htab Hreq). f_equal.
    rewrite (surjective_pairing (parse_rows 2 raw_rows)).
    now rewrite parse_rows_items, parse_rows_errors.
  - apply rejected_plus_accepted.
  - intros item. rewrite In_somes, in_map_iff. split.
    + intros (r & E & Hr). eauto.
    + intros (r & Hr & E). eauto.
  - intros e. unfold rejected_messages. rewrite in_flat_map. split.
    + intros ([j r] & Hin & He). cbn [fst snd] in He.
      apply enumerate_In in Hin as (k & Hk & ->).
      destruct (accept r) eqn:E; cbn [In] in He; [tauto|].
      destruct He as [<-|[]]. exists k, r. auto.
    + intros (k & r & Hk & E & ->). exists (2 + Z.of_nat k, r). split.
      * apply enumerate_In. eauto.
      * cbn [fst snd]. rewrite E. now left.
Qed.

Lemma every_row_gives_an_item_or_a_message_witness :
  table_of bill0 header0 rows0
  /\ has_required header0 = true
  /\ exists items errors,
       parse_line_items (Some bill0) = Ok (items, errors)
       /\ (length items + length errors)%nat = 3%nat.
Proof.
  split; [exact table_of_bill0|]. split; [reflexivity|].
  destruct (every_row_gives_an_item_or_a_message bill0 header0 rows0
              table_of_bill0 eq_refl)
    as (items & errors & Hp & _ & _ & Hlen & _).
  exists items, errors. split; [exact Hp | exact Hlen].
Defined.

(** X2.  The loop body accepts a row exactly when the six conversions
    succeed: [line_id] and [units] are integers, [date_of_service] is a
    calendar date, [code] and [code_type] are not empty and [charge] is an
    amount; the item then holds the converted values, with [bill_label] as
    it is (also empty or absent).  Otherwise the row has at least one
    message and the body returns the message of the row. *)
Theorem row_is_accepted_iff_six_fields_convert (i : Z) (raw_row : Csv.row) :
  (exists lid dos u ch,
     Py.int (cell raw_row "line_id") = Ok lid
     /\ Py.strptime (cell raw_row "date_of_service") = Ok dos
     /\ cell raw_row "code" <> ""
     /\ cell raw_row "code_type" <> ""
     /\ Py.int (cell raw_row "units") = Ok u
     /\ parse_money (cell raw_row "charge") = Ok ch
     /\ validate_row i raw_row
        = inl (mkLineItem lid dos (cell raw_row "code")
                          (cell raw_row "code_type") u ch
                          (cell raw_row "bill_label")))
  \/ ((exists e, Py.int (cell raw_row "line_id") = Raise e)
      \/ (exists e, Py.strptime (cell raw_row "date_of_service") = Raise e)
      \/ cell raw_row "code" = ""
      \/ cell raw_row "code_type" = ""
      \/ (exists e, Py.int (cell raw_row "units") = Raise e)
      \/ (exists e, parse_money (cell raw_row "charge") = Raise e))
     /\ row_errors raw_row <> []
     /\ validate_row i raw_row = inr (row_error_message i raw_row).
Proof.
  destruct (row_errors raw_row) as [|m ms] eqn:E.
  - left. apply well_formed_accept in E
      as (lid & dos & u & ch & H1 & H2 & H3 & H4 & H5 & H6 & Ha).
    exists lid, dos, u, ch. repeat split; try assumption.
    now apply validate_row_inl.
  - right. split; [|split; [discriminate|]].
    + unfold row_errors in E.
      destruct (Py.int (cell raw_row "line_id")); [|eauto].
      destruct (Py.strptime (cell raw_row "date_of_service")); [|eauto 6].
      destruct (String.eqb_spec (cell raw_row "code") ""); [tauto|].
      destruct (String.eqb_spec (cell raw_row "code_type") ""); [tauto|].
      destruct (Py.int (cell raw_row "units")); [|eauto 8].
      destruct (parse_money (cell raw_row "charge")); [|eauto 10].
      discriminate.
    + unfold validate_row. now rewrite E.
Qed.

Lemma zip_row_names names : forall cells,
  map fst (Csv.zip_row names cells) = names.
Proof.
  induction names as [|n ns IH]; intros cells; [reflexivity|].
  destruct cells; cbn [Csv.zip_row map fst]; now rewrite IH.
Qed.

Lemma binding_In (r : Csv.row) k v :
  List.NoDup (map fst r) -> (Csv.binding k r = Some v <-> In (k, v) r).
Proof.
  revert v.
  induction r as [|[k' v'] r IH]; cbn [Csv.binding map fst In]; intros v Hnd.
  - split; [discriminate | tauto].
  - apply NoDup_cons_iff in Hnd as [Hk' Hnd].
    pose proof (fun u => IH u Hnd) as IH'. clear IH.
    destruct (Csv.binding k r) as [w|] eqn:E.
    + pose proof (proj1 (IH' w) eq_refl) as Hw. split.
      * intros [= <-]. now right.
      * intros [[= -> ->]|Hin].
        -- exfalso. apply Hk'. now apply (in_map fst) in Hw.
        -- now apply IH' in Hin.
    + destruct (String.eqb_spec k' k) as [->|Hne].
      * split.
        -- intros [= <-]. now left.
        -- intros [[= ->]|Hin]; [reflexivity|].
           apply IH' in Hin. discriminate.
      * split; [discriminate|].
        intros [[= -> ->]|Hin]; [contradiction|].
        apply IH' in Hin. discriminate.
Qed.

Lemma binding_perm (r r' : Csv.row) k :
  List.NoDup (map fst r) -> Permutation r r' ->
  Csv.binding k r = Csv.binding k r'.
Proof.
  intros Hnd HP.
  assert (Hnd' : List.NoDup (map fst r'))
    by (eapply Permutation_NoDup; [apply Permutation_map, HP | exact Hnd]).
  destruct (Csv.binding k r) as [v|] eqn:E.
  - symmetry. apply (binding_In r' k v Hnd').
    eapply Permutation_in; [exact HP|]. now apply (binding_In r k v Hnd).
  - destruct (Csv.binding k r') as [v'|] eqn:E'; [|reflexivity].
    apply (binding_In r' k v' Hnd') in E'.
    apply Permutation_sym in HP.
    apply (Permutation_in _ HP), (binding_In r k v' Hnd) in E'. congruence.
Qed.

Lemma validate_row_cells i (r r' : Csv.row) :
  (forall k, cell r k = cell r' k) -> validate_row i r = validate_row i r'.
Proof.
  intros H. unfold validate_row, row_error_message, row_errors.
  now rewrite !H.
Qed.

(** X3.  The loop body reads the cells of a row by the name of their
    column: for a header without repeated names, the same cells under the
    same names in another order of the columns give the same item or the
    same message. *)
Theorem column_order_does_not_matter
  (i : Z) (names names' cells cells' : list string) :
  List.NoDup names ->
  Permutation (Csv.zip_row names cells) (Csv.zip_row names' cells') ->
  validate_row i (Csv.zip_row names cells)
  = validate_row i (Csv.zip_row names' cells').
Proof.
  intros Hnd HP. apply validate_row_cells. intros k.
  unfold cell, Csv.get.
  rewrite (binding_perm _ (Csv.zip_row names' cells') k);
    [reflexivity | now rewrite zip_row_names | exact HP].
Qed.

Lemma column_order_does_not_matter_witness :
  List.NoDup ["units"; "line_id"]
  /\ Permutation (Csv.zip_row ["units"; "line_id"] ["1"; "7"])
                 (Csv.zip_row ["line_id"; "units"] ["7"; "1"])
  /\ validate_row 2 (Csv.zip_row ["units"; "line_id"] ["1"; "7"])
     = validate_row 2 (Csv.zip_row ["line_id"; "units"] ["7"; "1"]).
Proof.
  assert (Hnd : List.NoDup ["units"; "line_id"]).
  { repeat constructor; cbn [In]; intros H;
      repeat destruct H as [H|H]; discriminate || contradiction. }
  assert (HP : Permutation (Csv.zip_row ["units"; "line_id"] ["1"; "7"])
                           (Csv.zip_row ["line_id"; "units"] ["7"; "1"]))
    by apply perm_swap.
  split; [exact Hnd|]. split; [exact HP|].
  exact (column_order_does_not_matter 2 _ _ _ _ Hnd HP).
Defined.

(** ** Code fences *)

Lemma count_nonneg c s : 0 <= Py.count c s.
Proof. induction s as [|d s IH]; cbn [Py.count]; [lia|]. destruct (Ascii.eqb c d); lia. Qed.

Lemma drop_line_app p q :
  Py.count Py.LF p = 0 -> drop_line (p +:+ String Py.LF q) = q.
Proof.
  induction p as [|c p IH]; intros H.
  - reflexivity.
  - pose proof (count_nonneg Py.LF p) as Hp.
    change (String c p +:+ String Py.LF q)
      with (String c (p +:+ String Py.LF q)).
    cbn [Py.count drop_line] in *.
    destruct (Ascii.eqb_spec c Py.LF) as [->|Hne].
    + rewrite Ascii.eqb_refl in H. lia.
    + apply IH. destruct (Ascii.eqb_spec Py.LF c); [congruence | lia].
Qed.

Lemma rstrip_app_keep a b :
  Py.rstrip b = b -> b <> "" -> Py.rstrip (a +:+ b) = a +:+ b.
Proof.
  intros Hb Hne. induction a as [|c a IH].
  - exact Hb.
  - change (String c a +:+ b) with (String c (a +:+ b)).
    cbn [Py.rstrip]. rewrite IH. destruct (a +:+ b) eqn:E; [|reflexivity].
    destruct a; [cbn in E; contradiction | discriminate].
Qed.

Lemma lstrip_length s : (String.length (Py.lstrip s) <= String.length s)%nat.
Proof.
  induction s as [|c s IH]; cbn [Py.lstrip String.length]; [lia|].
  destruct (Py.isspace c); cbn [String.length]; lia.
Qed.

Lemma lstrip_fixed s :
  Py.lstrip s = s ->
  s = "" \/ exists c r, s = String c r /\ Py.isspace c = false.
Proof.
  destruct s as [|c r]; [now left|]. cbn [Py.lstrip].
  destruct (Py.isspace c) eqn:E; [|right; eauto].
  intros H. pose proof (lstrip_length r) as Hl. rewrite H in Hl.
  cbn [String.length] in Hl. lia.
Qed.

Lemma list_ascii_of_string_app a b :
  list_ascii_of_string (a +:+ b)
  = list_ascii_of_string a ++ list_ascii_of_string b.
Proof.
  induction a as [|c a IH]; [reflexivity|].
  change (String c a +:+ b) with (String c (a +:+ b)).
  cbn [list_ascii_of_string app]. now rewrite IH.
Qed.

Lemma strip_closing_fence_app body :
  strip_closing_fence (body +:+ String Py.LF "```") = body.
Proof.
  unfold strip_closing_fence.
  rewrite (rstrip_app_keep body (String Py.LF "```")) by (reflexivity || discriminate).
  rewrite list_ascii_of_string_app, rev_app_distr.
  cbn. rewrite rev_involutive. apply string_of_list_ascii_of_string.
Qed.

Lemma append_assoc3 (a b c : string) : (a +:+ b) +:+ c = a +:+ (b +:+ c).
Proof.
  induction a as [|x a IH]; [reflexivity|].
  change (String x a +:+ b) with (String x (a +:+ b)).
  change (String x (a +:+ b) +:+ c) with (String x ((a +:+ b) +:+ c)).
  now rewrite IH.
Qed.

Lemma strip_keep c r :
  Py.isspace c = false -> Py.rstrip (String c r) = String c r ->
  Py.strip (String c r) = String c r.
Proof. intros Hc Hr. unfold Py.strip. cbn [Py.lstrip]. now rewrite Hc. Qed.

Lemma rstrip_closing_fence a :
  Py.rstrip (a +:+ String Py.LF "```") = a +:+ String Py.LF "```".
Proof. apply rstrip_app_keep; [reflexivity | discriminate]. Qed.

Lemma fenced_shape info body :
  fenced info body
  = String "`" (String "`" (String "`" (info +:+ String Py.LF body)))
    +:+ String Py.LF "```".
Proof.
  unfold fenced.
  change (String "`" (String "`" (String "`" (info +:+ String Py.LF body))))
    with ("```" +:+ (info +:+ String Py.LF body)).
  rewrite !append_assoc3. reflexivity.
Qed.

Lemma unfenced_fenced info body :
  Py.count Py.LF info = 0 -> Py.lstrip body = body ->
  Py.strip (fenced info body) = fenced info body
  /\ unfenced (fenced info body) = body.
Proof.
  intros Hinfo Hbody.
  assert (Hstrip : Py.strip (fenced info body) = fenced info body).
  { rewrite fenced_shape.
    change (String "`" (String "`" (String "`" (info +:+ String Py.LF body)))
            +:+ String Py.LF "```")
      with (String "`" (String "`" (String "`" (info +:+ String Py.LF body))
            +:+ String Py.LF "```")).
    apply strip_keep; [reflexivity|].
    change (String "`" (String "`" (String "`" (info +:+ String Py.LF body))
            +:+ String Py.LF "```"))
      with (String "`" (String "`" (String "`" (info +:+ String Py.LF body)))
            +:+ String Py.LF "```").
    apply rstrip_closing_fence. }
  split; [exact Hstrip|].
  unfold unfenced. rewrite Hstrip.
  assert (Hopen : strip_opening_fence (fenced info body)
                  = body +:+ String Py.LF "```").
  { unfold strip_opening_fence, fenced.
    change ("```" +:+ info +:+ String Py.LF (body +:+ String Py.LF "```"))
      with (String "`" (String "`" (String "`"
              (info +:+ String Py.LF (body +:+ String Py.LF "```"))))).
    cbn [Py.startswith]. rewrite !Ascii.eqb_refl. cbn [andb drop_line].
    change (Ascii.eqb "`" Py.LF) with false. cbn iota.
    now apply drop_line_app. }
  rewrite Hopen.
  destruct (lstrip_fixed body Hbody) as [->|(c & r & -> & Hc)].
  - reflexivity.
  - assert (Hs : Py.strip (String c r +:+ String Py.LF "```")
                 = String c r +:+ String Py.LF "```").
    { change (String c r +:+ String Py.LF "```")
        with (String c (r +:+ String Py.LF "```")).
      apply strip_keep; [exact Hc|].
      change (String c (r +:+ String Py.LF "```"))
        with (String c r +:+ String Py.LF "```").
      apply rstrip_closing_fence. }
    rewrite Hs. apply strip_closing_fence_app.
Qed.

(** X4.  A code fence around the table is transparent.  For an info string
    without a line feed and a text without leading white space, removing
    the fences of the fenced text gives back the text; the fenced text is
    never taken for absent input; and when the text is itself free of
    fences and not blank, the fenced text is parsed exactly like the bare
    text. *)
Theorem code_fence_is_transparent (info body : string) :
  Py.count Py.LF info = 0 ->
  Py.lstrip body = body ->
  unfenced (fenced info body) = body
  /\ blank (Some (fenced info body)) = false
  /\ (unfenced body = body -> blank (Some body) = false ->
      parse_line_items (Some (fenced info body))
      = parse_line_items (Some body)).
Proof.
  intros Hinfo Hbody.
  destruct (unfenced_fenced info body Hinfo Hbody) as [Hstrip Hun].
  assert (Hblank : blank (Some (fenced info body)) = false).
  { unfold blank. rewrite Hstrip. reflexivity. }
  repeat split; [exact Hun | exact Hblank|].
  intros Hb Hnb. unfold parse_line_items.
  rewrite (not_blank_not_empty _ Hblank), Hblank.
  rewrite (not_blank_not_empty _ Hnb), Hnb. cbn [orb].
  now rewrite Hun, Hb.
Qed.

Lemma code_fence_is_transparent_witness :
  Py.count Py.LF "text" = 0
  /\ Py.lstrip bill0 = bill0
  /\ unfenced bill0 = bill0
  /\ blank (Some bill0) = false
  /\ parse_line_items (Some (fenced "text" bill0))
     = Ok ([item2; item1; item3], []).
Proof.
  split; [reflexivity|]. split; [reflexivity|].
  split; [vm_compute; reflexivity|]. split; [reflexivity|].
  destruct (code_fence_is_transparent "text" bill0 eq_refl eq_refl)
    as (_ & _ & H).
  rewrite H; [exact parse_bill0 | vm_compute; reflexivity | reflexivity].
Defined.

(** ** The rule engine: fields, clarification records and branches *)















(** X8.  When the code is in the registry under another [code_type], the
    loop body gives the placeholder descriptions, no note, and the reason
    that names both types, followed only by the reasons of the triggers;
    [status] and [effective_date] of the definition are not looked at, so a
    malformed [effective_date] does not raise here. *)
Theorem type_mismatch_gets_placeholder
  (code_defs : gmap string CodeDefinition) (item : LineItem)
  (d : CodeDefinition) :
  code_defs !! code item = Some d ->
  code_type item <> def_code_type d ->
  evaluate_item code_defs item
  = Ok (mkEntry (line_id item) (Py.strftime (date_of_service item))
                (code item) (code_type item)
                "Definition not provided in Code Pack."
                "Definition not provided in Code Pack."
                (units item) (charge item) "",
        Some (mkClarification (line_id item) (code item)
                (("code_type mismatch: bill has '" +:+ code_type item
                  +:+ "', pack has '" +:+ def_code_type d +:+ "'")
                 :: trigger_reasons item))).
Proof.
  intros Hd Hne. unfold evaluate_item, registry_branch. rewrite Hd.
  destruct (String.eqb_spec (code_type item) (def_code_type d));
    [contradiction | reflexivity].
Qed.

Lemma type_mismatch_gets_placeholder_witness :
  bad_date_registry !! code item_mismatch
  = Some (mkCodeDefinition "CPT" "Office visit" "A visit" "Active"
                           "01/02/2023")
  /\ code_type item_mismatch <> "CPT"
  /\ exists e,
       evaluate_item bad_date_registry item_mismatch
       = Ok (e, Some (mkClarification 5 "99213"
                        ["code_type mismatch: bill has 'HCPCS', pack has 'CPT'"])).
Proof.
  assert (Hd : bad_date_registry !! code item_mismatch
               = Some (mkCodeDefinition "CPT" "Office visit" "A visit"
                                        "Active" "01/02/2023"))
    by (vm_compute; reflexivity).
  assert (Hne : code_type item_mismatch
                <> def_code_type (mkCodeDefinition "CPT" "Office visit"
                                    "A visit" "Active" "01/02/2023"))
    by discriminate.
  split; [exact Hd|]. split; [exact Hne|].
  eexists. exact (type_mismatch_gets_placeholder _ _ _ Hd Hne).
Defined.

Lemma date_gt_spec (a b : Py.date) :
  Py.date_gt a b = true <->
  Py.year b < Py.year a
  \/ (Py.year b = Py.year a
      /\ (Py.month b < Py.month a
          \/ (Py.month b = Py.month a /\ Py.day b < Py.day a))).
Proof.
  unfold Py.date_gt.
  rewrite !orb_true_iff, !andb_true_iff, !orb_true_iff, !andb_true_iff,
    !Z.ltb_lt, !Z.eqb_eq.
  reflexivity.
Qed.

(** X9.  For a code that is in the registry under the item's [code_type]
    with a calendar date as [effective_date]: when the status is "Active"
    and the effective date is not after the date of service, the
    descriptions are those of the definition, there is no note, and a
    record is made only by the triggers; when the status is anything else
    or the effective date is after the date of service, the descriptions
    are "N/A" and the inactive note is both the note and the first reason.
    The comparison is strict: a code effective on the very date of service
    is active. *)
Theorem known_code_is_active_or_inactive
  (code_defs : gmap string CodeDefinition) (item : LineItem)
  (d : CodeDefinition) (eff : Py.date) :
  code_defs !! code item = Some d ->
  code_type item = def_code_type d ->
  Py.strptime (def_effective_date d) = Ok eff ->
  (def_status d = "Active" ->
   Py.date_gt eff (date_of_service item) = false ->
   evaluate_item code_defs item
   = Ok (mkEntry (line_id item) (Py.strftime (date_of_service item))
                 (code item) (code_type item) (def_official_description d)
                 (def_plain_english d) (units item) (charge item) "",
         if units_trigger item || mod_trigger item
         then Some (mkClarification (line_id item) (code item)
                      (trigger_reasons item))
         else None))
  /\ (def_status d <> "Active"
      \/ Py.date_gt eff (date_of_service item) = true ->
      evaluate_item code_defs item
      = Ok (mkEntry (line_id item) (Py.strftime (date_of_service item))
                    (code item) (code_type item) "N/A" "N/A" (units item)
                    (charge item)
                    "Code is inactive or not effective for the date of service.",
            Some (mkClarification (line_id item) (code item)
                    ("Code is inactive or not effective for the date of service."
                     :: trigger_reasons item))))
  /\ (Py.date_gt eff (date_of_service item) = true <->
      Py.year (date_of_service item) < Py.year eff
      \/ (Py.year (date_of_service item) = Py.year eff
          /\ (Py.month (date_of_service item) < Py.month eff
              \/ (Py.month (date_of_service item) = Py.month eff
                  /\ Py.day (date_of_service item) < Py.day eff))))
  /\ (eff = date_of_service item ->
      Py.date_gt eff (date_of_service item) = false).
Proof.
  intros Hd Ht He. split; [|split; [|split]].
  - intros Hs Hgt. unfold evaluate_item, registry_branch.
    rewrite Hd, Ht, String.eqb_refl, He. cbn [negb bind].
    rewrite Hs, Hgt. reflexivity.
  - intros Hin. unfold evaluate_item, registry_branch.
    rewrite Hd, Ht, String.eqb_refl, He. cbn [negb bind].
    assert (Hc : negb (def_status d =? "Active")%string
                 || Py.date_gt eff (date_of_service item) = true).
    { destruct Hin as [Hs| ->]; [|apply orb_true_r].
      destruct (String.eqb_spec (def_status d) "Active");
        [contradiction | reflexivity]. }
    rewrite Hc. reflexivity.
  - apply date_gt_spec.
  - intros ->. destruct (Py.date_gt _ _) eqn:E; [|reflexivity].
    apply date_gt_spec in E. lia.
Qed.

Lemma known_code_is_active_or_inactive_witness :
  registry0 !! code item_on_the_day = Some definition0
  /\ code_type item_on_the_day = def_code_type definition0
  /\ Py.strptime (def_effective_date definition0) = Ok (Py.mkdate 2023 1 1)
  /\ (exists e, evaluate_item registry0 item_on_the_day = Ok (e, None))
  /\ exists e r, evaluate_item registry0 item_early = Ok (e, Some r).
Proof.
  assert (Hd : registry0 !! code item_on_the_day = Some definition0)
    by (vm_compute; reflexivity).
  assert (Hd' : registry0 !! code item_early = Some definition0)
    by (vm_compute; reflexivity).
  split; [exact Hd|]. split; [reflexivity|]. split; [reflexivity|].
  split.
  - destruct (known_code_is_active_or_inactive registry0 item_on_the_day
                definition0 (Py.mkdate 2023 1 1) Hd eq_refl eq_refl)
      as (Hact & _).
    eexists. exact (Hact eq_refl eq_refl).
  - destruct (known_code_is_active_or_inactive registry0 item_early
                definition0 (Py.mkdate 2023 1 1) Hd' eq_refl eq_refl)
      as (_ & Hin & _).
    do 2 eexists. exact (Hin (or_intror eq_refl)).
Defined.

(** ** The duplicate detector: notes, keys and groups *)




Lemma insert_by_map {A : Type} (key : A -> Z) (f : A -> A) x l :
  (forall y, key (f y) = key y) ->
  insert_by key (f x) (map f l) = map f (insert_by key x l).
Proof.
  intros Hf. induction l as [|y l IH]; [reflexivity|].
  cbn [map insert_by]. rewrite !Hf.
  destruct (key x <=? key y); cbn [map]; [reflexivity | now rewrite IH].
Qed.

Lemma sorted_map {A : Type} (key : A -> Z) (f : A -> A) l :
  (forall y, key (f y) = key y) ->
  sorted key (map f l) = map f (sorted key l).
Proof.
  intros Hf. induction l as [|x l IH]; [reflexivity|].
  cbn [map sorted fold_right]. fold (sorted key (map f l)).
  fold (sorted key l). rewrite IH. now apply insert_by_map.
Qed.

Lemma group_by_map {A K V : Type} (eqb : K -> K -> bool) (key : A -> K)
  (val : A -> V) (f : A -> A) l :
  (forall y, key (f y) = key y) -> (forall y, val (f y) = val y) ->
  group_by eqb key val (map f l) = group_by eqb key val l.
Proof.
  intros Hk Hv. unfold group_by. generalize (@nil (K * list V)).
  induction l as [|x l IH]; intros m; [reflexivity|].
  cbn [map fold_left]. now rewrite Hk, Hv, IH.
Qed.

(** X11.  The duplicate rule does not look at [code_type] or [bill_label]:
    giving the items any other values in these two fields leaves every
    group, with its number, line_ids and key, as it was. *)
Theorem duplicates_ignore_code_type_and_label
  (ct bl : LineItem -> string) (rows : list LineItem) :
  detect_duplicates (map (relabel ct bl) rows) = detect_duplicates rows.
Proof.
  unfold detect_duplicates, dup_groups_map.
  rewrite (sorted_map line_id (relabel ct bl)) by reflexivity.
  now rewrite (group_by_map key_eqb key_of line_id (relabel ct bl)).
Qed.

(** X12.  An item whose charge is NaN is in no duplicate group, even when
    another row repeats all its fields: the key of a group is equal to
    itself, so its charge is not NaN and it matches no item with a NaN
    charge; with pairwise distinct [line_id]s the [line_id] of such an item
    is listed in no group. *)
Theorem nan_charge_is_never_grouped (rows : list LineItem) (g : DuplicateGroup) :
  In g (detect_duplicates rows) ->
  group_charge g <> S754_nan
  /\ (forall item, charge item = S754_nan ->
                   key_eqb (group_key g) (key_of item) = false)
  /\ (List.NoDup (map line_id rows) ->
      forall item, In item rows -> charge item = S754_nan ->
                   ~ In (line_id item) (group_line_ids g)).
Proof.
  intros Hg. destruct (group_members _ _ Hg) as (Hr & Hm & _).
  assert (Hnan : forall item, charge item = S754_nan ->
                              key_eqb (group_key g) (key_of item) = false).
  { intros item Hc.
    destruct (key_eqb (group_key g) (key_of item)) eqn:E; [|reflexivity].
    apply key_eqb_spec in E as (_ & _ & _ & E). cbn [key_of snd] in E.
    rewrite Hc in E. apply float_eq_spec in E.
    destruct (group_key g).2; contradiction. }
  repeat split.
  - intros Hc. apply key_eqb_spec in Hr as (_ & _ & _ & Hr).
    cbn [group_key snd] in Hr. rewrite Hc in Hr. discriminate.
  - exact Hnan.
  - intros Hnd item Hin Hc Hl. rewrite Hm in Hl. unfold members in Hl.
    apply in_map_iff in Hl as (x & Hx & Hf).
    apply filter_In in Hf as [Hxin Hk].
    apply (proj1 (sorted_In _ _ _)) in Hxin.
    assert (x = item) by (eapply NoDup_key_inj; eauto). subst x.
    rewrite (Hnan item Hc) in Hk. discriminate.
Qed.

Lemma nan_charge_is_never_grouped_witness :
  In (mkGroup 1 [1; 2] "2024-01-01" "99213" 1 hundred)
     (detect_duplicates [item_nan; item_nan'; item1; item2])
  /\ detect_duplicates [item_nan; item_nan'; item1; item2]
     = [mkGroup 1 [1; 2] "2024-01-01" "99213" 1 hundred]
  /\ key_eqb (group_key (mkGroup 1 [1; 2] "2024-01-01" "99213" 1 hundred))
             (key_of item_nan) = false.
Proof.
  assert (Hg : In (mkGroup 1 [1; 2] "2024-01-01" "99213" 1 hundred)
                  (detect_duplicates [item_nan; item_nan'; item1; item2]))
    by (vm_compute; left; reflexivity).
  split; [exact Hg|]. split; [vm_compute; reflexivity|].
  destruct (nan_charge_is_never_grouped _ _ Hg) as (_ & Hnan & _).
  apply Hnan. reflexivity.
Defined.

(** The group of a key that two or more rows share. *)
Lemma group_of_shared_key (rows : list LineItem) (item : LineItem) :
  In item rows ->
  (2 <= length (List.filter
                  (fun item' => key_eqb (key_of item) (key_of item')) rows))%nat ->
  exists g, In g (detect_duplicates rows)
            /\ key_eqb (group_key g) (key_of item) = true.
Proof.
  intros Hin Hlen.
  pose proof (group_map_inv rows) as [Hent _ Hcom].
  assert (Hr : key_eqb (key_of item) (key_of item) = true).
  { destruct (List.filter _ rows) as [|x xs] eqn:E; [cbn in Hlen; lia|].
    assert (Hx : In x (List.filter
                         (fun i => key_eqb (key_of item) (key_of i)) rows))
      by (rewrite E; now left).
    apply filter_In in Hx as [_ Hx].
    eapply eqb_refl_l; [exact key_eqb_sym | exact key_eqb_trans | exact Hx]. }
  destruct (Hcom item (proj2 (sorted_In _ _ _) Hin) Hr) as (k & Hk & Hki).
  apply in_map_iff in Hk as ([k' ids] & <- & He). cbn [fst] in *.
  rewrite List.Forall_forall in Hent.
  destruct (Hent _ He) as [_ Hm]. cbn [fst snd] in Hm.
  rewrite (eqb_refl_l key_eqb key_eqb_sym key_eqb_trans _ _ Hki) in Hm.
  assert (Hbig : has_duplicates (k', ids) = true).
  { unfold has_duplicates. cbn [snd]. apply Z.ltb_lt.
    rewrite Hm. unfold members. rewrite length_map.
    rewrite (filter_ext _ (fun i => key_eqb (key_of item) (key_of i))).
    - rewrite (filter_perm_length _ _ rows) by apply sorted_perm. lia.
    - intros i. apply eq_true_iff_eq. split; intros H.
      + eapply key_eqb_trans; [|exact H]. now rewrite key_eqb_sym.
      + eapply key_eqb_trans; [exact Hki | exact H]. }
  assert (Hes : In (k', ids)
                   (List.filter has_duplicates
                      (sorted (fun e => min_of (snd e)) (dup_groups_map rows)))).
  { apply filter_In. split; [|exact Hbig]. now apply sorted_In. }
  unfold detect_duplicates. rewrite <- (number_groups_entries 1) in Hes.
  apply in_map_iff in Hes as (g & Hg & Hing). exists g. split; [exact Hing|].
  unfold group_entry in Hg. injection Hg as -> _. exact Hki.
Qed.

(** X13.  There is no duplicate group exactly when no key is shared: the
    result is empty if and only if every item is the only item of the input
    with its key. *)
Theorem no_group_iff_no_shared_key (rows : list LineItem) :
  detect_duplicates rows = [] <->
  forall item,
    In item rows ->
    (length (List.filter
               (fun item' => key_eqb (key_of item) (key_of item')) rows)
     < 2)%nat.
Proof.
  split.
  - intros Hnil item Hin.
    destruct (Nat.lt_ge_cases
                (length (List.filter
                           (fun item' => key_eqb (key_of item) (key_of item'))
                           rows)) 2) as [Hlt|Hge]; [exact Hlt|].
    destruct (group_of_shared_key rows item Hin Hge) as (g & Hg & _).
    rewrite Hnil in Hg. contradiction.
  - intros Hall. destruct (detect_duplicates rows) as [|g gs] eqn:E;
      [reflexivity|]. exfalso.
    assert (Hg : In g (detect_duplicates rows)) by (rewrite E; now left).
    pose proof (group_entry_In _ _ Hg) as [_ Hd].
    destruct (group_members _ _ Hg) as (_ & Hm & item & Hin & Hk).
    unfold has_duplicates in Hd. cbn [group_entry snd] in Hd.
    apply Z.ltb_lt in Hd. specialize (Hall item Hin).
    rewrite Hm in Hd. unfold members in Hd. rewrite length_map in Hd.
    rewrite (filter_perm_length _ _ rows) in Hd by apply sorted_perm.
    rewrite <- Hk in Hd. lia.
Qed.

Lemma groups_have_distinct_keys (rows : list LineItem) :
  distinct_keys key_eqb (map group_key (detect_duplicates rows)).
Proof.
  pose proof (group_map_inv rows) as [_ Hdis _].
  unfold detect_duplicates.
  replace (map group_key (number_groups 1
             (sorted (fun e => min_of (snd e)) (dup_groups_map rows))))
    with (map fst (map group_entry (number_groups 1
             (sorted (fun e => min_of (snd e)) (dup_groups_map rows)))))
    by (rewrite map_map; reflexivity).
  rewrite number_groups_entries. apply distinct_keys_filter.
  eapply distinct_keys_perm; [exact key_eqb_sym | | exact Hdis].
  apply Permutation_map. symmetry. apply sorted_perm.
Qed.

Lemma distinct_keys_nth {K : Type} (eqb : K -> K -> bool) (ks : list K) :
  (forall a b, eqb a b = eqb b a) ->
  distinct_keys eqb ks ->
  forall i j a b,
    i <> j -> nth_error ks i = Some a -> nth_error ks j = Some b ->
    eqb a b = false.
Proof.
  intros Hsym. induction ks as [|k ks IH]; intros Hd i j a b Hij Hi Hj.
  - destruct i; discriminate.
  - destruct Hd as [Hk Hd]. rewrite List.Forall_forall in Hk.
    destruct i as [|i], j as [|j]; cbn [nth_error] in Hi, Hj.
    + contradiction.
    + injection Hi as <-. apply Hk. eapply nth_error_In, Hj.
    + injection Hj as <-. rewrite Hsym. apply Hk. eapply nth_error_In, Hi.
    + apply (IH Hd i j); auto.
Qed.

(** X14.  Two different groups of the result have different keys, an item
    matches the key of at most one of them, and with pairwise distinct
    [line_id]s no [line_id] is listed in both. *)
Theorem groups_do_not_overlap
  (rows : list LineItem) (i j : nat) (gi gj : DuplicateGroup) :
  nth_error (detect_duplicates rows) i = Some gi ->
  nth_error (detect_duplicates rows) j = Some gj ->
  i <> j ->
  key_eqb (group_key gi) (group_key gj) = false
  /\ (forall item, key_eqb (group_key gi) (key_of item) = true ->
                   key_eqb (group_key gj) (key_of item) = false)
  /\ (List.NoDup (map line_id rows) ->
      forall lid, In lid (group_line_ids gi) -> ~ In lid (group_line_ids gj)).
Proof.
  intros Hi Hj Hij.
  assert (Hne : key_eqb (group_key gi) (group_key gj) = false).
  { apply (distinct_keys_nth key_eqb
             (map group_key (detect_duplicates rows)) key_eqb_sym
             (groups_have_distinct_keys rows) i j); [exact Hij | |];
      rewrite nth_error_map; [now rewrite Hi | now rewrite Hj]. }
  assert (Hone : forall item, key_eqb (group_key gi) (key_of item) = true ->
                              key_eqb (group_key gj) (key_of item) = false).
  { intros item Hm.
    destruct (key_eqb (group_key gj) (key_of item)) eqn:E; [|reflexivity].
    rewrite <- Hne. symmetry.
    apply key_eqb_trans with (key_of item); [exact Hm|].
    now rewrite key_eqb_sym. }
  repeat split; [exact Hne | exact Hone |].
  intros Hnd lid Hli Hlj.
  destruct (group_members rows gi (nth_error_In _ _ Hi)) as (_ & Hmi & _).
  destruct (group_members rows gj (nth_error_In _ _ Hj)) as (_ & Hmj & _).
  rewrite Hmi in Hli. rewrite Hmj in Hlj. unfold members in Hli, Hlj.
  apply in_map_iff in Hli as (x & Hx & Hfx).
  apply in_map_iff in Hlj as (y & Hy & Hfy).
  apply filter_In in Hfx as [Hxin Hkx]. apply filter_In in Hfy as [Hyin Hky].
  apply (proj1 (sorted_In _ _ _)) in Hxin.
  apply (proj1 (sorted_In _ _ _)) in Hyin.
  assert (x = y) by (eapply NoDup_key_inj; eauto; congruence). subst y.
  rewrite (Hone x Hkx) in Hky. discriminate.
Qed.

Lemma groups_do_not_overlap_witness :
  nth_error (detect_duplicates [item4; item2; item3; item1]) 0 = Some group_a
  /\ nth_error (detect_duplicates [item4; item2; item3; item1]) 1
     = Some group_b
  /\ 0%nat <> 1%nat
  /\ key_eqb (group_key group_a) (group_key group_b) = false.
Proof.
  assert (Ha : nth_error (detect_duplicates [item4; item2; item3; item1]) 0
               = Some group_a) by (vm_compute; reflexivity).
  assert (Hb : nth_error (detect_duplicates [item4; item2; item3; item1]) 1
               = Some group_b) by (vm_compute; reflexivity).
  split; [exact Ha|]. split; [exact Hb|]. split; [discriminate|].
  exact (proj1 (groups_do_not_overlap _ 0 1 group_a group_b Ha Hb
                  ltac:(discriminate))).
Defined.

(** ** The registry: rows, codes and errors *)

Lemma load_row_row_definition defs r :
  load_row defs r
  = (let* p := row_definition r in Ok (<[p.1 := p.2]> defs)).
Proof.
  unfold load_row, row_definition.
  repeat (match goal with
          | |- context [getitem_strip r ?k] =>
              destruct (getitem_strip r k); cbn [bind]; [|reflexivity]
          end).
  reflexivity.
Qed.

Lemma load_rows_app rows rows' : forall defs,
  load_rows defs (rows ++ rows')
  = (let* defs' := load_rows defs rows in load_rows defs' rows').
Proof.
  induction rows as [|r rows IH]; intros defs; [reflexivity|].
  cbn [app load_rows]. destruct (load_row defs r) as [d|e]; cbn [bind];
    [apply IH | reflexivity].
Qed.

Lemma row_definition_Ok r :
  has_columns r -> exists code d, row_definition r = Ok (code, d).
Proof.
  intros H. destruct (load_row_Ok ∅ r H) as (c & d & Hl & _).
  rewrite load_row_row_definition in Hl.
  destruct (row_definition r) as [[c' d']|e]; [eauto | discriminate].
Qed.

(** X15.  The last row of a code wins, and the cells are kept trimmed:
    after the rows [rows], one more row [r] with the six columns sets the
    definition of its trimmed code to its own trimmed cells, replacing any
    earlier definition of that code, and leaves every other code as the
    rows before had it. *)
Theorem load_last_row_wins (rows : list Csv.row) (r : Csv.row) :
  Forall has_columns rows ->
  has_columns r ->
  exists before after code d,
    load_code_definitions rows = Ok before
    /\ load_code_definitions (rows ++ [r]) = Ok after
    /\ row_definition r = Ok (code, d)
    /\ getitem_strip r "code" = Ok code
    /\ getitem_strip r "code_type" = Ok (def_code_type d)
    /\ getitem_strip r "official_description"
       = Ok (def_official_description d)
    /\ getitem_strip r "plain_english" = Ok (def_plain_english d)
    /\ getitem_strip r "status" = Ok (def_status d)
    /\ getitem_strip r "effective_date" = Ok (def_effective_date d)
    /\ after !! code = Some d
    /\ forall c, c <> code -> after !! c = before !! c.
Proof.
  intros Hrows Hr.
  destruct (load_rows_Ok rows ∅ Hrows) as (before & Hb & _).
  destruct (row_definition_Ok r Hr) as (code & d & Hd).
  exists before, (<[code := d]> before), code, d.
  assert (Hafter : load_code_definitions (rows ++ [r])
                   = Ok (<[code := d]> before)).
  { unfold load_code_definitions in *. rewrite load_rows_app, Hb.
    cbn [bind load_rows]. rewrite load_row_row_definition, Hd. reflexivity. }
  unfold row_definition in Hd.
  apply bind_Ok in Hd as (c & Hc & Hd).
  apply bind_Ok in Hd as (t & Ht & Hd).
  apply bind_Ok in Hd as (o & Ho & Hd).
  apply bind_Ok in Hd as (p & Hp & Hd).
  apply bind_Ok in Hd as (s & Hs & Hd).
  apply bind_Ok in Hd as (e & He & Hd).
  injection Hd as <- <-. cbn.
  assert (Hdef : row_definition r = Ok (c, mkCodeDefinition t o p s e)).
  { unfold row_definition. rewrite Hc, Ht, Ho, Hp, Hs, He. reflexivity. }
  repeat split; try assumption.
  - apply lookup_insert_eq.
  - intros c' Hne. apply lookup_insert_ne. congruence.
Qed.

Lemma load_last_row_wins_witness :
  Forall has_columns [registry_row "A" "CPT" "first" "f" "Active" "2020-01-01"]
  /\ has_columns (registry_row " A " "HCPCS" " second " "s" "Retired" "n/a")
  /\ exists after,
       load_code_definitions
         ([registry_row "A" "CPT" "first" "f" "Active" "2020-01-01"]
          ++ [registry_row " A " "HCPCS" " second " "s" "Retired" "n/a"])
       = Ok after
       /\ after !! "A"
          = Some (mkCodeDefinition "HCPCS" "second" "s" "Retired" "n/a").
Proof.
  assert (Hcols : forall c t o p s e, has_columns (registry_row c t o p s e)).
  { intros c t o p s e k Hk. cbn [definition_columns In] in Hk.
    repeat destruct Hk as [<-|Hk]; try (eexists; reflexivity). contradiction. }
  split; [repeat constructor; apply Hcols|]. split; [apply Hcols|].
  destruct (load_last_row_wins
              [registry_row "A" "CPT" "first" "f" "Active" "2020-01-01"]
              (registry_row " A " "HCPCS" " second " "s" "Retired" "n/a")
              ltac:(repeat constructor; apply Hcols) (Hcols _ _ _ _ _ _))
    as (before & after & code & d & _ & Ha & Hd & _ & _ & _ & _ & _ & _ & Hl & _).
  exists after. split; [exact Ha|].
  assert (E : row_definition
                (registry_row " A " "HCPCS" " second " "s" "Retired" "n/a")
              = Ok ("A", mkCodeDefinition "HCPCS" "second" "s" "Retired" "n/a"))
    by reflexivity.
  rewrite E in Hd. injection Hd as <- <-. exact Hl.
Defined.




Lemma load_rows_codes rows : forall defs defs' c,
  load_rows defs rows = Ok defs' ->
  (is_Some (defs' !! c) <->
   is_Some (defs !! c)
   \/ exists r, In r rows /\ getitem_strip r "code" = Ok c).
Proof.
  induction rows as [|r rows IH]; intros defs defs' c H.
  - injection H as <-. cbn [In]. split; [tauto | intros [?|(?&[]&_)]; auto].
  - cbn [load_rows] in H. rewrite load_row_row_definition in H.
    destruct (row_definition r) as [[code d]|e] eqn:Ed; cbn [bind] in H;
      [|discriminate].
    assert (Hc : getitem_strip r "code" = Ok code).
    { unfold row_definition in Ed. apply bind_Ok in Ed as (c0 & Hc0 & Ed).
      repeat (apply bind_Ok in Ed as (? & _ & Ed)).
      injection Ed as <- _. exact Hc0. }
    rewrite (IH _ _ c H). cbn [fst snd In]. split.
    + intros [Hs|(r' & Hin & Hr')].
      * destruct (decide (code = c)) as [<-|Hne].
        -- right. exists r. auto.
        -- left. rewrite lookup_insert_ne in Hs by exact Hne. exact Hs.
      * right. exists r'. auto.
    + intros [Hs|(r' & [<-|Hin] & Hr')].
      * left. destruct (decide (code = c)) as [<-|Hne].
        -- rewrite lookup_insert_eq. eauto.
        -- rewrite lookup_insert_ne by exact Hne. exact Hs.
      * left. assert (code = c) by congruence. subst.
        rewrite lookup_insert_eq. eauto.
      * right. exists r'. auto.
Qed.

(** X17.  The codes of the loaded registry are exactly the trimmed codes of
    the rows: a code has a definition if and only if some row of the file
    has it, after trimming, in its [code] column. *)
Theorem registry_codes_are_the_codes_of_the_rows (rows : list Csv.row) :
  Forall has_columns rows ->
  exists code_defs,
    load_code_definitions rows = Ok code_defs
    /\ forall c,
         is_Some (code_defs !! c) <->
         exists r, In r rows /\ getitem_strip r "code" = Ok c.
Proof.
  intros H. destruct (load_rows_Ok rows ∅ H) as (defs & Hl & _).
  exists defs. split; [exact Hl|]. intros c.
  rewrite (load_rows_codes rows ∅ defs c Hl), lookup_empty.
  split; [intros [[x Hx]|Hr]; [discriminate | exact Hr] | auto].
Qed.

Lemma registry_codes_are_the_codes_of_the_rows_witness :
  Forall has_columns bad_date_rows
  /\ exists code_defs,
       load_code_definitions bad_date_rows = Ok code_defs
       /\ is_Some (code_defs !! "99213").
Proof.
  split; [exact bad_date_rows_columns|].
  destruct (registry_codes_are_the_codes_of_the_rows bad_date_rows
              bad_date_rows_columns) as (defs & Hl & Hc).
  exists defs. split; [exact Hl|]. apply Hc.
  eexists. split; [now left | reflexivity].
Defined.

(** ** The delimiter *)

Lemma append_empty_r (s : string) : s +:+ "" = s.
Proof.
  induction s as [|x s IH]; [reflexivity|].
  change (String x s +:+ "") with (String x (s +:+ "")). now rewrite IH.
Qed.

Lemma rstrip_app a b :
  Py.rstrip (a +:+ b)
  = match Py.rstrip b with
    | EmptyString => Py.rstrip a
    | r => a +:+ r
    end.
Proof.
  induction a as [|c a IH].
  - change ("" +:+ b) with b. destruct (Py.rstrip b); reflexivity.
  - change (String c a +:+ b) with (String c (a +:+ b)).
    cbn [Py.rstrip]. rewrite IH.
    destruct (Py.rstrip b) as [|d r] eqn:E; [reflexivity|].
    change (String c a +:+ String d r) with (String c (a +:+ String d r)).
    destruct (a +:+ String d r) eqn:E'; [|reflexivity].
    destruct a; discriminate.
Qed.

Lemma splitlines_first h t :
  no_linebreak h = true -> h <> "" ->
  (t = "" \/ exists d r, t = String d r /\ Py.is_linebreak d = true) ->
  exists tl, Py.splitlines (h +:+ t) = h :: tl.
Proof.
  intros Hh Hne Ht. induction h as [|c h IH]; [contradiction|].
  cbn [no_linebreak all_chars] in Hh. apply andb_true_iff in Hh as [Hc Hh].
  apply negb_true_iff in Hc.
  change (String c h +:+ t) with (String c (h +:+ t)).
  cbn [Py.splitlines]. rewrite Hc.
  destruct h as [|c' h'].
  - change ("" +:+ t) with t.
    destruct Ht as [->|(d & r & -> & Hd)]; [exists []; reflexivity|].
    cbn [Py.splitlines]. rewrite Hd.
    destruct r; [eexists; reflexivity|].
    destruct (_ && _); eexists; reflexivity.
  - destruct (IH Hh ltac:(discriminate)) as [tl ->]. eauto.
Qed.

Lemma detect_delimiter_header text h tl :
  Py.splitlines (Py.strip text) = h :: tl ->
  Py.strip h <> "" ->
  detect_delimiter text
  = if (Py.count "," h <=? Py.count Py.TAB h) && (0 <? Py.count Py.TAB h)
    then Py.TAB else ","%char.
Proof.
  intros Hs Hh. unfold detect_delimiter. rewrite Hs. cbn [List.filter].
  destruct (String.eqb_spec (Py.strip h) ""); [contradiction | reflexivity].
Qed.

(** X18.  The delimiter is decided by the header line alone, with ties
    going to the tab: for a header line [h] without line breaks and without
    white space at its ends, followed by any rows, the delimiter is the tab
    when [h] holds at least one tab and at least as many tabs as commas,
    and the comma otherwise. *)
Theorem delimiter_is_decided_by_the_header (h rest : string) :
  h <> "" ->
  Py.lstrip h = h ->
  Py.rstrip h = h ->
  no_linebreak h = true ->
  detect_delimiter (h +:+ String Py.LF rest)
  = (if (Py.count "," h <=? Py.count Py.TAB h) && (0 <? Py.count Py.TAB h)
     then Py.TAB else ","%char)
  /\ detect_delimiter h = detect_delimiter (h +:+ String Py.LF rest).
Proof.
  intros Hne Hl Hr Hnb.
  assert (Hstrip : Py.strip h = h) by (unfold Py.strip; now rewrite Hl, Hr).
  assert (Hh : Py.strip h <> "") by now rewrite Hstrip.
  assert (Hfull : exists t,
             Py.strip (h +:+ String Py.LF rest) = h +:+ t
             /\ (t = "" \/ exists d r, t = String d r
                                       /\ Py.is_linebreak d = true)).
  { destruct (lstrip_fixed h Hl) as [->|(c & r & -> & Hc)]; [contradiction|].
    unfold Py.strip.
    change (String c r +:+ String Py.LF rest)
      with (String c (r +:+ String Py.LF rest)).
    cbn [Py.lstrip]. rewrite Hc.
    change (String c (r +:+ String Py.LF rest))
      with (String c r +:+ String Py.LF rest).
    rewrite rstrip_app, Hr. cbn [Py.rstrip].
    destruct (Py.rstrip rest) as [|d r'].
    - change (Py.isspace Py.LF) with true. cbn iota.
      exists "". split; [|now left]. now rewrite append_empty_r.
    - exists (String Py.LF (String d r')). split; [reflexivity|].
      right. exists Py.LF, (String d r'). split; reflexivity. }
  destruct Hfull as (t & Hst & Ht).
  destruct (splitlines_first h t Hnb Hne Ht) as [tl Htl].
  destruct (splitlines_first h "" Hnb Hne (or_introl eq_refl)) as [tl' Htl'].
  assert (E1 : detect_delimiter (h +:+ String Py.LF rest)
               = if (Py.count "," h <=? Py.count Py.TAB h)
                    && (0 <? Py.count Py.TAB h)
                 then Py.TAB else ","%char).
  { apply (detect_delimiter_header _ h tl); [|exact Hh]. now rewrite Hst. }
  split; [exact E1|]. rewrite E1.
  apply (detect_delimiter_header _ h tl'); [|exact Hh].
  rewrite Hstrip. rewrite <- Htl'. now rewrite append_empty_r.
Qed.

Lemma delimiter_is_decided_by_the_header_witness :
  "a	b,c" <> ""
  /\ Py.lstrip "a	b,c" = "a	b,c"
  /\ Py.rstrip "a	b,c" = "a	b,c"
  /\ no_linebreak "a	b,c" = true
  /\ detect_delimiter ("a	b,c" +:+ String Py.LF "1,2,3,4") = Py.TAB.
Proof.
  split; [discriminate|]. split; [reflexivity|]. split; [reflexivity|].
  split; [reflexivity|].
  exact (proj1 (delimiter_is_decided_by_the_header "a	b,c" "1,2,3,4"
                  ltac:(discriminate) eq_refl eq_refl eq_refl)).
Defined.

(** ** The reader does not raise on clean text *)

Ltac csv_step :=
  unfold Csv.parse_process_char, Csv.start_field, Csv.parse_add_char,
    Csv.parse_save_field, Csv.set_state, bind;
  cbn [Csv.st Csv.fields Csv.field Csv.field_len].

(** A character that is no line end, in a state other than [EAT_CRNL]. *)
Lemma step_plain delim r c :
  Csv.st r <> Csv.EAT_CRNL -> Csv.is_nl c = false ->
  0 <= Csv.field_len r < Csv.field_limit ->
  exists r',
    Csv.parse_process_char delim r (Some c) = Ok r'
    /\ Csv.st r' <> Csv.EAT_CRNL
    /\ 0 <= Csv.field_len r' <= Csv.field_len r + 1.
Proof.
  intros Hst Hc Hlen.
  assert (Hlim : (Csv.field_limit <=? Csv.field_len r) = false)
    by (apply Z.leb_gt; lia).
  destruct r as [s fs f n]. cbn [Csv.st Csv.field_len] in *.
  destruct s; try contradiction; csv_step; rewrite ?Hc, ?Hlim;
    repeat (match goal with
            | |- context [if ?b then _ else _] => destruct b
            end);
    eexists; (split; [reflexivity|]);
    cbn [Csv.st Csv.field_len]; (split; [discriminate | lia]).
Qed.

(** A line end character, in any state. *)
Lemma step_nl delim r c :
  Csv.is_nl c = true -> 0 <= Csv.field_len r < Csv.field_limit ->
  exists r',
    Csv.parse_process_char delim r (Some c) = Ok r'
    /\ 0 <= Csv.field_len r' <= Csv.field_len r + 1.
Proof.
  intros Hc Hlen.
  assert (Hlim : (Csv.field_limit <=? Csv.field_len r) = false)
    by (apply Z.leb_gt; lia).
  destruct r as [s fs f n]. cbn [Csv.st Csv.field_len] in *.
  destruct s; csv_step; rewrite ?Hc, ?Hlim;
    repeat (match goal with
            | |- context [if ?b then _ else _] => destruct b
            end);
    eexists; (split; [reflexivity|]); cbn [Csv.st Csv.field_len]; lia.
Qed.

(** The end of a line, in any state. *)
Lemma step_eol delim r :
  0 <= Csv.field_len r ->
  exists r',
    Csv.parse_process_char delim r None = Ok r'
    /\ (Csv.st r' = Csv.START_RECORD \/ Csv.st r' = Csv.IN_QUOTED_FIELD)
    /\ 0 <= Csv.field_len r' <= Csv.field_len r.
Proof.
  intros Hlen. destruct r as [s fs f n]. cbn [Csv.st Csv.field_len] in *.
  destruct s; csv_step; eexists; (split; [reflexivity|]);
    cbn [Csv.st Csv.field_len]; (split; [tauto | lia]).
Qed.

Lemma process_nl_tail delim line : forall r,
  all_chars Csv.is_nl line = true ->
  0 <= Csv.field_len r ->
  Csv.field_len r + Z.of_nat (String.length line) < Csv.field_limit ->
  exists r',
    Csv.process_line delim r line = Ok r'
    /\ (Csv.st r' = Csv.START_RECORD \/ Csv.st r' = Csv.IN_QUOTED_FIELD)
    /\ 0 <= Csv.field_len r'
       <= Csv.field_len r + Z.of_nat (String.length line).
Proof.
  induction line as [|c rest IH]; intros r Hok H0 Hlen;
    cbn [Csv.process_line String.length all_chars] in *.
  - destruct (step_eol delim r H0) as (r' & -> & Hs & Hl).
    exists r'. repeat split; try tauto; lia.
  - apply andb_true_iff in Hok as [Hc Hok].
    destruct (step_nl delim r c Hc ltac:(lia)) as (r1 & -> & Hl1).
    cbn [bind].
    destruct (IH r1 Hok ltac:(lia) ltac:(lia)) as (r' & -> & Hs & Hl).
    exists r'. repeat split; try tauto; lia.
Qed.

Lemma process_line_total delim line : forall r,
  nl_only_at_end line = true ->
  Csv.st r <> Csv.EAT_CRNL ->
  0 <= Csv.field_len r ->
  Csv.field_len r + Z.of_nat (String.length line) < Csv.field_limit ->
  exists r',
    Csv.process_line delim r line = Ok r'
    /\ (Csv.st r' = Csv.START_RECORD \/ Csv.st r' = Csv.IN_QUOTED_FIELD)
    /\ 0 <= Csv.field_len r'
       <= Csv.field_len r + Z.of_nat (String.length line).
Proof.
  induction line as [|c rest IH]; intros r Hok Hst H0 Hlen.
  - apply process_nl_tail; auto.
  - cbn [nl_only_at_end] in Hok. destruct (Csv.is_nl c) eqn:Hc.
    + apply process_nl_tail; auto. cbn [all_chars]. now rewrite Hc, Hok.
    + cbn [Csv.process_line String.length] in *.
      destruct (step_plain delim r c Hst Hc ltac:(lia))
        as (r1 & -> & Hs1 & Hl1).
      cbn [bind].
      destruct (IH r1 Hok Hs1 ltac:(lia) ltac:(lia)) as (r' & -> & Hs & Hl).
      exists r'. repeat split; try tauto; lia.
Qed.

Lemma total_length_nonneg lines : 0 <= total_length lines.
Proof. induction lines; cbn [total_length fold_right]; [lia|]. fold (total_length lines). lia. Qed.

Lemma records_from_total delim lines : forall r,
  Forall (fun l => nl_only_at_end l = true) lines ->
  Csv.st r <> Csv.EAT_CRNL ->
  0 <= Csv.field_len r ->
  Csv.field_len r + total_length lines < Csv.field_limit ->
  exists recs, Csv.records_from delim r lines = Ok recs.
Proof.
  induction lines as [|line rest IH]; intros r Hok Hst H0 Hlen;
    cbn [Csv.records_from].
  - destruct (_ || _); eauto.
  - apply List.Forall_cons_iff in Hok as [Hl Hok].
    cbn [total_length fold_right] in Hlen. fold (total_length rest) in Hlen.
    pose proof (total_length_nonneg rest) as Hr.
    destruct (process_line_total delim line r Hl Hst H0 ltac:(lia))
      as (r' & -> & Hs & Hb).
    cbn [bind]. destruct (Csv.state_eqb (Csv.st r') Csv.START_RECORD).
    + destruct (IH Csv.parse_reset Hok ltac:(discriminate)
                  ltac:(cbn; lia) ltac:(cbn; lia)) as [recs ->].
      cbn [bind]. eauto.
    + assert (Hst' : Csv.st r' <> Csv.EAT_CRNL)
        by (destruct Hs as [-> | ->]; discriminate).
      apply (IH r' Hok Hst'); lia.
Qed.

Lemma iternext_total delim lines : forall r,
  Forall (fun l => nl_only_at_end l = true) lines ->
  Csv.st r <> Csv.EAT_CRNL ->
  0 <= Csv.field_len r ->
  Csv.field_len r + total_length lines < Csv.field_limit ->
  exists res,
    Csv.iternext delim r lines = Ok res
    /\ forall names rest,
         res = Some (names, rest) ->
         Forall (fun l => nl_only_at_end l = true) rest
         /\ total_length rest <= total_length lines.
Proof.
  induction lines as [|line rest IH]; intros r Hok Hst H0 Hlen;
    cbn [Csv.iternext].
  - destruct (_ || _); eexists; (split; [reflexivity|]).
    + intros names rest [= _ <-]. split; [constructor | lia].
    + discriminate.
  - apply List.Forall_cons_iff in Hok as [Hl Hok].
    cbn [total_length fold_right] in *. fold (total_length rest) in *.
    pose proof (total_length_nonneg rest) as Hr.
    destruct (process_line_total delim line r Hl Hst H0 ltac:(lia))
      as (r' & -> & Hs & Hb).
    cbn [bind]. destruct (Csv.state_eqb (Csv.st r') Csv.START_RECORD).
    + eexists. split; [reflexivity|].
      intros names rest' [= _ <-]. split; [exact Hok | lia].
    + assert (Hst' : Csv.st r' <> Csv.EAT_CRNL)
        by (destruct Hs as [-> | ->]; discriminate).
      destruct (IH r' Hok Hst' ltac:(lia) ltac:(lia)) as (res & -> & Hres).
      exists res. split; [reflexivity|].
      intros names rest' E. destruct (Hres names rest' E). split; [auto | lia].
Qed.

Lemma io_lines_head d r l ls :
  Py.io_lines (String d r) = l :: ls -> exists l', l = String d l'.
Proof.
  cbn [Py.io_lines]. destruct (Ascii.eqb d Py.LF).
  - intros [= <- _]. eauto.
  - destruct (Py.io_lines r); intros [= <- _]; eauto.
Qed.

Lemma io_lines_clean s :
  cr_ends_line s = true ->
  Forall (fun l => nl_only_at_end l = true) (Py.io_lines s).
Proof.
  induction s as [|c r IH]; intros H; [constructor|].
  cbn [cr_ends_line] in H. apply andb_true_iff in H as [Hc Hr].
  specialize (IH Hr). cbn [Py.io_lines].
  destruct (Ascii.eqb_spec c Py.LF) as [->|Hlf].
  - constructor; [reflexivity | exact IH].
  - destruct (Py.io_lines r) as [|l ls] eqn:E.
    + constructor; [|constructor]. cbn. now destruct (Csv.is_nl c).
    + apply List.Forall_cons_iff in IH as [Hl Hls].
      constructor; [|exact Hls]. cbn [nl_only_at_end].
      destruct (Csv.is_nl c) eqn:Hnl; [|exact Hl].
      assert (Hcr : Ascii.eqb c Py.CR = true).
      { unfold Csv.is_nl in Hnl. apply orb_true_iff in Hnl as [Hn|Hn];
          [apply Ascii.eqb_eq in Hn; contradiction | exact Hn]. }
      rewrite Hcr in Hc. destruct r as [|d r']; [discriminate|].
      destruct (io_lines_head _ _ _ _ E) as [l' ->].
      cbn [nl_only_at_end] in Hl. rewrite Hc in Hl.
      cbn [all_chars]. now rewrite Hc, Hl.
Qed.

Lemma io_lines_length s :
  total_length (Py.io_lines s) = Z.of_nat (String.length s).
Proof.
  induction s as [|c r IH]; [reflexivity|].
  cbn [Py.io_lines String.length]. destruct (Ascii.eqb c Py.LF).
  - unfold total_length in *. cbn [fold_right String.length]. lia.
  - destruct (Py.io_lines r) as [|l ls];
      unfold total_length in *; cbn [fold_right String.length] in *; lia.
Qed.

(** Clean text stays clean under the trimming and the removal of the
    fences: each of them keeps a part of the text in one piece. *)
Lemma length_append (a b : string) :
  String.length (a +:+ b) = (String.length a + String.length b)%nat.
Proof.
  induction a as [|c a IH]; [reflexivity|].
  change (String c a +:+ b) with (String c (a +:+ b)).
  cbn [String.length]. now rewrite IH.
Qed.

Lemma cr_ends_line_prefix a b :
  cr_ends_line (a +:+ b) = true -> cr_ends_line a = true.
Proof.
  induction a as [|c a IH]; intros H; [reflexivity|].
  change (String c a +:+ b) with (String c (a +:+ b)) in H.
  cbn [cr_ends_line] in *. apply andb_true_iff in H as [Hc Hr].
  rewrite (IH Hr), andb_true_r.
  destruct (Ascii.eqb c Py.CR); [|reflexivity].
  destruct a as [|d a']; [reflexivity|].
  change (String d a' +:+ b) with (String d (a' +:+ b)) in Hc. exact Hc.
Qed.

Lemma cr_ends_line_suffix a b :
  cr_ends_line (a +:+ b) = true -> cr_ends_line b = true.
Proof.
  induction a as [|c a IH]; intros H; [exact H|].
  change (String c a +:+ b) with (String c (a +:+ b)) in H.
  cbn [cr_ends_line] in H. apply andb_true_iff in H as [_ Hr]. auto.
Qed.

Lemma clean_text_prefix a b : clean_text (a +:+ b) = true -> clean_text a = true.
Proof.
  unfold clean_text. rewrite !andb_true_iff, !Z.ltb_lt, length_append.
  intros [H Hl]. split; [exact (cr_ends_line_prefix _ _ H) | lia].
Qed.

Lemma clean_text_suffix a b : clean_text (a +:+ b) = true -> clean_text b = true.
Proof.
  unfold clean_text. rewrite !andb_true_iff, !Z.ltb_lt, length_append.
  intros [H Hl]. split; [exact (cr_ends_line_suffix _ _ H) | lia].
Qed.

Lemma lstrip_suffix s : exists a, s = a +:+ Py.lstrip s.
Proof.
  induction s as [|c s [a IH]]; [now exists ""|].
  cbn [Py.lstrip]. destruct (Py.isspace c); [|now exists ""].
  exists (String c a). change (String c a +:+ Py.lstrip s)
    with (String c (a +:+ Py.lstrip s)). now rewrite <- IH.
Qed.

Lemma rstrip_prefix s : exists b, s = Py.rstrip s +:+ b.
Proof.
  induction s as [|c s [b IH]]; [now exists ""|].
  cbn [Py.rstrip]. destruct (Py.rstrip s) as [|d r'] eqn:E.
  - change ("" +:+ b) with b in IH. subst b.
    destruct (Py.isspace c); [now exists (String c s) | now exists s].
  - exists b. change (String c (String d r') +:+ b)
      with (String c (String d r' +:+ b)). now rewrite <- IH.
Qed.

Lemma drop_line_suffix s : exists a, s = a +:+ drop_line s.
Proof.
  induction s as [|c s [a IH]]; [now exists ""|].
  cbn [drop_line]. destruct (Ascii.eqb c Py.LF).
  - now exists (String c "").
  - exists (String c a). change (String c a +:+ drop_line s)
      with (String c (a +:+ drop_line s)). now rewrite <- IH.
Qed.

Lemma string_of_list_ascii_app l1 l2 :
  string_of_list_ascii (l1 ++ l2)
  = string_of_list_ascii l1 +:+ string_of_list_ascii l2.
Proof.
  induction l1 as [|c l1 IH]; [reflexivity|].
  cbn [app string_of_list_ascii].
  change (String c (string_of_list_ascii l1) +:+ string_of_list_ascii l2)
    with (String c (string_of_list_ascii l1 +:+ string_of_list_ascii l2)).
  now rewrite IH.
Qed.

Lemma strip_closing_fence_prefix s : exists b, s = strip_closing_fence s +:+ b.
Proof.
  unfold strip_closing_fence.
  destruct (rev (list_ascii_of_string (Py.rstrip s)))
    as [|c1 [|c2 [|c3 u]]] eqn:E;
    try (exists ""; now rewrite append_empty_r).
  destruct (Ascii.eqb c1 "`" && Ascii.eqb c2 "`" && Ascii.eqb c3 "`");
    [|exists ""; now rewrite append_empty_r].
  destruct (rstrip_prefix s) as [b Hb].
  apply (f_equal (@rev ascii)) in E. rewrite rev_involutive in E.
  apply (f_equal string_of_list_ascii) in E.
  rewrite string_of_list_ascii_of_string in E.
  destruct u as [|c u']; [now exists s|].
  destruct (Ascii.eqb c Py.LF).
  - change (rev (c1 :: c2 :: c3 :: c :: u'))
      with (rev u' ++ (c :: c3 :: c2 :: c1 :: nil)) in E
      || (cbn [rev] in E; rewrite <- !app_assoc in E; cbn [app] in E).
    rewrite string_of_list_ascii_app in E.
    eexists. rewrite Hb at 1. rewrite E. apply append_assoc3.
  - change (rev (c1 :: c2 :: c3 :: c :: u')) with (rev (c :: u') ++ (c3 :: c2 :: c1 :: nil)) in E
      || (cbn [rev] in E; rewrite <- !app_assoc in E; cbn [app] in E;
          change (rev u' ++ c :: c3 :: c2 :: c1 :: nil)
            with (rev u' ++ (c :: nil) ++ (c3 :: c2 :: c1 :: nil)) in E;
          rewrite app_assoc in E).
    rewrite string_of_list_ascii_app in E.
    eexists. rewrite Hb at 1. rewrite E. apply append_assoc3.
Qed.

Lemma strip_clean s : clean_text s = true -> clean_text (Py.strip s) = true.
Proof.
  intros H. unfold Py.strip.
  destruct (lstrip_suffix s) as [a Ha]. rewrite Ha in H.
  apply clean_text_suffix in H.
  destruct (rstrip_prefix (Py.lstrip s)) as [b Hb]. rewrite Hb in H.
  exact (clean_text_prefix _ _ H).
Qed.

Lemma unfenced_clean s : clean_text s = true -> clean_text (unfenced s) = true.
Proof.
  intros H. unfold unfenced. apply strip_clean in H.
  assert (H1 : clean_text (strip_opening_fence (Py.strip s)) = true).
  { unfold strip_opening_fence.
    destruct (Py.startswith "```" (Py.strip s)); [|exact H].
    destruct (drop_line_suffix (Py.strip s)) as [a Ha]. rewrite Ha in H.
    exact (clean_text_suffix _ _ H). }
  apply strip_clean in H1.
  destruct (strip_closing_fence_prefix
              (Py.strip (strip_opening_fence (Py.strip s)))) as [b Hb].
  rewrite Hb in H1. exact (clean_text_prefix _ _ H1).
Qed.

(** X19. Whatever the text, the parser returns when every carriage return
    of the text ends its line and the text is shorter than the limit on one
    field (131072 characters): the reader, the only part of the parser
    that can raise, reads such a text to its end, so that every failure of a
    row is a message of the result and none is an exception.  (The reader is
    the one of Python 3.11 and later, for which a NUL is a character like
    any other.) *)
Theorem parser_returns_on_clean_text (text : string) :
  clean_text text = true ->
  exists items errors, parse_line_items (Some text) = Ok (items, errors).
Proof.
  intros H. unfold parse_line_items.
  destruct ((text =? "")%string || blank (Some text)); [eauto|].
  apply unfenced_clean, strip_clean in H.
  set (t := Py.strip (unfenced text)) in *.
  set (delim := detect_delimiter (unfenced text)).
  unfold clean_text in H. apply andb_true_iff in H as [Hcr Hlen].
  apply Z.ltb_lt in Hlen.
  pose proof (io_lines_clean t Hcr) as Hlines.
  pose proof (io_lines_length t) as Htot.
  unfold Csv.next.
  destruct (iternext_total delim (Py.io_lines t) Csv.parse_reset Hlines
              ltac:(discriminate) ltac:(cbn; lia) ltac:(cbn; lia))
    as (res & -> & Hres).
  cbn [bind]. destruct res as [[names rest]|]; [|eauto].
  destruct (Hres names rest eq_refl) as [Hrest Hle].
  assert (Hrecs : exists recs, Csv.records delim rest = Ok recs).
  { unfold Csv.records.
    apply records_from_total; [exact Hrest | discriminate | cbn; lia
                              | cbn; lia]. }
  destruct Hrecs as [recs ->]. cbn [bind].
  destruct (normalize_header names) as [|n ns].
  - destruct (parse_rows 2 (Csv.dict_rows [] recs)) as [items errors]. eauto.
  - destruct (negb (has_required (n :: ns))); [eauto|].
    destruct (parse_rows 2 (Csv.dict_rows (n :: ns) recs)) as [items errors].
    eauto.
Qed.

Lemma parser_returns_on_clean_text_witness :
  clean_text bill0 = true
  /\ exists items errors, parse_line_items (Some bill0) = Ok (items, errors).
Proof.
  split; [reflexivity|].
  exact (parser_returns_on_clean_text bill0 eq_refl).
Defined.

(** ** A carriage return inside a line *)

Lemma process_line_stray_cr delim c q p : forall r,
  unquoted p = true -> Csv.is_nl c = false ->
  Csv.st r = Csv.START_RECORD \/ Csv.st r = Csv.START_FIELD
  \/ Csv.st r = Csv.IN_FIELD ->
  Csv.process_line delim r (p +:+ String Py.CR (String c q))
  = Raise CsvError.
Proof.
  induction p as [|d p IH]; intros r Hp Hc Hst.
  - change ("" +:+ String Py.CR (String c q)) with (String Py.CR (String c q)).
    cbn [Csv.process_line].
    destruct r as [s fs f n]. cbn [Csv.st] in Hst.
    destruct Hst as [->|[->| ->]]; csv_step;
      change (Csv.is_nl Py.CR) with true; cbn iota; csv_step;
      now rewrite Hc.
  - change (String d p +:+ String Py.CR (String c q))
      with (String d (p +:+ String Py.CR (String c q))).
    unfold unquoted in Hp. cbn [all_chars] in Hp.
    apply andb_true_iff in Hp as [Hd Hp].
    apply andb_true_iff in Hd as [Hnl Hq].
    apply negb_true_iff in Hnl. apply negb_true_iff in Hq.
    cbn [Csv.process_line].
    assert (Hstep :
      Csv.parse_process_char delim r (Some d) = Raise CsvError
      \/ exists r', Csv.parse_process_char delim r (Some d) = Ok r'
                    /\ (Csv.st r' = Csv.START_RECORD
                        \/ Csv.st r' = Csv.START_FIELD
                        \/ Csv.st r' = Csv.IN_FIELD)).
    { destruct r as [s fs f n]. cbn [Csv.st] in Hst.
      destruct Hst as [->|[->| ->]]; csv_step; rewrite ?Hnl, ?Hq;
        repeat (match goal with
                | |- context [if ?b then _ else _] => destruct b
                end);
        (now left) || (right; eexists; split; [reflexivity|];
                       cbn [Csv.st]; tauto). }
    destruct Hstep as [-> | (r' & -> & Hst')]; [reflexivity|].
    cbn [bind]. now apply IH.
Qed.

Lemma io_lines_first_line p c q :
  unquoted p = true -> Csv.is_nl c = false ->
  exists q1 rest,
    Py.io_lines (p +:+ String Py.CR (String c q))
    = (p +:+ String Py.CR (String c q1)) :: rest.
Proof.
  intros Hp Hc.
  assert (Hclf : Ascii.eqb c Py.LF = false).
  { unfold Csv.is_nl in Hc. now apply orb_false_iff in Hc as [? _]. }
  induction p as [|d p IH].
  - change ("" +:+ String Py.CR (String c q)) with (String Py.CR (String c q)).
    cbn [Py.io_lines]. rewrite Hclf.
    change (Ascii.eqb Py.CR Py.LF) with false. cbn iota.
    destruct (Py.io_lines q) as [|l ls]; eauto.
  - unfold unquoted in Hp. cbn [all_chars] in Hp.
    apply andb_true_iff in Hp as [Hd Hp].
    apply andb_true_iff in Hd as [Hnl _]. apply negb_true_iff in Hnl.
    unfold Csv.is_nl in Hnl. apply orb_false_iff in Hnl as [Hlf _].
    destruct (IH Hp) as (q1 & rest & E).
    change (String d p +:+ String Py.CR (String c q))
      with (String d (p +:+ String Py.CR (String c q))).
    cbn [Py.io_lines]. rewrite Hlf, E. eauto.
Qed.

Lemma stray_cr_not_clean p c q :
  Csv.is_nl c = false ->
  cr_ends_line (p +:+ String Py.CR (String c q)) = false.
Proof.
  intros Hc.
  destruct (cr_ends_line (p +:+ String Py.CR (String c q))) eqn:E;
    [|reflexivity].
  apply cr_ends_line_suffix in E. cbn [cr_ends_line] in E.
  change (Ascii.eqb Py.CR Py.CR) with true in E. cbn iota in E.
  rewrite Hc in E. discriminate.
Qed.

(** X20. A carriage return that does not end its line makes the parser
    raise: when the text that reaches the reader has on its first line,
    before any quote, a carriage return followed by a character other than
    a carriage return or a line feed, [parse_line_items] ends with the
    reader's [csv.Error], which the function does not catch. *)
Theorem stray_carriage_return_raises (text p : string) (c : ascii) (q : string) :
  Py.strip (unfenced text) = p +:+ String Py.CR (String c q) ->
  unquoted p = true ->
  Csv.is_nl c = false ->
  parse_line_items (Some text) = Raise CsvError.
Proof.
  intros Ht Hp Hc.
  pose proof (stray_cr_not_clean p c q Hc) as Hdirty. rewrite <- Ht in Hdirty.
  assert (Hblank : (text =? "")%string || blank (Some text) = false).
  { unfold blank. apply orb_false_iff. split.
    - apply String.eqb_neq. intros ->. vm_compute in Hdirty. discriminate.
    - unfold unfenced in Hdirty. apply orb_false_iff. split.
      + apply String.eqb_neq. intros E. rewrite E in Hdirty.
        vm_compute in Hdirty. discriminate.
      + apply String.eqb_neq. intros E. rewrite E in Hdirty.
        vm_compute in Hdirty. discriminate. }
  unfold parse_line_items. rewrite Hblank. rewrite Ht.
  destruct (io_lines_first_line p c q Hp Hc) as (q1 & rest & ->).
  unfold Csv.next. cbn [Csv.iternext].
  rewrite process_line_stray_cr by (auto; now left). reflexivity.
Qed.

Lemma stray_carriage_return_raises_witness :
  Py.strip (unfenced cr_bill)
  = "line_id,date_of_service,code,code_type,units,charge"
    +:+ String Py.CR (String "1" ",2024-01-05,99213,CPT,1,100.00")
  /\ unquoted "line_id,date_of_service,code,code_type,units,charge" = true
  /\ Csv.is_nl "1" = false
  /\ parse_line_items (Some cr_bill) = Raise CsvError.
Proof.
  split; [reflexivity|]. split; [reflexivity|]. split; [reflexivity|].
  exact (stray_carriage_return_raises cr_bill
           "line_id,date_of_service,code,code_type,units,charge" "1"
           ",2024-01-05,99213,CPT,1,100.00" eq_refl eq_refl eq_refl).
Defined.

(** ** The sections of the issue body *)

Lemma append_cons c (a b : string) : String c a +:+ b = String c (a +:+ b).
Proof. reflexivity. Qed.

Lemma all_chars_app f a b :
  all_chars f (a +:+ b) = all_chars f a && all_chars f b.
Proof.
  induction a as [|c a IH]; [reflexivity|].
  rewrite append_cons. cbn [all_chars]. now rewrite IH, andb_assoc.
Qed.

Lemma all_chars_impl (f g : ascii -> bool) s :
  (forall c, f c = true -> g c = true) ->
  all_chars f s = true -> all_chars g s = true.
Proof.
  intros Hfg. induction s as [|c s IH]; [reflexivity|].
  cbn [all_chars]. rewrite !andb_true_iff. intros [Hc Hs]. auto.
Qed.

Lemma space_is_no_hash c : Py.isspace c = true -> negb (Ascii.eqb c "#") = true.
Proof.
  intros H. destruct (Ascii.eqb_spec c "#") as [->|]; [discriminate|reflexivity].
Qed.

Lemma lstrip_split s :
  exists a, all_chars Py.isspace a = true /\ s = a +:+ Py.lstrip s.
Proof.
  induction s as [|c s (a & Ha & IH)]; [now exists ""|].
  cbn [Py.lstrip]. destruct (Py.isspace c) eqn:Hc; [|now exists ""].
  exists (String c a). split; [cbn [all_chars]; now rewrite Hc|].
  rewrite append_cons. now rewrite <- IH.
Qed.

Lemma lstrip_head s d r : Py.lstrip s = String d r -> Py.isspace d = false.
Proof.
  induction s as [|c s IH]; [discriminate|].
  cbn [Py.lstrip]. destruct (Py.isspace c) eqn:Hc; [exact IH|].
  now intros [= <- _].
Qed.

Lemma lstrip_spaces a s :
  all_chars Py.isspace a = true -> Py.lstrip (a +:+ s) = Py.lstrip s.
Proof.
  induction a as [|c a IH]; intros H; [reflexivity|].
  cbn [all_chars] in H. apply andb_true_iff in H as [Hc Ha].
  rewrite append_cons. cbn [Py.lstrip]. rewrite Hc. auto.
Qed.

Lemma rstrip_spaces e : all_chars Py.isspace e = true -> Py.rstrip e = "".
Proof.
  induction e as [|c e IH]; intros H; [reflexivity|].
  cbn [all_chars] in H. apply andb_true_iff in H as [Hc He].
  cbn [Py.rstrip]. now rewrite (IH He), Hc.
Qed.

Lemma rstrip_length s : (String.length (Py.rstrip s) <= String.length s)%nat.
Proof.
  destruct (rstrip_prefix s) as [b Hb].
  rewrite Hb at 2. rewrite length_append. lia.
Qed.

(** Trimming a text between two runs of white space. *)
Lemma strip_between a s e :
  all_chars Py.isspace a = true -> all_chars Py.isspace e = true ->
  Py.strip (a +:+ s +:+ e) = Py.strip s.
Proof.
  intros Ha He. unfold Py.strip. rewrite (lstrip_spaces a _ Ha).
  destruct (lstrip_split s) as (w & Hw & Hs).
  destruct (Py.lstrip s) as [|d r] eqn:E.
  - rewrite append_empty_r in Hs. subst w.
    rewrite (lstrip_spaces s e Hw).
    destruct (lstrip_split e) as (w' & Hw' & He').
    apply rstrip_spaces.
    rewrite He', all_chars_app in He. now apply andb_true_iff in He as [_ ?].
  - pose proof (lstrip_head _ _ _ E) as Hd.
    rewrite Hs at 1. rewrite append_assoc3, (lstrip_spaces w _ Hw).
    rewrite append_cons. cbn [Py.lstrip]. rewrite Hd.
    rewrite <- append_cons, rstrip_app, (rstrip_spaces e He). reflexivity.
Qed.

(** *** The pieces of the pattern *)

Lemma after_literal_app h s : after_literal h (h +:+ s) = Some s.
Proof.
  induction h as [|c h IH]; [reflexivity|].
  rewrite append_cons. cbn [after_literal]. now rewrite Ascii.eqb_refl.
Qed.

(** A literal without line feed that matches in front of one. *)
Lemma after_literal_inv h : forall h' y s3,
  no_line_feed h = true ->
  after_literal h (h' +:+ String Py.LF y) = Some s3 ->
  exists d, h' = h +:+ d /\ s3 = d +:+ String Py.LF y.
Proof.
  induction h as [|a h IH]; intros h' y s3 Hlf H.
  - cbn in H. injection H as <-. now exists h'.
  - unfold no_line_feed in Hlf. cbn [all_chars] in Hlf.
    apply andb_true_iff in Hlf as [Ha Hlf]. apply negb_true_iff in Ha.
    destruct h' as [|b h'].
    + change ("" +:+ String Py.LF y) with (String Py.LF y) in H.
      cbn [after_literal] in H. rewrite Ha in H. discriminate.
    + rewrite append_cons in H. cbn [after_literal] in H.
      destruct (Ascii.eqb_spec a b) as [->|]; [|discriminate].
      destruct (IH h' y s3 Hlf H) as (d & -> & ->). now exists d.
Qed.

Lemma greedy_spaces_head {A : Type} (k : string -> option A) d r :
  Py.isspace d = false -> greedy_spaces k (String d r) = k (String d r).
Proof. intros H. cbn [greedy_spaces]. now rewrite H. Qed.

(** No line feed in the white space after the heading: no match. *)
Lemma greedy_no_line_feed w d r :
  all_chars Py.isspace w = true -> no_line_feed w = true ->
  Py.isspace d = false ->
  greedy_spaces line_feed_then_content (w +:+ String d r) = None.
Proof.
  intros Hw Hlf Hd. induction w as [|a w IH].
  - change ("" +:+ String d r) with (String d r).
    rewrite greedy_spaces_head by exact Hd. cbn [line_feed_then_content].
    destruct (Ascii.eqb_spec d Py.LF) as [->|]; [discriminate | reflexivity].
  - cbn [all_chars] in Hw. apply andb_true_iff in Hw as [Ha Hw].
    unfold no_line_feed in Hlf. cbn [all_chars] in Hlf.
    apply andb_true_iff in Hlf as [Hna Hlf]. apply negb_true_iff in Hna.
    rewrite append_cons. cbn [greedy_spaces]. rewrite Ha, (IH Hw Hlf).
    cbn [line_feed_then_content]. now rewrite Hna.
Qed.

(** With a line feed in it, the content starts after the last one. *)
Lemma greedy_last_line_feed w d r :
  all_chars Py.isspace w = true -> no_line_feed w = false ->
  Py.isspace d = false ->
  exists w2,
    all_chars Py.isspace w2 = true /\ no_line_feed w2 = true
    /\ greedy_spaces line_feed_then_content (w +:+ String d r)
       = Some (lazy_content (w2 +:+ String d r)).
Proof.
  intros Hw Hlf Hd. induction w as [|a w IH]; [discriminate|].
  cbn [all_chars] in Hw. apply andb_true_iff in Hw as [Ha Hw].
  rewrite append_cons. cbn [greedy_spaces]. rewrite Ha.
  destruct (no_line_feed w) eqn:Hw'.
  - rewrite (greedy_no_line_feed w d r Hw Hw' Hd).
    unfold no_line_feed in Hlf. cbn [all_chars] in Hlf.
    fold (no_line_feed w) in Hlf. rewrite Hw', andb_true_r in Hlf.
    apply negb_false_iff in Hlf.
    cbn [line_feed_then_content]. rewrite Hlf. now exists w.
  - destruct (IH Hw eq_refl) as (w2 & H1 & H2 & ->). now exists w2.
Qed.

Lemma section_end_cons a b s :
  Ascii.eqb a Py.LF = false \/ Ascii.eqb b "#" = false ->
  section_end (String a (String b s)) = false.
Proof.
  intros H. cbn [section_end].
  destruct s as [|c3 [|c4 [|c5 s]]]; try reflexivity.
  destruct H as [-> | ->]; [reflexivity | now rewrite andb_false_r].
Qed.

(** The content runs over a text without line feed ... *)
Lemma lazy_content_no_line_feed u d r :
  no_line_feed u = true ->
  lazy_content (u +:+ String d r) = u +:+ lazy_content (String d r).
Proof.
  intros Hu. induction u as [|a u IH]; [reflexivity|].
  unfold no_line_feed in Hu. cbn [all_chars] in Hu.
  apply andb_true_iff in Hu as [Ha Hu]. apply negb_true_iff in Ha.
  rewrite !append_cons. cbn [lazy_content].
  assert (E : section_end (String a (u +:+ String d r)) = false).
  { destruct u as [|b u].
    - change ("" +:+ String d r) with (String d r).
      apply section_end_cons. now left.
    - rewrite append_cons. apply section_end_cons. now left. }
  rewrite E. now rewrite (IH Hu).
Qed.

(** ... and over a text without [#], up to what follows it when that does
    not start with [#]. *)
Lemma lazy_content_no_hash u t :
  no_hash u = true ->
  t = "" \/ (exists y, t = String Py.LF (String Py.LF y)) ->
  lazy_content (u +:+ t) = u +:+ lazy_content t.
Proof.
  intros Hu Ht. induction u as [|a u IH]; [reflexivity|].
  unfold no_hash in Hu. cbn [all_chars] in Hu.
  apply andb_true_iff in Hu as [Ha Hu].
  rewrite !append_cons. cbn [lazy_content].
  assert (E : section_end (String a (u +:+ t)) = false).
  { destruct u as [|b u].
    - change ("" +:+ t) with t. destruct Ht as [->|[y ->]]; [reflexivity|].
      apply section_end_cons. now right.
    - rewrite append_cons. apply section_end_cons. right.
      cbn [all_chars] in Hu. apply andb_true_iff in Hu as [Hb _].
      now apply negb_true_iff in Hb. }
  rewrite E. now rewrite (IH Hu).
Qed.

(** What follows a field in a form: nothing, or the empty line and the
    next heading. *)
Lemma lazy_content_tail t :
  t = "" \/ (exists y, t = String Py.LF (String Py.LF ("### " +:+ y))) ->
  exists e, all_chars Py.isspace e = true /\ lazy_content t = e.
Proof.
  intros [->|[y ->]]; [now exists ""|].
  exists (String Py.LF ""). split; [reflexivity|].
  cbn [lazy_content]. rewrite section_end_cons by (now right).
  change ("### " +:+ y) with (String "#" (String "#" (String "#" (String " " y)))).
  reflexivity.
Qed.

(** No match starts in a text without [#]. *)
Lemma search_section_skip h a s :
  no_hash a = true -> search_section h (a +:+ s) = search_section h s.
Proof.
  intros Ha. induction a as [|c a IH]; [reflexivity|].
  unfold no_hash in Ha. cbn [all_chars] in Ha.
  apply andb_true_iff in Ha as [Hc Ha]. apply negb_true_iff in Hc.
  rewrite append_cons. cbn [search_section].
  unfold match_section at 1. cbn [after_literal].
  rewrite Ascii.eqb_sym, Hc. exact (IH Ha).
Qed.

Lemma search_section_hit h s g :
  match_section h s = Some g -> search_section h s = Some g.
Proof. intros H. destruct s; cbn [search_section]; now rewrite H. Qed.

Lemma search_section_step h c s :
  match_section h (String c s) = None ->
  search_section h (String c s) = search_section h s.
Proof. intros H. cbn [search_section]. now rewrite H. Qed.

Lemma lstrip_same_length s :
  String.length (Py.lstrip s) = String.length s -> Py.lstrip s = s.
Proof.
  intros H. destruct (lstrip_split s) as (a & _ & Ha).
  rewrite Ha in H at 2. rewrite length_append in H.
  destruct a; [exact (eq_sym Ha) | cbn [String.length] in H; lia].
Qed.

Lemma strip_fixed h :
  Py.strip h = h -> Py.lstrip h = h /\ Py.rstrip h = h.
Proof.
  intros H. unfold Py.strip in H.
  pose proof (rstrip_length (Py.lstrip h)) as H1.
  pose proof (lstrip_length h) as H2. rewrite H in H1.
  assert (E : Py.lstrip h = h) by (apply lstrip_same_length; lia).
  split; [exact E | now rewrite E in H].
Qed.

Lemma plain_heading_inv h :
  plain_heading h = true ->
  (exists d r, h = String d r /\ Py.isspace d = false)
  /\ Py.rstrip h = h /\ no_hash h = true /\ no_line_feed h = true.
Proof.
  unfold plain_heading. rewrite !andb_true_iff, negb_true_iff.
  intros [[[Hne Hs] Hh] Hl].
  apply String.eqb_neq in Hne. apply String.eqb_eq in Hs.
  destruct (strip_fixed h Hs) as [Hl' Hr].
  repeat split; auto.
  destruct (lstrip_fixed h Hl') as [->|(d & r & -> & Hd)];
    [contradiction | eauto].
Qed.

Lemma strip_empty s : Py.strip s = "" -> all_chars Py.isspace s = true.
Proof.
  unfold Py.strip. intros H.
  destruct (lstrip_split s) as (a & Ha & Hs).
  destruct (Py.lstrip s) as [|d r] eqn:E.
  - rewrite append_empty_r in Hs. now subst a.
  - pose proof (lstrip_head _ _ _ E) as Hd.
    cbn [Py.rstrip] in H. rewrite Hd in H.
    destruct (Py.rstrip r); discriminate.
Qed.

Lemma section_text_app h c t :
  section_text (h, c) +:+ t
  = String "#" (String "#" (String "#" (String " "
      (h +:+ String Py.LF (String Py.LF (c +:+ t)))))).
Proof.
  unfold section_text. cbn [fst snd].
  change ("### " +:+ h +:+ String Py.LF (String Py.LF c))
    with (String "#" (String "#" (String "#" (String " "
            (h +:+ String Py.LF (String Py.LF c)))))).
  rewrite !append_cons, append_assoc3, !append_cons. reflexivity.
Qed.

(** The pattern for [h] does not match at another heading. *)
Lemma match_section_other h h' y :
  plain_heading h = true -> plain_heading h' = true -> h' <> h ->
  match_section h
    (String "#" (String "#" (String "#" (String " "
       (h' +:+ String Py.LF y))))) = None.
Proof.
  intros Hh Hh' Hne.
  destruct (plain_heading_inv h Hh) as ((d & r & Eh & Hd) & _ & _ & Hlf).
  destruct (plain_heading_inv h' Hh')
    as ((d' & r' & Eh' & Hd') & Hr' & _ & Hlf').
  unfold match_section. cbn [after_literal]. rewrite !Ascii.eqb_refl.
  cbn [greedy_spaces]. change (Py.isspace " ") with true. cbn iota.
  assert (E1 : after_literal h (String " " (h' +:+ String Py.LF y)) = None).
  { rewrite Eh. cbn [after_literal].
    destruct (Ascii.eqb_spec d " ") as [->|]; [discriminate | reflexivity]. }
  rewrite E1.
  assert (E2 : greedy_spaces
                 (fun s2 => match after_literal h s2 with
                            | Some s3 => greedy_spaces line_feed_then_content s3
                            | None => None
                            end) (h' +:+ String Py.LF y) = None);
    [|now rewrite E2].
  rewrite Eh' at 1. rewrite append_cons, greedy_spaces_head by exact Hd'.
  rewrite <- append_cons, <- Eh'.
  destruct (after_literal h (h' +:+ String Py.LF y)) as [s3|] eqn:E;
    [|reflexivity].
  destruct (after_literal_inv h h' y s3 Hlf E) as (dd & Hdd & ->).
  destruct (lstrip_split dd) as (w & Hw & Hsplit).
  destruct (Py.lstrip dd) as [|x d2] eqn:El.
  - (* the rest of [h'] would be white space *)
    exfalso. rewrite append_empty_r in Hsplit. subst w.
    rewrite Hdd, rstrip_app, (rstrip_spaces dd Hw) in Hr'.
    pose proof (rstrip_length h) as Hlen. rewrite Hr', length_append in Hlen.
    destruct dd; [|cbn [String.length] in Hlen; lia].
    rewrite append_empty_r in Hdd. contradiction.
  - pose proof (lstrip_head _ _ _ El) as Hx.
    rewrite Hsplit, append_assoc3, append_cons.
    apply greedy_no_line_feed; [exact Hw | | exact Hx].
    unfold no_line_feed in *. rewrite Hdd, Hsplit, !all_chars_app in Hlf'.
    apply andb_true_iff in Hlf' as [_ Hlf'].
    now apply andb_true_iff in Hlf' as [? _].
Qed.

(** The search goes over a field with another heading. *)
Lemma search_section_other h h' c' t :
  plain_heading h = true -> plain_section (h', c') = true -> h' <> h ->
  search_section h (section_text (h', c') +:+ t) = search_section h t.
Proof.
  intros Hh Hsec Hne. unfold plain_section in Hsec. cbn [fst snd] in Hsec.
  apply andb_true_iff in Hsec as [Hh' Hc'].
  destruct (plain_heading_inv h' Hh') as (_ & _ & Hhash & _).
  rewrite section_text_app.
  rewrite search_section_step by (now apply match_section_other).
  rewrite search_section_step by reflexivity.
  rewrite search_section_step by reflexivity.
  assert (E : String " " (h' +:+ String Py.LF (String Py.LF (c' +:+ t)))
              = String " " (h' +:+ String Py.LF (String Py.LF c')) +:+ t)
    by (now rewrite append_cons, append_assoc3, !append_cons).
  rewrite E. apply search_section_skip.
  unfold no_hash in *. cbn [all_chars]. rewrite all_chars_app.
  cbn [all_chars]. now rewrite Hhash, Hc'.
Qed.

Lemma issue_body_head sec rest :
  exists y, issue_body (sec :: rest) = "### " +:+ y.
Proof.
  cbn [issue_body]. destruct rest.
  - unfold section_text. eauto.
  - unfold section_text. rewrite append_assoc3. eauto.
Qed.

Lemma issue_body_last sec :
  issue_body [sec] = section_text sec +:+ "".
Proof. cbn [issue_body]. now rewrite append_empty_r. Qed.

Lemma field_tail_next sec rest :
  field_tail (String Py.LF (String Py.LF (issue_body (sec :: rest)))).
Proof.
  destruct (issue_body_head sec rest) as [y ->]. right. now exists y.
Qed.

(** At its own heading the pattern goes on with the white space after it. *)
Lemma match_section_heading h x :
  plain_heading h = true ->
  match_section h (String "#" (String "#" (String "#" (String " " (h +:+ x)))))
  = greedy_spaces line_feed_then_content x.
Proof.
  intros Hh.
  destruct (plain_heading_inv h Hh) as ((d & r & Eh & Hd) & _ & _ & _).
  unfold match_section. cbn [after_literal]. rewrite !Ascii.eqb_refl.
  cbn [greedy_spaces]. change (Py.isspace " ") with true. cbn iota.
  assert (E1 : after_literal h (String " " (h +:+ x)) = None).
  { rewrite Eh. rewrite append_cons. cbn [after_literal].
    destruct (Ascii.eqb_spec d " ") as [->|]; [discriminate | reflexivity]. }
  rewrite E1.
  assert (E2 : greedy_spaces
                 (fun s2 => match after_literal h s2 with
                            | Some s3 => greedy_spaces line_feed_then_content s3
                            | None => None
                            end) (h +:+ x)
               = greedy_spaces line_feed_then_content x).
  { rewrite Eh at 1. rewrite append_cons, greedy_spaces_head by exact Hd.
    now rewrite <- append_cons, <- Eh, after_literal_app. }
  rewrite E2. now destruct (greedy_spaces line_feed_then_content x).
Qed.

(** The match at the heading of a field that is not blank: group 1 is the
    value, up to white space around it. *)
Lemma match_section_field h c t :
  plain_heading h = true -> no_hash c = true -> Py.strip c <> "" ->
  field_tail t ->
  exists g, match_section h (section_text (h, c) +:+ t) = Some g
            /\ Py.strip g = Py.strip c.
Proof.
  intros Hh Hc Hne Ht.
  rewrite section_text_app, (match_section_heading h _ Hh).
  destruct (lstrip_split c) as (wc & Hwc & Hsplit).
  destruct (Py.lstrip c) as [|x c2] eqn:El.
  { exfalso. apply Hne. unfold Py.strip. now rewrite El. }
  pose proof (lstrip_head _ _ _ El) as Hx. clear El. subst c.
  assert (E : String Py.LF (String Py.LF ((wc +:+ String x c2) +:+ t))
              = String Py.LF (String Py.LF wc) +:+ String x (c2 +:+ t)).
  { now rewrite !append_cons, append_assoc3, append_cons. }
  rewrite E.
  destruct (greedy_last_line_feed (String Py.LF (String Py.LF wc)) x (c2 +:+ t))
    as (w2 & Hw2 & _ & ->); [exact Hwc | reflexivity | exact Hx |].
  cbn iota.
  assert (Hcore : no_hash (String x c2) = true).
  { unfold no_hash in *. rewrite all_chars_app in Hc.
    now apply andb_true_iff in Hc as [_ ?]. }
  assert (Hu : no_hash (w2 +:+ String x c2) = true).
  { unfold no_hash in *. rewrite all_chars_app, Hcore, andb_true_r.
    exact (all_chars_impl _ _ w2 space_is_no_hash Hw2). }
  assert (Ht' : t = "" \/ exists y, t = String Py.LF (String Py.LF y)).
  { destruct Ht as [->|[y ->]]; [now left | right; eauto]. }
  destruct (lazy_content_tail t Ht) as (e & He & Ee).
  eexists. split; [reflexivity|].
  replace (w2 +:+ String x (c2 +:+ t)) with ((w2 +:+ String x c2) +:+ t)
    by (now rewrite append_assoc3, append_cons).
  rewrite (lazy_content_no_hash _ t Hu Ht'), Ee, append_assoc3.
  rewrite (strip_between w2 (String x c2) e Hw2 He).
  pose proof (strip_between wc (String x c2) "" Hwc eq_refl) as Es.
  rewrite append_empty_r in Es. now rewrite Es.
Qed.

(** The match at the heading of a blank field: group 1 is the next field
    with its heading. *)
Lemma match_section_blank h c h2 c2 t :
  plain_heading h = true -> Py.strip c = "" ->
  no_hash h2 = true -> no_hash c2 = true -> field_tail t ->
  exists g,
    match_section h
      (section_text (h, c)
       +:+ String Py.LF (String Py.LF (section_text (h2, c2) +:+ t)))
    = Some g
    /\ Py.strip g = Py.rstrip (section_text (h2, c2)).
Proof.
  intros Hh Hc Hh2 Hc2 Ht.
  apply strip_empty in Hc.
  rewrite section_text_app, (match_section_heading h _ Hh).
  rewrite (section_text_app h2 c2 t).
  set (rest := String "#" (String "#" (String " "
                 (h2 +:+ String Py.LF (String Py.LF (c2 +:+ t)))))).
  assert (E : String Py.LF (String Py.LF
                (c +:+ String Py.LF (String Py.LF (String "#" rest))))
              = (String Py.LF (String Py.LF (c +:+ String Py.LF (String Py.LF ""))))
                +:+ String "#" rest).
  { now rewrite !append_cons, append_assoc3, !append_cons. }
  rewrite E.
  destruct (greedy_last_line_feed
              (String Py.LF (String Py.LF (c +:+ String Py.LF (String Py.LF ""))))
              "#" rest) as (w2 & Hw2 & Hlf2 & ->);
    [cbn [all_chars]; rewrite all_chars_app, Hc; reflexivity
    | reflexivity | reflexivity |].
  cbn iota. eexists. split; [reflexivity|].
  rewrite (lazy_content_no_line_feed w2 "#" rest Hlf2).
  assert (Ht' : t = "" \/ exists y, t = String Py.LF (String Py.LF y)).
  { destruct Ht as [->|[y ->]]; [now left | right; eauto]. }
  destruct (lazy_content_tail t Ht) as (e & He & Ee).
  assert (El : lazy_content (String "#" rest)
               = section_text (h2, c2) +:+ e).
  { change (String "#" rest) with ("###" +:+ String " "
        (h2 +:+ String Py.LF (String Py.LF (c2 +:+ t)))).
    rewrite (lazy_content_no_line_feed "###") by reflexivity.
    replace (String " " (h2 +:+ String Py.LF (String Py.LF (c2 +:+ t))))
      with (String " " (h2 +:+ String Py.LF (String Py.LF c2)) +:+ t)
      by (now rewrite append_cons, append_assoc3, !append_cons).
    rewrite lazy_content_no_hash; [| |exact Ht'].
    - rewrite Ee, section_text_app, !append_cons, append_assoc3, !append_cons.
      reflexivity.
    - unfold no_hash in *. cbn [all_chars]. rewrite all_chars_app.
      cbn [all_chars]. now rewrite Hh2, Hc2. }
  rewrite El.
  rewrite (strip_between w2 (section_text (h2, c2)) e Hw2 He).
  unfold Py.strip. unfold section_text at 1. reflexivity.
Qed.

Lemma first_section_plain h secs c :
  forallb plain_section secs = true -> first_section h secs = Some c ->
  plain_heading h = true /\ no_hash c = true.
Proof.
  induction secs as [|[h' c'] rest IH]; [discriminate|].
  cbn [forallb first_section]. rewrite andb_true_iff. intros [Hs Hr].
  destruct (String.eqb_spec h' h) as [->|Hne]; [|now apply IH].
  intros [= <-]. unfold plain_section in Hs. cbn [fst snd] in Hs.
  now apply andb_true_iff in Hs.
Qed.

(** The search finds the first field with the heading. *)
Lemma search_section_field (secs : list (string * string)) (h c : string) :
  forallb plain_section secs = true ->
  first_section h secs = Some c ->
  Py.strip c <> "" ->
  exists g, search_section h (issue_body secs) = Some g
            /\ Py.strip g = Py.strip c.
Proof.
  intros Hsecs Hfirst Hne.
  destruct (first_section_plain h secs c Hsecs Hfirst) as [Hh Hc].
  induction secs as [|[h' c'] rest IH]; [discriminate|].
  cbn [forallb] in Hsecs. apply andb_true_iff in Hsecs as [Hs Hrest].
  cbn [first_section] in Hfirst.
  destruct (String.eqb_spec h' h) as [->|Hneq].
  - injection Hfirst as ->.
    assert (Ht : exists t, field_tail t
                 /\ issue_body ((h, c) :: rest) = section_text (h, c) +:+ t).
    { destruct rest as [|sec rest'].
      - exists "". split; [now left | apply issue_body_last].
      - eexists. split; [apply (field_tail_next sec rest') | reflexivity]. }
    destruct Ht as (t & Ht & ->).
    destruct (match_section_field h c t Hh Hc Hne Ht) as (g & Hg & Es).
    exists g. split; [exact (search_section_hit _ _ _ Hg) | exact Es].
  - destruct rest as [|sec rest']; [discriminate|].
    change (issue_body ((h', c') :: sec :: rest'))
      with (section_text (h', c')
            +:+ String Py.LF (String Py.LF (issue_body (sec :: rest')))).
    rewrite (search_section_other h h' c' _ Hh Hs Hneq).
    rewrite !search_section_step by reflexivity.
    now apply IH.
Qed.

(** X21. [extract_section] reads a form back: in a body made of fields,
    each a heading of level three, an empty line and a value, with empty
    lines between the fields, where the headings are on one line, without
    white space around them, and neither headings nor values hold a [#],
    the section of a heading is the trimmed value of the first field
    with that heading, as long as that value is not blank. *)
Theorem extract_section_reads_the_field
  (secs : list (string * string)) (h c : string) :
  forallb plain_section secs = true ->
  first_section h secs = Some c ->
  Py.strip c <> "" ->
  extract_section (issue_body secs) h = Some (Py.strip c).
Proof.
  intros Hsecs Hfirst Hne. unfold extract_section.
  destruct (search_section_field secs h c Hsecs Hfirst Hne) as (g & -> & Es).
  cbn [option_map]. now rewrite Es.
Qed.

Lemma extract_section_reads_the_field_witness :
  forallb plain_section form0 = true
  /\ first_section "Line Items" form0 = Some bill0
  /\ Py.strip bill0 <> ""
  /\ extract_section (issue_body form0) "Line Items" = Some (Py.strip bill0).
Proof.
  split; [reflexivity|]. split; [reflexivity|].
  split; [discriminate|].
  exact (extract_section_reads_the_field form0 "Line Items" bill0
           eq_refl eq_refl ltac:(discriminate)).
Defined.

(** X22. A heading that no field of the form has gives no section:
    [extract_section] returns [None] for it. *)
Theorem extract_section_of_a_missing_heading
  (secs : list (string * string)) (h : string) :
  forallb plain_section secs = true ->
  plain_heading h = true ->
  first_section h secs = None ->
  extract_section (issue_body secs) h = None.
Proof.
  intros Hsecs Hh Hfirst. unfold extract_section.
  enough (E : search_section h (issue_body secs) = None) by now rewrite E.
  induction secs as [|[h' c'] rest IH]; [reflexivity|].
  cbn [forallb] in Hsecs. apply andb_true_iff in Hsecs as [Hs Hrest].
  cbn [first_section] in Hfirst.
  destruct (String.eqb_spec h' h) as [->|Hneq]; [discriminate|].
  destruct rest as [|sec rest'].
  - rewrite issue_body_last.
    now rewrite (search_section_other h h' c' _ Hh Hs Hneq).
  - change (issue_body ((h', c') :: sec :: rest'))
      with (section_text (h', c')
            +:+ String Py.LF (String Py.LF (issue_body (sec :: rest')))).
    rewrite (search_section_other h h' c' _ Hh Hs Hneq).
    rewrite !search_section_step by reflexivity.
    now apply IH.
Qed.

Lemma extract_section_of_a_missing_heading_witness :
  forallb plain_section form0 = true
  /\ plain_heading "Total Billed" = true
  /\ first_section "Total Billed" form0 = None
  /\ extract_section (issue_body form0) "Total Billed" = None.
Proof.
  split; [reflexivity|]. split; [reflexivity|]. split; [reflexivity|].
  exact (extract_section_of_a_missing_heading form0 "Total Billed"
           eq_refl eq_refl eq_refl).
Defined.

(** X23. A blank field takes the next one: when the value of the first
    field is empty or white space, the section of its heading is not
    blank but the whole next field, heading included, without the white
    space at its end. *)
Theorem blank_section_takes_the_next_field
  (h c h2 c2 : string) (rest : list (string * string)) :
  plain_heading h = true ->
  Py.strip c = "" ->
  no_hash h2 = true -> no_hash c2 = true ->
  extract_section (issue_body ((h, c) :: (h2, c2) :: rest)) h
  = Some (Py.rstrip (section_text (h2, c2))).
Proof.
  intros Hh Hc Hh2 Hc2.
  assert (Ht : exists t, field_tail t
               /\ issue_body ((h2, c2) :: rest) = section_text (h2, c2) +:+ t).
  { destruct rest as [|sec rest'].
    - exists "". split; [now left | apply issue_body_last].
    - eexists. split; [apply (field_tail_next sec rest') | reflexivity]. }
  destruct Ht as (t & Ht & Et).
  change (issue_body ((h, c) :: (h2, c2) :: rest))
    with (section_text (h, c)
          +:+ String Py.LF (String Py.LF (issue_body ((h2, c2) :: rest)))).
  rewrite Et.
  destruct (match_section_blank h c h2 c2 t Hh Hc Hh2 Hc2 Ht) as (g & Hg & Es).
  unfold extract_section. rewrite (search_section_hit _ _ _ Hg).
  cbn [option_map]. now rewrite Es.
Qed.

Lemma blank_section_takes_the_next_field_witness :
  plain_heading "Bill Date" = true
  /\ Py.strip "" = ""
  /\ no_hash "Line Items" = true /\ no_hash bill0 = true
  /\ extract_section
       (issue_body [("Bill Date", ""); ("Line Items", bill0)]) "Bill Date"
     = Some (Py.rstrip (section_text ("Line Items", bill0))).
Proof.
  split; [reflexivity|]. split; [reflexivity|]. split; [reflexivity|].
  split; [reflexivity|].
  exact (blank_section_takes_the_next_field "Bill Date" "" "Line Items" bill0 []
           eq_refl eq_refl eq_refl eq_refl).
Defined.

(** ** From the form to the line items *)

Lemma rstrip_idempotent s : Py.rstrip (Py.rstrip s) = Py.rstrip s.
Proof.
  induction s as [|c s IH]; [reflexivity|].
  cbn [Py.rstrip]. destruct (Py.rstrip s) as [|d r'] eqn:E.
  - destruct (Py.isspace c) eqn:Hc; [reflexivity|].
    cbn [Py.rstrip]. now rewrite Hc.
  - cbn [Py.rstrip] in *. now rewrite IH.
Qed.

Lemma strip_idempotent s : Py.strip (Py.strip s) = Py.strip s.
Proof.
  unfold Py.strip. destruct (Py.lstrip s) as [|d r] eqn:E; [reflexivity|].
  pose proof (lstrip_head _ _ _ E) as Hd.
  assert (Hl : Py.lstrip (Py.rstrip (String d r)) = Py.rstrip (String d r)).
  { cbn [Py.rstrip]. destruct (Py.rstrip r).
    - rewrite Hd. cbn [Py.lstrip]. now rewrite Hd.
    - cbn [Py.lstrip]. now rewrite Hd. }
  rewrite Hl. apply rstrip_idempotent.
Qed.

(** The parser sees its text through [strip] only. *)
Lemma parse_line_items_through_strip (s t : string) :
  Py.strip s = Py.strip t ->
  parse_line_items (Some s) = parse_line_items (Some t).
Proof.
  intros E. unfold parse_line_items, blank, unfenced. rewrite E.
  destruct (String.eqb_spec s "") as [->|Hs];
    destruct (String.eqb_spec t "") as [->|Ht]; try reflexivity.
  change (Py.strip "") with "" in E. rewrite <- E. reflexivity.
Qed.

(** X24. White space around the pasted text does not count: the parser
    gives the same result, items, messages or error, for a text and for
    the text with any white space put before and after it. *)
Theorem white_space_around_the_text_is_ignored (a text e : string) :
  all_chars Py.isspace a = true ->
  all_chars Py.isspace e = true ->
  parse_line_items (Some (a +:+ text +:+ e)) = parse_line_items (Some text).
Proof.
  intros Ha He. apply parse_line_items_through_strip.
  now apply strip_between.
Qed.

Lemma white_space_around_the_text_is_ignored_witness :
  all_chars Py.isspace (String Py.LF "  ") = true
  /\ all_chars Py.isspace (String Py.CR (String Py.LF "")) = true
  /\ parse_line_items
       (Some (String Py.LF "  " +:+ bill0 +:+ String Py.CR (String Py.LF "")))
     = parse_line_items (Some bill0).
Proof.
  split; [reflexivity|]. split; [reflexivity|].
  exact (white_space_around_the_text_is_ignored
           (String Py.LF "  ") bill0 (String Py.CR (String Py.LF ""))
           eq_refl eq_refl).
Defined.

(** X25. From the form to the line items, as [main] chains the two
    functions: for a form as above whose field of line items is not blank,
    parsing the section that [extract_section] returns gives the same
    result as parsing the value of the field itself. *)
Theorem line_items_of_the_form
  (secs : list (string * string)) (h c : string) :
  forallb plain_section secs = true ->
  first_section h secs = Some c ->
  Py.strip c <> "" ->
  parse_line_items (extract_section (issue_body secs) h)
  = parse_line_items (Some c).
Proof.
  intros Hsecs Hfirst Hne. unfold extract_section.
  destruct (search_section_field secs h c Hsecs Hfirst Hne) as (g & -> & Es).
  cbn [option_map]. apply parse_line_items_through_strip.
  now rewrite strip_idempotent.
Qed.

Lemma line_items_of_the_form_witness :
  forallb plain_section form0 = true
  /\ first_section "Line Items" form0 = Some bill0
  /\ Py.strip bill0 <> ""
  /\ parse_line_items (extract_section (issue_body form0) "Line Items")
     = parse_line_items (Some bill0).
Proof.
  split; [reflexivity|]. split; [reflexivity|].
  split; [discriminate|].
  exact (line_items_of_the_form form0 "Line Items" bill0
           eq_refl eq_refl ltac:(discriminate)).
Defined.
